(** * MCP server health check: a shallow embedding of
      [scripts/check_mcp_servers.py] and the properties of its checks.

    The script is a sequence of environment checks.  Everything it reads
    from the machine (interpreter version, importable modules, stream
    encodings, the file system, the behaviour of the worker processes) is
    gathered in a [Host] record; everything it can change or that changes
    under it (the environment mapping, the two output streams, the table of
    spawned processes) is the [World] that every function threads.
    Python exceptions are the [Raise] outcome of a state-and-error monad.

    The script is embedded twice.  The first part is the script on a
    console that takes every line, with workers whose captured output is
    text, script paths written the way [pathlib] writes them, and no signal
    during a call on a process.  The second part, [General], is the script
    without these assumptions; what the platform then decides is a
    [Platform] record.  [plain_main] relates the two. *)

From stdpp Require Import gmap strings list pretty.
From Stdlib Require Import ZArith Ascii.

Local Open Scope string_scope.
Local Open Scope list_scope.
Local Open Scope Z_scope.

(** ** Python strings

    A Python [str] is held as a Rocq [string]: the bytes of its UTF-8
    encoding, as the string literals of this file are.  A character (a
    code point) is a byte that is not a continuation byte, together with
    the continuation bytes that follow it; for ASCII text one element is
    one character. *)
Module PyStr.

Definition chr (n : nat) : string := String (ascii_of_nat n) "".

(** The newline and the escape character of the ANSI colour codes. *)
Definition nl : string := chr 10.
Definition esc : string := chr 27.

(** [c * n] for a one-character string. *)
Fixpoint mul (s : string) (n : nat) : string :=
  match n with
  | O => ""
  | S n' => s +:+ mul s n'
  end.

(** A continuation byte of UTF-8: [10xxxxxx]. *)
Definition is_continuation (c : ascii) : bool :=
  let n := nat_of_ascii c in
  (128 <=? n)%nat && (n <? 192)%nat.

(** [len(s)]: the number of characters. *)
Fixpoint len (s : string) : nat :=
  match s with
  | EmptyString => O
  | String c s' => if is_continuation c then len s' else S (len s')
  end.

(** [s[:n]]: the first [n] characters. *)
Fixpoint slice_to (n : nat) (s : string) : string :=
  match s with
  | EmptyString => EmptyString
  | String c s' =>
      if is_continuation c then String c (slice_to n s')
      else match n with
           | O => EmptyString
           | S n' => String c (slice_to n' s')
           end
  end.

Definition lower_ascii (c : ascii) : ascii :=
  let n := nat_of_ascii c in
  if (65 <=? n)%nat && (n <=? 90)%nat then ascii_of_nat (n + 32) else c.

(** [s.lower()] *)
Fixpoint lower (s : string) : string :=
  match s with
  | EmptyString => EmptyString
  | String c s' => String (lower_ascii c) (lower s')
  end.

Definition eqb (a b : string) : bool := bool_decide (a = b).

(** Truth value of a string: the empty string is false. *)
Definition truthy (s : string) : bool := negb (eqb s "").

Definition is_space (c : ascii) : bool :=
  let n := nat_of_ascii c in
  ((9 <=? n)%nat && (n <=? 13)%nat) || ((28 <=? n)%nat && (n <=? 32)%nat).

Fixpoint lstrip (s : string) : string :=
  match s with
  | EmptyString => EmptyString
  | String c s' => if is_space c then lstrip s' else s
  end.

Fixpoint rstrip (s : string) : string :=
  match s with
  | EmptyString => EmptyString
  | String c s' =>
      match rstrip s' with
      | EmptyString => if is_space c then EmptyString else String c EmptyString
      | r => String c r
      end
  end.

(** [s.strip()] *)
Definition strip (s : string) : string := rstrip (lstrip s).

(** [s.split('.')]: the pieces between the dots, never an empty list. *)
Fixpoint split_dot (s : string) : list string :=
  match s with
  | EmptyString => [EmptyString]
  | String c s' =>
      if Ascii.eqb c "."%char then EmptyString :: split_dot s'
      else match split_dot s' with
           | [] => [String c EmptyString]
           | p :: ps => String c p :: ps
           end
  end.

(** [needle in s] *)
Fixpoint contains (needle s : string) : bool :=
  String.prefix needle s ||
  match s with
  | EmptyString => false
  | String _ s' => contains needle s'
  end.

End PyStr.

(** ** Exceptions

    The classes the script names or can meet, with Python's inheritance.
    [Exception] and [KeyboardInterrupt] derive from [BaseException]
    directly; every other class of the model derives from [Exception].
    [SystemExit] and [GeneratorExit] are outside the model: the only
    [SystemExit] of a run is the one of [sys.exit(main())]. *)
Inductive ExnClass : Set :=
  | Exception
  | KeyboardInterrupt
  | ImportError
  | ModuleNotFoundError
  | NameError
  | UnboundLocalError
  | OSError
  | FileNotFoundError
  | PermissionError
  | SubprocessError
  | TimeoutExpired
  | RuntimeError
  | ValueError
  | UnicodeError
  | UnicodeEncodeError
  | UnicodeDecodeError.

#[global] Instance ExnClass_eq_dec : EqDecision ExnClass.
Proof. solve_decision. Defined.

(** The method resolution order of a class, below [BaseException]. *)
Definition mro (c : ExnClass) : list ExnClass :=
  match c with
  | Exception => [Exception]
  | KeyboardInterrupt => [KeyboardInterrupt]
  | ImportError => [ImportError; Exception]
  | ModuleNotFoundError => [ModuleNotFoundError; ImportError; Exception]
  | NameError => [NameError; Exception]
  | UnboundLocalError => [UnboundLocalError; NameError; Exception]
  | OSError => [OSError; Exception]
  | FileNotFoundError => [FileNotFoundError; OSError; Exception]
  | PermissionError => [PermissionError; OSError; Exception]
  | SubprocessError => [SubprocessError; Exception]
  | TimeoutExpired => [TimeoutExpired; SubprocessError; Exception]
  | RuntimeError => [RuntimeError; Exception]
  | ValueError => [ValueError; Exception]
  | UnicodeError => [UnicodeError; ValueError; Exception]
  | UnicodeEncodeError => [UnicodeEncodeError; UnicodeError; ValueError; Exception]
  | UnicodeDecodeError => [UnicodeDecodeError; UnicodeError; ValueError; Exception]
  end.

Definition issubclass (c d : ExnClass) : bool := bool_decide (d ∈ mro c).

Definition class_name (c : ExnClass) : string :=
  match c with
  | Exception => "Exception"
  | KeyboardInterrupt => "KeyboardInterrupt"
  | ImportError => "ImportError"
  | ModuleNotFoundError => "ModuleNotFoundError"
  | NameError => "NameError"
  | UnboundLocalError => "UnboundLocalError"
  | OSError => "OSError"
  | FileNotFoundError => "FileNotFoundError"
  | PermissionError => "PermissionError"
  | SubprocessError => "subprocess.SubprocessError"
  | TimeoutExpired => "subprocess.TimeoutExpired"
  | RuntimeError => "RuntimeError"
  | ValueError => "ValueError"
  | UnicodeError => "UnicodeError"
  | UnicodeEncodeError => "UnicodeEncodeError"
  | UnicodeDecodeError => "UnicodeDecodeError"
  end.

(** An exception object: its class and the text [str(e)] gives. *)
Record exn : Set := mkExn { exn_class : ExnClass; exn_str : string }.

(** [isinstance(e, c)], the test an [except c] clause makes. *)
Definition isinstance (e : exn) (c : ExnClass) : bool := issubclass (exn_class e) c.

(** Outcome of a call: a value, or a raised exception. *)
Inductive Result (A : Type) : Type :=
  | Ok (a : A)
  | Raise (e : exn).
Arguments Ok {A} a.
Arguments Raise {A} e.

(** ** Python objects met by the dependency check

    What [importlib.import_module] returns and [getattr] walks: [None], or
    an object with named attributes. *)
#[warnings="-register-all"]
Inductive PyVal : Type :=
  | PyNone
  | PyObject (attrs : list (string * PyVal)).

Fixpoint find_attr {A} (k : string) (l : list (string * A)) : option A :=
  match l with
  | [] => None
  | (k', v) :: l' => if PyStr.eqb k k' then Some v else find_attr k l'
  end.

(** [getattr(v, name, None)] *)
Definition getattr (v : PyVal) (name : string) : PyVal :=
  match v with
  | PyNone => PyNone
  | PyObject attrs => default PyNone (find_attr name attrs)
  end.

Definition is_None (v : PyVal) : bool :=
  match v with PyNone => true | PyObject _ => false end.

(** ** Worker processes *)

(** What a spawned worker does, as far as the probe can observe it. *)
Record Behaviour : Type := mkBehaviour {
  (** exit status reached on its own before the probe polls; [None] when
      the worker stays resident for the probe duration *)
  exits_during_probe : option Z;
  (** what was captured of its standard output and standard error *)
  captured_stdout : string;
  captured_stderr : string;
  (** exit status reached within the termination wait once termination was
      requested; [None] when the worker is still alive when the wait ends *)
  exits_on_terminate : option Z
}.

(** An entry of the process table. *)
Record Proc : Type := mkProc {
  p_args : list string;
  p_env : gmap string string;
  p_behaviour : Behaviour;
  (** [Popen.returncode]: [None] while the process runs *)
  p_returncode : option Z;
  (** number of termination requests delivered while it ran *)
  p_terminate_requests : nat
}.

(** ** The host: everything the script reads and cannot change *)
Record Host : Type := mkHost {
  (** [sys.version_info]: major, minor, micro *)
  sys_version_info : nat * nat * nat;
  sys_version : string;
  sys_executable : string;
  (** [sys.stdout.encoding], [sys.stderr.encoding] *)
  sys_stdout_encoding : option string;
  sys_stderr_encoding : option string;
  sys_getdefaultencoding : string;
  sys_path : list string;
  os_getcwd : Result string;
  (** [subprocess.run(args, capture_output=True, text=True, timeout=5)]:
      the captured standard output of the completed command *)
  subprocess_run : list string -> Result string;
  importlib_import_module : string -> Result PyVal;
  (** [Path(p).exists()] *)
  Path_exists : string -> Result bool;
  (** [subprocess.Popen(args, env=env, ...)] *)
  subprocess_Popen : list string -> gmap string string -> Result Behaviour;
  (** [time.sleep(secs)] started at a given clock value: the exception
      that interrupts it, if any *)
  time_sleep : nat -> nat -> option exn
}.

(** ** The world: state threaded through the run *)
Record World : Type := mkWorld {
  (** [os.environ] of the checker itself *)
  os_environ : gmap string string;
  (** what was printed on standard output, one entry per [print] call *)
  console : list string;
  (** what was written on standard error *)
  console_err : list string;
  (** every process creation request, in order *)
  spawned : list (list string);
  (** the processes created by [subprocess.Popen]; a handle is an index *)
  procs : list Proc;
  (** seconds spent sleeping so far *)
  clock : nat
}.

Definition with_console (f : list string -> list string) (w : World) : World :=
  mkWorld (os_environ w) (f (console w)) (console_err w) (spawned w) (procs w) (clock w).

Definition with_console_err (f : list string -> list string) (w : World) : World :=
  mkWorld (os_environ w) (console w) (f (console_err w)) (spawned w) (procs w) (clock w).

Definition with_spawned (f : list (list string) -> list (list string)) (w : World) : World :=
  mkWorld (os_environ w) (console w) (console_err w) (f (spawned w)) (procs w) (clock w).

Definition with_procs (f : list Proc -> list Proc) (w : World) : World :=
  mkWorld (os_environ w) (console w) (console_err w) (spawned w) (f (procs w)) (clock w).

Definition with_clock (f : nat -> nat) (w : World) : World :=
  mkWorld (os_environ w) (console w) (console_err w) (spawned w) (procs w) (f (clock w)).

(** ** The monad of the script: state and exceptions *)
Definition M (A : Type) : Type := World -> Result A * World.

Definition ret {A} (a : A) : M A := fun w => (Ok a, w).

Definition raise {A} (e : exn) : M A := fun w => (Raise e, w).

Definition bind {A B} (m : M A) (k : A -> M B) : M B :=
  fun w =>
    match m w with
    | (Ok a, w') => k a w'
    | (Raise e, w') => (Raise e, w')
    end.

(** Lift a host call. *)
Definition call {A} (r : Result A) : M A := fun w => (r, w).

Declare Scope py_scope.
Delimit Scope py_scope with py.
Notation "'let*' x ':=' m 'in' k" := (bind m (fun x => k))
  (at level 10, x name, m at level 100, k at level 200) : py_scope.
Notation "m ';;' k" := (bind m (fun _ => k))
  (at level 100, k at level 200, right associativity) : py_scope.
Local Open Scope py_scope.

(** [try: body  except <classes accepted by catches> as e: handler e] *)
Definition try_except {A} (body : M A) (catches : exn -> bool) (handler : exn -> M A) : M A :=
  fun w =>
    match body w with
    | (Ok a, w') => (Ok a, w')
    | (Raise e, w') => if catches e then handler e w' else (Raise e, w')
    end.

(** [try: body  finally: fin]: [fin] always runs; an exception of [fin]
    replaces the outcome of [body]. *)
Definition try_finally {A} (body : M A) (fin : M unit) : M A :=
  fun w =>
    match body w with
    | (r, w') =>
        match fin w' with
        | (Ok _, w'') => (r, w'')
        | (Raise e, w'') => (Raise e, w'')
        end
    end.

(** ** Host operations as monadic calls *)

(** [print(text)] on a console that takes the text: one more entry on the
    console.  [General.print] is the print of any console. *)
Definition print (text : string) : M unit :=
  fun w => (Ok tt, with_console (fun out => out ++ [text]) w).

(** [traceback.print_exc()] for the exception being handled. *)
Definition format_exc (e : exn) : string :=
  "Traceback (most recent call last):" +:+ PyStr.nl +:+
  class_name (exn_class e) +:+ ": " +:+ exn_str e +:+ PyStr.nl.

Definition traceback_print_exc (e : exn) : M unit :=
  fun w => (Ok tt, with_console_err (fun err => err ++ [format_exc e]) w).

(** [os.environ.get(key, dflt)] *)
Definition os_environ_get (key dflt : string) : M string :=
  fun w => (Ok (default dflt (os_environ w !! key)), w).

(** [subprocess.run(args, ...)]: the request is recorded, then the host
    decides. *)
Definition run (h : Host) (args : list string) : M string :=
  fun w => (subprocess_run h args, with_spawned (fun l => l ++ [args]) w).

(** [subprocess.Popen(args, stdout=PIPE, stderr=PIPE, text=True, env=env)]:
    the request is recorded; on success a running process enters the table
    and its index is the handle. *)
Definition Popen (h : Host) (args : list string) (env : gmap string string) : M nat :=
  fun w =>
    let w1 := with_spawned (fun l => l ++ [args]) w in
    match subprocess_Popen h args env with
    | Raise e => (Raise e, w1)
    | Ok b =>
        (Ok (length (procs w1)),
         with_procs (fun ps => ps ++ [mkProc args env b None 0]) w1)
    end.

(** The passing of the probe pause for one process: a running worker that
    exits on its own has done so. *)
Definition elapse (p : Proc) : Proc :=
  match p_returncode p, exits_during_probe (p_behaviour p) with
  | None, Some c =>
      mkProc (p_args p) (p_env p) (p_behaviour p) (Some c) (p_terminate_requests p)
  | _, _ => p
  end.

(** [time.sleep(secs)].  An interrupted pause is taken to end before any
    worker has exited; [General.sleep] leaves that to the platform. *)
Definition sleep (h : Host) (secs : nat) : M unit :=
  fun w =>
    match time_sleep h (clock w) secs with
    | Some e => (Raise e, w)
    | None => (Ok tt, with_clock (fun t => (t + secs)%nat) (with_procs (fmap elapse) w))
    end.

Definition no_such_process : exn := mkExn OSError "no such process".

Definition with_proc {A} (process : nat) (k : Proc -> M A) : M A :=
  fun w =>
    match procs w !! process with
    | Some p => k p w
    | None => (Raise no_such_process, w)
    end.

(** [process.poll()] *)
Definition poll (process : nat) : M (option Z) :=
  with_proc process (fun p => ret (p_returncode p)).

(** [process.terminate()]: a request to a process that still runs; nothing
    for one that has exited. *)
Definition terminate (process : nat) : M unit :=
  with_proc process (fun p w =>
    match p_returncode p with
    | Some _ => (Ok tt, w)
    | None =>
        (Ok tt,
         with_procs
           (fun ps => <[process := mkProc (p_args p) (p_env p) (p_behaviour p) None
                                          (S (p_terminate_requests p))]> ps) w)
    end).

(** [repr] of a list of strings, for texts without quotes or escapes. *)
Definition repr_list (l : list string) : string :=
  "[" +:+ String.concat ", " ((fun s => "'" +:+ s +:+ "'") <$> l) +:+ "]".

Definition timeout_expired (p : Proc) (secs : nat) : exn :=
  mkExn TimeoutExpired
        ("Command '" +:+ repr_list (p_args p) +:+ "' timed out after "
           +:+ pretty secs +:+ " seconds").

(** [process.wait(timeout=secs)]: returns the exit status of a process that
    has exited, or that exits in answer to a termination request; raises
    [TimeoutExpired] for one still alive when the wait ends. *)
Definition wait (process : nat) (secs : nat) : M Z :=
  with_proc process (fun p w =>
    match p_returncode p with
    | Some c => (Ok c, w)
    | None =>
        match p_terminate_requests p, exits_on_terminate (p_behaviour p) with
        | S _, Some c =>
            (Ok c,
             with_procs
               (fun ps => <[process := mkProc (p_args p) (p_env p) (p_behaviour p) (Some c)
                                              (p_terminate_requests p)]> ps) w)
        | _, _ => (Raise (timeout_expired p secs), w)
        end
    end).

(** [process.communicate()] on a process that has exited: the captured
    standard output and standard error, taken as the text they encode.
    [General.communicate] decodes them. *)
Definition communicate (process : nat) : M (string * string) :=
  with_proc process (fun p =>
    ret (captured_stdout (p_behaviour p), captured_stderr (p_behaviour p))).

(** Reading a local variable: an unbound one raises [UnboundLocalError]. *)
Definition load_local {A} (name : string) (slot : option A) : M A :=
  match slot with
  | Some v => ret v
  | None =>
      raise (mkExn UnboundLocalError
               ("cannot access local variable '" +:+ name
                  +:+ "' where it is not associated with a value"))
  end.

(** ** Terminal output *)
Module Colors.
Definition GREEN : string := PyStr.esc +:+ "[92m".
Definition RED : string := PyStr.esc +:+ "[91m".
Definition YELLOW : string := PyStr.esc +:+ "[93m".
Definition BLUE : string := PyStr.esc +:+ "[94m".
Definition RESET : string := PyStr.esc +:+ "[0m".
Definition BOLD : string := PyStr.esc +:+ "[1m".
End Colors.

Definition rule : string := PyStr.mul "=" 60.

Definition header_lines (text : string) : list string :=
  [ PyStr.nl +:+ Colors.BOLD +:+ Colors.BLUE +:+ rule +:+ Colors.RESET;
    Colors.BOLD +:+ Colors.BLUE +:+ text +:+ Colors.RESET;
    Colors.BOLD +:+ Colors.BLUE +:+ rule +:+ Colors.RESET +:+ PyStr.nl ].

Definition success_line (text : string) : string :=
  Colors.GREEN +:+ "✓ " +:+ text +:+ Colors.RESET.
Definition error_line (text : string) : string :=
  Colors.RED +:+ "✗ " +:+ text +:+ Colors.RESET.
Definition warning_line (text : string) : string :=
  Colors.YELLOW +:+ "⚠ " +:+ text +:+ Colors.RESET.
Definition info_line (text : string) : string :=
  Colors.BLUE +:+ "ℹ " +:+ text +:+ Colors.RESET.

Definition print_header (text : string) : M unit :=
  print (PyStr.nl +:+ Colors.BOLD +:+ Colors.BLUE +:+ rule +:+ Colors.RESET) ;;
  print (Colors.BOLD +:+ Colors.BLUE +:+ text +:+ Colors.RESET) ;;
  print (Colors.BOLD +:+ Colors.BLUE +:+ rule +:+ Colors.RESET +:+ PyStr.nl).

Definition print_success (text : string) : M unit := print (success_line text).
Definition print_error (text : string) : M unit := print (error_line text).
Definition print_warning (text : string) : M unit := print (warning_line text).
Definition print_info (text : string) : M unit := print (info_line text).

(** ** The checks *)

(** Comparison [a >= b] of two tuples of integers, as Python orders
    tuples: by the first position that differs, a proper prefix being
    smaller. *)
Fixpoint tuple_ge (a b : list nat) : bool :=
  match a, b with
  | _, [] => true
  | [], _ :: _ => false
  | x :: a', y :: b' =>
      if (x <? y)%nat then false
      else if (y <? x)%nat then true
      else tuple_ge a' b'
  end.

Definition version_text (v : nat * nat * nat) : string :=
  let '(major, minor, micro) := v in
  pretty major +:+ "." +:+ pretty minor +:+ "." +:+ pretty micro.

(** [check_python_version()].  Of [sys.version_info] the comparison with
    [(3, 8)] reads the integer components only. *)
Definition check_python_version (h : Host) : M bool :=
  print_header "1. Checking Python Version" ;;
  let version := sys_version_info h in
  print_info ("Python version: " +:+ sys_version h) ;;
  let '(major, minor, micro) := version in
  if tuple_ge [major; minor; micro] [3; 8]%nat then
    print_success ("Python " +:+ version_text version
                     +:+ " meets requirements (>= 3.8)") ;;
    ret true
  else
    print_error ("Python " +:+ version_text version
                   +:+ " is too old. Python 3.8+ required") ;;
    ret false.

(** [check_python_path()] *)
Definition check_python_path (h : Host) : M bool :=
  print_header "2. Checking Python Executable" ;;
  print_info ("Python executable: " +:+ sys_executable h) ;;
  try_except
    (let* result := run h ["python"; "--version"] in
     print_success ("'python' command available: " +:+ PyStr.strip result))
    (fun e => isinstance e Exception)
    (fun e =>
       print_warning ("'python' command not available: " +:+ exn_str e) ;;
       print_info "  Note: Use 'python3' instead on Unix/Linux systems") ;;
  ret true.

Definition required_packages : list string :=
  [ "mcp";
    "mcp.server";
    "mcp.server.fastmcp";
    "anthropic";
    "openai";
    "google.genai";
    "aiofiles" ].

(** The inner loop [for part in parts[1:]] of the dependency check. *)
Fixpoint walk_parts (package : string) (mod_ : PyVal) (parts : list string) : M PyVal :=
  match parts with
  | [] => ret mod_
  | part :: rest =>
      let mod_ := getattr mod_ part in
      if is_None mod_ then
        raise (mkExn ImportError ("Cannot import " +:+ package))
      else walk_parts package mod_ rest
  end.

(** The [try] suite of the dependency check for one package, after
    [parts = package.split('.')]. *)
Definition import_package (h : Host) (package : string) (parts : list string) : M unit :=
  (if (List.length parts =? 1)%nat then
     let* _ := call (importlib_import_module h package) in ret tt
   else
     let* mod_ := call (importlib_import_module h (default "" (head parts))) in
     let* _ := walk_parts package mod_ (tail parts) in ret tt) ;;
  print_success ("Package '" +:+ package +:+ "' is installed").

(** One iteration of the loop over [required_packages]; returns the new
    value of [all_ok]. *)
Definition check_package (h : Host) (all_ok : bool) (package : string) : M bool :=
  let parts := PyStr.split_dot package in
  try_except
    (import_package h package parts ;; ret all_ok)
    (fun e => isinstance e ImportError)
    (fun e =>
       print_error ("Package '" +:+ package +:+ "' is NOT installed") ;;
       print_info ("  Install with: pip install " +:+ default "" (head parts)) ;;
       ret false).

Fixpoint check_packages (h : Host) (all_ok : bool) (packages : list string) : M bool :=
  match packages with
  | [] => ret all_ok
  | package :: rest =>
      let* all_ok := check_package h all_ok package in
      check_packages h all_ok rest
  end.

(** [check_dependencies()] *)
Definition check_dependencies (h : Host) : M bool :=
  print_header "3. Checking Required Dependencies" ;;
  check_packages h true required_packages.

(** [enc or "unknown"] for an encoding that may be [None] *)
Definition or_unknown (enc : option string) : string :=
  match enc with
  | Some s => if PyStr.truthy s then s else "unknown"
  | None => "unknown"
  end.

(** [check_encoding()] *)
Definition check_encoding (h : Host) : M bool :=
  print_header "4. Checking Encoding Configuration" ;;
  let stdout_enc := or_unknown (sys_stdout_encoding h) in
  let stderr_enc := or_unknown (sys_stderr_encoding h) in
  print_info ("stdout encoding: " +:+ stdout_enc) ;;
  print_info ("stderr encoding: " +:+ stderr_enc) ;;
  print_info ("Default encoding: " +:+ sys_getdefaultencoding h) ;;
  let* pythonioencoding := os_environ_get "PYTHONIOENCODING" "Not set" in
  print_info ("PYTHONIOENCODING: " +:+ pythonioencoding) ;;
  let stdout_is_utf8 :=
    if negb (PyStr.eqb stdout_enc "unknown")
    then PyStr.eqb (PyStr.lower stdout_enc) "utf-8" else false in
  let env_is_utf8 :=
    if negb (PyStr.eqb pythonioencoding "Not set")
    then PyStr.eqb (PyStr.lower pythonioencoding) "utf-8" else false in
  if stdout_is_utf8 || env_is_utf8 then
    print_success "UTF-8 encoding is configured" ;;
    ret true
  else
    print_warning "UTF-8 encoding not set. Set PYTHONIOENCODING=utf-8" ;;
    ret false.

(** The part of the [try] suite of [check_mcp_server] that follows the
    binding of [process]. *)
Definition probe (h : Host) (server_name : string) (timeout : nat) (process : nat) : M bool :=
  sleep h timeout ;;
  let* poll_ := poll process in
  match poll_ with
  | None =>
      print_success (server_name +:+ " started successfully") ;;
      terminate process ;;
      let* _ := wait process 2 in
      ret true
  | Some code =>
      let* out_err := communicate process in
      let '(stdout, stderr) := out_err in
      if (code =? 0)%Z then
        print_warning (server_name +:+ " exited normally (might be waiting for input)") ;;
        (if PyStr.truthy stdout
         then print_info ("stdout:" +:+ PyStr.nl +:+ PyStr.slice_to 500 stdout)
         else ret tt) ;;
        ret true
      else
        print_error (server_name +:+ " failed to start (exit code: " +:+ pretty code +:+ ")") ;;
        (if PyStr.truthy stderr
         then print_error ("stderr:" +:+ PyStr.nl +:+ PyStr.slice_to 500 stderr)
         else ret tt) ;;
        ret false
  end.

(** The [try] suite of [check_mcp_server].  Besides its outcome it gives
    the binding of the local variable [process], which the [finally]
    suite reads: unbound when [Popen] raised. *)
Definition probe_try (h : Host) (script_path server_name : string) (timeout : nat)
  : World -> Result bool * option nat * World :=
  fun w =>
    let env := <["PYTHONIOENCODING" := "utf-8"]> (os_environ w) in
    match Popen h [sys_executable h; script_path] env w with
    | (Raise e, w1) => (Raise e, None, w1)
    | (Ok process, w1) =>
        let '(r, w2) := probe h server_name timeout process w1 in
        (r, Some process, w2)
    end.

(** The [try] suite inside the [finally] suite; it reads the local
    variable [process]. *)
Definition probe_cleanup_body (process : option nat) : M unit :=
  let* p := load_local "process" process in
  let* poll_ := poll p in
  match poll_ with
  | None => terminate p ;; let* _ := wait p 2 in ret tt
  | Some _ => ret tt
  end.

(** The [finally] suite: the body under its bare [except: pass]. *)
Definition probe_cleanup (process : option nat) : M unit :=
  try_except (probe_cleanup_body process) (fun _ => true) (fun _ => ret tt).

(** [check_mcp_server(server_script, server_name, timeout=3)] for a path
    that [pathlib] writes as it is given, as the two paths of [main] are:
    [str(Path(server_script))] is then [server_script].
    [General.check_mcp_server] takes any path. *)
Definition check_mcp_server (h : Host) (server_script server_name : string)
    (timeout : nat) : M bool :=
  print_header ("5. Testing " +:+ server_name) ;;
  let script_path := server_script in
  let* found := call (Path_exists h script_path) in
  if negb found then
    print_error ("Server script not found: " +:+ server_script) ;;
    ret false
  else
    print_info ("Testing: " +:+ server_script) ;;
    fun w =>
      let '(r, process, w1) := probe_try h script_path server_name timeout w in
      try_finally
        (try_except (fun w' => (r, w'))
           (fun e => isinstance e Exception)
           (fun e =>
              print_error ("Failed to test " +:+ server_name +:+ ": " +:+ exn_str e) ;;
              ret false))
        (probe_cleanup process)
        w1.

(** [check_pythonpath()] *)
Definition check_pythonpath (h : Host) : M bool :=
  print_header "6. Checking PYTHONPATH" ;;
  let* pythonpath := os_environ_get "PYTHONPATH" "Not set" in
  print_info ("PYTHONPATH: " +:+ pythonpath) ;;
  let* current_dir := call (os_getcwd h) in
  if bool_decide (current_dir ∈ sys_path h) || bool_decide ("." ∈ sys_path h) then
    print_success "Current directory is in Python path" ;;
    ret true
  else
    print_warning "Current directory not in Python path" ;;
    print_info "  Set PYTHONPATH=. or add current directory to sys.path" ;;
    ret false.

(** ** [main] *)

(** The default of the [timeout] parameter of [check_mcp_server]. *)
Definition default_timeout : nat := 3.

(** The first half of [main]: the banner and the checks, in order, each
    appending its pair to [results]. *)
Definition main_checks (h : Host) : M (list (string * bool)) :=
  print (PyStr.nl +:+ Colors.BOLD +:+ rule) ;;
  print "  MCP Server Health Check" ;;
  print (rule +:+ Colors.RESET +:+ PyStr.nl) ;;
  let results := [] in
  let* r := check_python_version h in
  let results := results ++ [("Python Version", r)] in
  let* r := check_python_path h in
  let results := results ++ [("Python Path", r)] in
  let* r := check_dependencies h in
  let results := results ++ [("Dependencies", r)] in
  let* r := check_encoding h in
  let results := results ++ [("Encoding", r)] in
  let* r := check_pythonpath h in
  let results := results ++ [("PYTHONPATH", r)] in
  let* r := check_mcp_server h "tools/command_executor.py"
              "Command Executor Server" default_timeout in
  let results := results ++ [("Command Executor", r)] in
  let* r := check_mcp_server h "tools/code_implementation_server.py"
              "Code Implementation Server" default_timeout in
  let results := results ++ [("Code Implementation", r)] in
  ret results.

Fixpoint print_results (results : list (string * bool)) : M unit :=
  match results with
  | [] => ret tt
  | (name, result) :: rest =>
      (if result : bool then print_success (name +:+ ": PASS")
       else print_error (name +:+ ": FAIL")) ;;
      print_results rest
  end.

Definition total_line (passed total : nat) : string :=
  PyStr.nl +:+ Colors.BOLD +:+ "Total: " +:+ pretty passed +:+ "/" +:+ pretty total
    +:+ " checks passed" +:+ Colors.RESET +:+ PyStr.nl.

(** The second half of [main]: the summary and the return value. *)
Definition main_summary (results : list (string * bool)) : M Z :=
  print_header "Summary" ;;
  let passed := List.length (filter (fun nr => snd nr = true) results) in
  let total := List.length results in
  print_results results ;;
  print (total_line passed total) ;;
  if (passed =? total)%nat then
    print_success "All checks passed! Your MCP server setup is ready." ;;
    ret 0
  else
    print_error "Some checks failed. Please review the errors above." ;;
    print_info (PyStr.nl +:+ "For detailed troubleshooting, see: docs/TROUBLESHOOTING_MCP.md") ;;
    ret 1.

Definition main (h : Host) : M Z :=
  let* results := main_checks h in
  main_summary results.

(** The [if __name__ == "__main__"] block: the exit status of the process
    and the final world.  [sys.exit(main())] exits with the value [main]
    returned; the two handlers exit with 130 and 1.  Every exception of the
    model that is not a [KeyboardInterrupt] is an [Exception]
    ([isinstance_cases] below), so the second handler takes all the
    others. *)
Definition script (h : Host) (w : World) : Z * World :=
  match main h w with
  | (Ok code, w') => (code, w')
  | (Raise e, w') =>
      if isinstance e KeyboardInterrupt then
        (130, snd (print (PyStr.nl +:+ Colors.YELLOW +:+ "Health check interrupted by user"
                            +:+ Colors.RESET) w'))
      else
        (1, snd ((print_error ("Unexpected error: " +:+ exn_str e) ;;
                  traceback_print_exc e) w'))
  end.

(** * The script on any platform

    The functions above are the script where every line can be written to
    standard output, where the text captured from a worker is the text it
    wrote, where a path is written the way [pathlib] writes it, and where
    nothing arrives during a call on a process.  The functions of
    [General] are the same script without these four assumptions: what
    the platform adds to the host is gathered in a [Platform] record. *)

(** The calls [check_mcp_server] makes on the process object: four in the
    [try] suite, three in the [finally] suite. *)
Inductive CallSite : Set :=
  | at_poll
  | at_terminate
  | at_wait
  | at_communicate
  | cleanup_poll
  | cleanup_terminate
  | cleanup_wait.

#[global] Instance CallSite_eq_dec : EqDecision CallSite.
Proof. solve_decision. Defined.

(** The calls of the [try] suite. *)
Definition in_try (site : CallSite) : bool :=
  match site with
  | at_poll | at_terminate | at_wait | at_communicate => true
  | cleanup_poll | cleanup_terminate | cleanup_wait => false
  end.

Record Platform : Type := mkPlatform {
  (** the write of one [print] on [sys.stdout], given what the console
      holds and the text: the exception it raises, if any
      ([UnicodeEncodeError] where the encoding of the stream lacks a
      character of the text, [OSError] on a closed pipe, an interrupt) *)
  stdout_write : list string -> string -> option exn;
  (** [str(Path(p))] *)
  Path_str : string -> string;
  (** what [communicate()] makes of the bytes captured on the two pipes
      opened with [text=True]: the two texts, or the exception of the
      decoding *)
  pipes_text : string -> string -> Result (string * string);
  (** the exception, if any, that arrives while a call on a process is in
      progress, by handle and call: an interrupt, an error of the call *)
  arrives : nat -> CallSite -> option exn;
  (** whether a worker, by handle, that exits on its own during the pause
      has done so by the time the pause is interrupted *)
  exited_early : nat -> bool
}.

Module General.

(** [print(text)] *)
Definition print (p : Platform) (text : string) : M unit :=
  fun w =>
    match stdout_write p (console w) text with
    | Some e => (Raise e, w)
    | None => (Ok tt, with_console (fun out => out ++ [text]) w)
    end.

Definition print_header (p : Platform) (text : string) : M unit :=
  print p (PyStr.nl +:+ Colors.BOLD +:+ Colors.BLUE +:+ rule +:+ Colors.RESET) ;;
  print p (Colors.BOLD +:+ Colors.BLUE +:+ text +:+ Colors.RESET) ;;
  print p (Colors.BOLD +:+ Colors.BLUE +:+ rule +:+ Colors.RESET +:+ PyStr.nl).

Definition print_success (p : Platform) (text : string) : M unit :=
  print p (success_line text).
Definition print_error (p : Platform) (text : string) : M unit :=
  print p (error_line text).
Definition print_warning (p : Platform) (text : string) : M unit :=
  print p (warning_line text).
Definition print_info (p : Platform) (text : string) : M unit :=
  print p (info_line text).

(** [time.sleep(secs)]: when the pause is interrupted, the workers that
    had exited by then have exited. *)
Definition sleep (h : Host) (p : Platform) (secs : nat) : M unit :=
  fun w =>
    match time_sleep h (clock w) secs with
    | Some e =>
        (Raise e,
         with_procs (imap (fun i q => if exited_early p i then elapse q else q)) w)
    | None => (Ok tt, with_clock (fun t => (t + secs)%nat) (with_procs (fmap elapse) w))
    end.

(** A call on a process: what arrives during the call comes out of it, and
    the call has then done nothing. *)
Definition during {A} (p : Platform) (process : nat) (site : CallSite) (m : M A) : M A :=
  match arrives p process site with
  | Some e => raise e
  | None => m
  end.

(** [process.poll()], [process.terminate()], [process.wait(timeout=secs)] *)
Definition poll (p : Platform) (site : CallSite) (process : nat) : M (option Z) :=
  during p process site (poll process).

Definition terminate (p : Platform) (site : CallSite) (process : nat) : M unit :=
  during p process site (terminate process).

Definition wait (p : Platform) (site : CallSite) (process : nat) (secs : nat) : M Z :=
  during p process site (wait process secs).

(** [process.communicate()] on a process that has exited: the texts of
    what was captured. *)
Definition communicate (p : Platform) (process : nat) : M (string * string) :=
  during p process at_communicate
    (with_proc process (fun q =>
       call (pipes_text p (captured_stdout (p_behaviour q))
                          (captured_stderr (p_behaviour q))))).

(** [check_python_version()] *)
Definition check_python_version (h : Host) (p : Platform) : M bool :=
  print_header p "1. Checking Python Version" ;;
  let version := sys_version_info h in
  print_info p ("Python version: " +:+ sys_version h) ;;
  let '(major, minor, micro) := version in
  if tuple_ge [major; minor; micro] [3; 8]%nat then
    print_success p ("Python " +:+ version_text version
                       +:+ " meets requirements (>= 3.8)") ;;
    ret true
  else
    print_error p ("Python " +:+ version_text version
                     +:+ " is too old. Python 3.8+ required") ;;
    ret false.

(** [check_python_path()] *)
Definition check_python_path (h : Host) (p : Platform) : M bool :=
  print_header p "2. Checking Python Executable" ;;
  print_info p ("Python executable: " +:+ sys_executable h) ;;
  try_except
    (let* result := run h ["python"; "--version"] in
     print_success p ("'python' command available: " +:+ PyStr.strip result))
    (fun e => isinstance e Exception)
    (fun e =>
       print_warning p ("'python' command not available: " +:+ exn_str e) ;;
       print_info p "  Note: Use 'python3' instead on Unix/Linux systems") ;;
  ret true.

(** The [try] suite of the dependency check for one package. *)
Definition import_package (h : Host) (p : Platform) (package : string)
    (parts : list string) : M unit :=
  (if (List.length parts =? 1)%nat then
     let* _ := call (importlib_import_module h package) in ret tt
   else
     let* mod_ := call (importlib_import_module h (default "" (head parts))) in
     let* _ := walk_parts package mod_ (tail parts) in ret tt) ;;
  print_success p ("Package '" +:+ package +:+ "' is installed").

Definition check_package (h : Host) (p : Platform) (all_ok : bool) (package : string)
  : M bool :=
  let parts := PyStr.split_dot package in
  try_except
    (import_package h p package parts ;; ret all_ok)
    (fun e => isinstance e ImportError)
    (fun e =>
       print_error p ("Package '" +:+ package +:+ "' is NOT installed") ;;
       print_info p ("  Install with: pip install " +:+ default "" (head parts)) ;;
       ret false).

Fixpoint check_packages (h : Host) (p : Platform) (all_ok : bool) (packages : list string)
  : M bool :=
  match packages with
  | [] => ret all_ok
  | package :: rest =>
      let* all_ok := check_package h p all_ok package in
      check_packages h p all_ok rest
  end.

(** [check_dependencies()] *)
Definition check_dependencies (h : Host) (p : Platform) : M bool :=
  print_header p "3. Checking Required Dependencies" ;;
  check_packages h p true required_packages.

(** [check_encoding()] *)
Definition check_encoding (h : Host) (p : Platform) : M bool :=
  print_header p "4. Checking Encoding Configuration" ;;
  let stdout_enc := or_unknown (sys_stdout_encoding h) in
  let stderr_enc := or_unknown (sys_stderr_encoding h) in
  print_info p ("stdout encoding: " +:+ stdout_enc) ;;
  print_info p ("stderr encoding: " +:+ stderr_enc) ;;
  print_info p ("Default encoding: " +:+ sys_getdefaultencoding h) ;;
  let* pythonioencoding := os_environ_get "PYTHONIOENCODING" "Not set" in
  print_info p ("PYTHONIOENCODING: " +:+ pythonioencoding) ;;
  let stdout_is_utf8 :=
    if negb (PyStr.eqb stdout_enc "unknown")
    then PyStr.eqb (PyStr.lower stdout_enc) "utf-8" else false in
  let env_is_utf8 :=
    if negb (PyStr.eqb pythonioencoding "Not set")
    then PyStr.eqb (PyStr.lower pythonioencoding) "utf-8" else false in
  if stdout_is_utf8 || env_is_utf8 then
    print_success p "UTF-8 encoding is configured" ;;
    ret true
  else
    print_warning p "UTF-8 encoding not set. Set PYTHONIOENCODING=utf-8" ;;
    ret false.

(** The part of the [try] suite of [check_mcp_server] that follows the
    binding of [process]. *)
Definition probe (h : Host) (p : Platform) (server_name : string) (timeout : nat)
    (process : nat) : M bool :=
  sleep h p timeout ;;
  let* poll_ := poll p at_poll process in
  match poll_ with
  | None =>
      print_success p (server_name +:+ " started successfully") ;;
      terminate p at_terminate process ;;
      let* _ := wait p at_wait process 2 in
      ret true
  | Some code =>
      let* out_err := communicate p process in
      let '(stdout, stderr) := out_err in
      if (code =? 0)%Z then
        print_warning p (server_name +:+ " exited normally (might be waiting for input)") ;;
        (if PyStr.truthy stdout
         then print_info p ("stdout:" +:+ PyStr.nl +:+ PyStr.slice_to 500 stdout)
         else ret tt) ;;
        ret true
      else
        print_error p (server_name +:+ " failed to start (exit code: "
                         +:+ pretty code +:+ ")") ;;
        (if PyStr.truthy stderr
         then print_error p ("stderr:" +:+ PyStr.nl +:+ PyStr.slice_to 500 stderr)
         else ret tt) ;;
        ret false
  end.

(** The [try] suite of [check_mcp_server], with the binding it leaves of
    the local variable [process]. *)
Definition probe_try (h : Host) (p : Platform) (script_path server_name : string)
    (timeout : nat) : World -> Result bool * option nat * World :=
  fun w =>
    let env := <["PYTHONIOENCODING" := "utf-8"]> (os_environ w) in
    match Popen h [sys_executable h; script_path] env w with
    | (Raise e, w1) => (Raise e, None, w1)
    | (Ok process, w1) =>
        let '(r, w2) := probe h p server_name timeout process w1 in
        (r, Some process, w2)
    end.

(** The [try] suite inside the [finally] suite. *)
Definition probe_cleanup_body (p : Platform) (process : option nat) : M unit :=
  let* n := load_local "process" process in
  let* poll_ := poll p cleanup_poll n in
  match poll_ with
  | None =>
      terminate p cleanup_terminate n ;;
      let* _ := wait p cleanup_wait n 2 in ret tt
  | Some _ => ret tt
  end.

(** The [finally] suite: the body under its bare [except: pass]. *)
Definition probe_cleanup (p : Platform) (process : option nat) : M unit :=
  try_except (probe_cleanup_body p process) (fun _ => true) (fun _ => ret tt).

(** [check_mcp_server(server_script, server_name, timeout=3)].  The
    messages show [server_script]; the file system and the new process get
    [str(script_path)]. *)
Definition check_mcp_server (h : Host) (p : Platform) (server_script server_name : string)
    (timeout : nat) : M bool :=
  print_header p ("5. Testing " +:+ server_name) ;;
  let script_path := Path_str p server_script in
  let* found := call (Path_exists h script_path) in
  if negb found then
    print_error p ("Server script not found: " +:+ server_script) ;;
    ret false
  else
    print_info p ("Testing: " +:+ server_script) ;;
    fun w =>
      let '(r, process, w1) := probe_try h p script_path server_name timeout w in
      try_finally
        (try_except (fun w' => (r, w'))
           (fun e => isinstance e Exception)
           (fun e =>
              print_error p ("Failed to test " +:+ server_name +:+ ": " +:+ exn_str e) ;;
              ret false))
        (probe_cleanup p process)
        w1.

(** [check_pythonpath()] *)
Definition check_pythonpath (h : Host) (p : Platform) : M bool :=
  print_header p "6. Checking PYTHONPATH" ;;
  let* pythonpath := os_environ_get "PYTHONPATH" "Not set" in
  print_info p ("PYTHONPATH: " +:+ pythonpath) ;;
  let* current_dir := call (os_getcwd h) in
  if bool_decide (current_dir ∈ sys_path h) || bool_decide ("." ∈ sys_path h) then
    print_success p "Current directory is in Python path" ;;
    ret true
  else
    print_warning p "Current directory not in Python path" ;;
    print_info p "  Set PYTHONPATH=. or add current directory to sys.path" ;;
    ret false.

(** The banner of [main]. *)
Definition banner (p : Platform) : M unit :=
  print p (PyStr.nl +:+ Colors.BOLD +:+ rule) ;;
  print p "  MCP Server Health Check" ;;
  print p (rule +:+ Colors.RESET +:+ PyStr.nl).

(** The first half of [main]: the banner and the checks, in order, each
    appending its pair to [results]. *)
Definition main_checks (h : Host) (p : Platform) : M (list (string * bool)) :=
  banner p ;;
  let results := [] in
  let* r := check_python_version h p in
  let results := results ++ [("Python Version", r)] in
  let* r := check_python_path h p in
  let results := results ++ [("Python Path", r)] in
  let* r := check_dependencies h p in
  let results := results ++ [("Dependencies", r)] in
  let* r := check_encoding h p in
  let results := results ++ [("Encoding", r)] in
  let* r := check_pythonpath h p in
  let results := results ++ [("PYTHONPATH", r)] in
  let* r := check_mcp_server h p "tools/command_executor.py"
              "Command Executor Server" default_timeout in
  let results := results ++ [("Command Executor", r)] in
  let* r := check_mcp_server h p "tools/code_implementation_server.py"
              "Code Implementation Server" default_timeout in
  let results := results ++ [("Code Implementation", r)] in
  ret results.

Fixpoint print_results (p : Platform) (results : list (string * bool)) : M unit :=
  match results with
  | [] => ret tt
  | (name, result) :: rest =>
      (if result : bool then print_success p (name +:+ ": PASS")
       else print_error p (name +:+ ": FAIL")) ;;
      print_results p rest
  end.

(** The second half of [main]: the summary and the return value. *)
Definition main_summary (p : Platform) (results : list (string * bool)) : M Z :=
  print_header p "Summary" ;;
  let passed := List.length (filter (fun nr => snd nr = true) results) in
  let total := List.length results in
  print_results p results ;;
  print p (total_line passed total) ;;
  if (passed =? total)%nat then
    print_success p "All checks passed! Your MCP server setup is ready." ;;
    ret 0
  else
    print_error p "Some checks failed. Please review the errors above." ;;
    print_info p (PyStr.nl +:+ "For detailed troubleshooting, see: docs/TROUBLESHOOTING_MCP.md") ;;
    ret 1.

Definition main (h : Host) (p : Platform) : M Z :=
  let* results := main_checks h p in
  main_summary p results.

End General.

(** ** Sample hosts *)
Module Samples.

Definition module_mcp : PyVal :=
  PyObject [("server", PyObject [("fastmcp", PyObject [])])].

Definition module_not_found (name : string) : exn :=
  mkExn ModuleNotFoundError ("No module named '" +:+ name +:+ "'").

Definition installed (name : string) : Result PyVal :=
  if PyStr.eqb name "mcp" then Ok module_mcp
  else if PyStr.eqb name "google" then Ok (PyObject [("genai", PyObject [])])
  else if PyStr.eqb name "anthropic" then Ok (PyObject [])
  else if PyStr.eqb name "openai" then Ok (PyObject [])
  else if PyStr.eqb name "aiofiles" then Ok (PyObject [])
  else Raise (module_not_found name).

(** A worker that stays resident and exits when asked to. *)
Definition resident : Behaviour := mkBehaviour None "" "" (Some (-15)).

(** A worker that stays resident and does not exit when asked to. *)
Definition stubborn : Behaviour := mkBehaviour None "" "" None.

(** Workers that exit at once, with status 0 and with status 1. *)
Definition quits (out : string) : Behaviour := mkBehaviour (Some 0) out "" (Some (-15)).
Definition crashes (err : string) : Behaviour := mkBehaviour (Some 1) "" err (Some (-15)).

(** A machine on which everything is in place. *)
Definition healthy (worker : Behaviour) : Host :=
  {| sys_version_info := (3, 11, 4)%nat;
     sys_version := "3.11.4 (main, Jun  7 2023, 12:45:48) [GCC 11.3.0]";
     sys_executable := "/usr/bin/python3";
     sys_stdout_encoding := Some "utf-8";
     sys_stderr_encoding := Some "utf-8";
     sys_getdefaultencoding := "utf-8";
     sys_path := ["/home/dev/DeepCode/scripts"; "/home/dev/DeepCode"];
     os_getcwd := Ok "/home/dev/DeepCode";
     subprocess_run := fun _ => Ok ("Python 3.11.4" +:+ PyStr.nl);
     importlib_import_module := installed;
     Path_exists := fun _ => Ok true;
     subprocess_Popen := fun _ _ => Ok worker;
     time_sleep := fun _ _ => None |}.


(** A machine on which creating a process fails. *)
Definition no_spawn (e : exn) : Host :=
  {| sys_version_info := (3, 11, 4)%nat;
     sys_version := "3.11.4 (main, Jun  7 2023, 12:45:48) [GCC 11.3.0]";
     sys_executable := "/usr/bin/python3";
     sys_stdout_encoding := Some "utf-8";
     sys_stderr_encoding := Some "utf-8";
     sys_getdefaultencoding := "utf-8";
     sys_path := ["/home/dev/DeepCode/scripts"; "/home/dev/DeepCode"];
     os_getcwd := Ok "/home/dev/DeepCode";
     subprocess_run := fun _ => Ok ("Python 3.11.4" +:+ PyStr.nl);
     importlib_import_module := installed;
     Path_exists := fun _ => Ok true;
     subprocess_Popen := fun _ _ => Raise e;
     time_sleep := fun _ _ => None |}.

(** A machine without the worker scripts. *)
Definition no_scripts : Host :=
  {| sys_version_info := (3, 7, 9)%nat;
     sys_version := "3.7.9 (default, Aug 31 2020, 12:42:55)";
     sys_executable := "/usr/bin/python3";
     sys_stdout_encoding := None;
     sys_stderr_encoding := None;
     sys_getdefaultencoding := "utf-8";
     sys_path := ["/home/dev/DeepCode/scripts"];
     os_getcwd := Ok "/home/dev/DeepCode";
     subprocess_run := fun _ =>
       Raise (mkExn FileNotFoundError "[Errno 2] No such file or directory: 'python'");
     importlib_import_module := installed;
     Path_exists := fun _ => Ok false;
     subprocess_Popen := fun _ _ => Ok resident;
     time_sleep := fun _ _ => None |}.

(** The healthy machine with an interrupt during the first pause. *)
Definition interrupted : Host :=
  {| sys_version_info := (3, 11, 4)%nat;
     sys_version := "3.11.4 (main, Jun  7 2023, 12:45:48) [GCC 11.3.0]";
     sys_executable := "/usr/bin/python3";
     sys_stdout_encoding := Some "utf-8";
     sys_stderr_encoding := Some "utf-8";
     sys_getdefaultencoding := "utf-8";
     sys_path := ["/home/dev/DeepCode/scripts"; "/home/dev/DeepCode"];
     os_getcwd := Ok "/home/dev/DeepCode";
     subprocess_run := fun _ => Ok ("Python 3.11.4" +:+ PyStr.nl);
     importlib_import_module := installed;
     Path_exists := fun _ => Ok true;
     subprocess_Popen := fun _ _ => Ok resident;
     time_sleep := fun _ _ => Some (mkExn KeyboardInterrupt "") |}.

(** A machine without the [anthropic] package, and where [google] has no
    attribute [genai]. *)
Definition partly_installed : Host :=
  {| sys_version_info := (3, 11, 4)%nat;
     sys_version := "3.11.4 (main, Jun  7 2023, 12:45:48) [GCC 11.3.0]";
     sys_executable := "/usr/bin/python3";
     sys_stdout_encoding := Some "utf-8";
     sys_stderr_encoding := Some "utf-8";
     sys_getdefaultencoding := "utf-8";
     sys_path := ["/home/dev/DeepCode/scripts"; "/home/dev/DeepCode"];
     os_getcwd := Ok "/home/dev/DeepCode";
     subprocess_run := fun _ => Ok ("Python 3.11.4" +:+ PyStr.nl);
     importlib_import_module := fun name =>
       if PyStr.eqb name "anthropic" then Raise (module_not_found name)
       else if PyStr.eqb name "google" then Ok (PyObject [("auth", PyObject [])])
       else installed name;
     Path_exists := fun _ => Ok true;
     subprocess_Popen := fun _ _ => Ok resident;
     time_sleep := fun _ _ => None |}.

Definition world0 : World :=
  {| os_environ := {[ "PATH" := "/usr/bin"; "PYTHONPATH" := "." ]} : gmap string string;
     console := [];
     console_err := [];
     spawned := [];
     procs := [];
     clock := 0 |}.

End Samples.

(** ** Sample platforms *)
Module Platforms.

(** [s.split('/')] *)
Fixpoint split_slash (s : string) : list string :=
  match s with
  | EmptyString => [EmptyString]
  | String c s' =>
      if Ascii.eqb c "/"%char then EmptyString :: split_slash s'
      else match split_slash s' with
           | [] => [String c EmptyString]
           | part :: parts => String c part :: parts
           end
  end.

(** [str(PurePosixPath(s))]: the root (two slashes when the path starts
    with exactly two, one when it starts with any other number), then the
    components that are neither empty nor ".", joined by slashes; "." for
    the empty path. *)
Definition posix_str (s : string) : string :=
  let parts := filter (fun x => x <> "" /\ x <> ".") (split_slash s) in
  let root :=
    if String.prefix "//" s && negb (String.prefix "///" s) then "//"
    else if String.prefix "/" s then "/" else "" in
  if PyStr.eqb root "" && bool_decide (parts = []) then "."
  else root +:+ String.concat "/" parts.

Definition is_ascii (c : ascii) : bool := (nat_of_ascii c <? 128)%nat.

Fixpoint ascii_only (s : string) : bool :=
  match s with
  | EmptyString => true
  | String c s' => is_ascii c && ascii_only s'
  end.

(** The ASCII prefix of a text dropped: its length, and what follows. *)
Fixpoint skip_ascii (pos : nat) (s : string) : nat * string :=
  match s with
  | EmptyString => (pos, EmptyString)
  | String c s' => if is_ascii c then skip_ascii (S pos) s' else (pos, s)
  end.

(** The number of characters before the next ASCII character. *)
Fixpoint run_length (s : string) : nat :=
  match s with
  | EmptyString => O
  | String c s' =>
      if is_ascii c then O
      else if PyStr.is_continuation c then run_length s'
      else S (run_length s')
  end.

Fixpoint continue (cp : N) (s : string) : N :=
  match s with
  | EmptyString => cp
  | String c s' =>
      if PyStr.is_continuation c then continue (cp * 64 + N_of_ascii c mod 64)%N s'
      else cp
  end.

(** The code point of the first character of a text. *)
Definition code_point (s : string) : N :=
  match s with
  | EmptyString => 0%N
  | String c s' =>
      let b := N_of_ascii c in
      continue (if (b <? 128)%N then b
                else if (b <? 224)%N then (b mod 32)%N
                else if (b <? 240)%N then (b mod 16)%N
                else (b mod 8)%N) s'
  end.

Fixpoint hex (width : nat) (n : N) : string :=
  match width with
  | O => ""
  | S width' =>
      hex width' (n / 16)%N +:+ String.substring (N.to_nat (n mod 16)%N) 1 "0123456789abcdef"
  end.

(** A character the way [repr] escapes it in the message of a codec. *)
Definition escaped (cp : N) : string :=
  if (cp <? 256)%N then "\x" +:+ hex 2 cp
  else if (cp <? 65536)%N then "\u" +:+ hex 4 cp
  else "\U" +:+ hex 8 cp.

(** The [UnicodeEncodeError] of the ASCII codec for a text. *)
Definition ascii_encode_error (text : string) : exn :=
  let '(pos, rest) := skip_ascii 0 text in
  let n := run_length rest in
  mkExn UnicodeEncodeError
    ("'ascii' codec can't encode "
       +:+ (if (n <=? 1)%nat
            then "character '" +:+ escaped (code_point rest) +:+ "' in position "
                   +:+ pretty pos
            else "characters in position " +:+ pretty pos +:+ "-"
                   +:+ pretty (pos + n - 1)%nat)
       +:+ ": ordinal not in range(128)").

(** The [UnicodeDecodeError] of the ASCII codec for captured bytes. *)
Definition ascii_decode_error (bytes : string) : exn :=
  let '(pos, rest) := skip_ascii 0 bytes in
  mkExn UnicodeDecodeError
    ("'ascii' codec can't decode byte 0x"
       +:+ hex 2 (match rest with
                  | EmptyString => 0%N
                  | String c _ => N_of_ascii c
                  end)
       +:+ " in position " +:+ pretty pos +:+ ": ordinal not in range(128)").

(** The translation of newlines of a pipe opened with [text=True]. *)
Fixpoint universal_newlines (s : string) : string :=
  match s with
  | EmptyString => EmptyString
  | String c s' =>
      if Ascii.eqb c (ascii_of_nat 13) then
        match s' with
        | String c' s'' =>
            if Ascii.eqb c' (ascii_of_nat 10) then String c' (universal_newlines s'')
            else String (ascii_of_nat 10) (universal_newlines s')
        | EmptyString => String (ascii_of_nat 10) EmptyString
        end
      else String c (universal_newlines s')
  end.

(** The text of bytes decoded as Latin-1. *)
Fixpoint latin1_text (bytes : string) : string :=
  match bytes with
  | EmptyString => EmptyString
  | String c s' =>
      let n := nat_of_ascii c in
      if (n <? 128)%nat then String c (latin1_text s')
      else String (ascii_of_nat (192 + n / 64))
             (String (ascii_of_nat (128 + n mod 64)) (latin1_text s'))
  end.

(** A console that takes every text: UTF-8, or any handler but [strict]. *)
Definition utf8_console : list string -> string -> option exn := fun _ _ => None.

(** A console with the ASCII encoding. *)
Definition ascii_console : list string -> string -> option exn :=
  fun _ text => if ascii_only text then None else Some (ascii_encode_error text).

(** Pipes decoded as ASCII, standard output first. *)
Definition ascii_pipes (out err : string) : Result (string * string) :=
  if ascii_only out then
    if ascii_only err then Ok (universal_newlines out, universal_newlines err)
    else Raise (ascii_decode_error err)
  else Raise (ascii_decode_error out).

(** Pipes decoded as Latin-1: every sequence of bytes is a text. *)
Definition latin1_pipes (out err : string) : Result (string * string) :=
  Ok (universal_newlines (latin1_text out), universal_newlines (latin1_text err)).

(** A POSIX platform on which nothing arrives during a call. *)
Definition posix (console : list string -> string -> option exn)
    (pipes : string -> string -> Result (string * string)) : Platform :=
  {| stdout_write := console;
     Path_str := posix_str;
     pipes_text := pipes;
     arrives := fun _ _ => None;
     exited_early := fun _ => false |}.

(** The same with an interrupt during one call on the first process;
    [early] tells whether a worker that exits by itself had exited when its
    pause was interrupted. *)
Definition interrupt_during (site : CallSite) (early : bool) : Platform :=
  {| stdout_write := utf8_console;
     Path_str := posix_str;
     pipes_text := latin1_pipes;
     arrives := fun n s =>
       if bool_decide (n = 0%nat /\ s = site) then Some (mkExn KeyboardInterrupt "")
       else None;
     exited_early := fun _ => early |}.

(** A platform on which the workers that exit by themselves have done so
    when a pause is interrupted. *)
Definition exiting_early (p : Platform) : Platform :=
  {| stdout_write := stdout_write p;
     Path_str := Path_str p;
     pipes_text := pipes_text p;
     arrives := arrives p;
     exited_early := fun _ => true |}.

(** The healthy machine with an interrupt during every pause. *)
Definition interrupted_pause (worker : Behaviour) : Host :=
  {| sys_version_info := (3, 11, 4)%nat;
     sys_version := "3.11.4 (main, Jun  7 2023, 12:45:48) [GCC 11.3.0]";
     sys_executable := "/usr/bin/python3";
     sys_stdout_encoding := Some "utf-8";
     sys_stderr_encoding := Some "utf-8";
     sys_getdefaultencoding := "utf-8";
     sys_path := ["/home/dev/DeepCode/scripts"; "/home/dev/DeepCode"];
     os_getcwd := Ok "/home/dev/DeepCode";
     subprocess_run := fun _ => Ok ("Python 3.11.4" +:+ PyStr.nl);
     importlib_import_module := Samples.installed;
     Path_exists := fun _ => Ok true;
     subprocess_Popen := fun _ _ => Ok worker;
     time_sleep := fun _ _ => Some (mkExn KeyboardInterrupt "") |}.

(** A machine started with PYTHONIOENCODING=ascii, and its environment. *)
Definition ascii_host : Host :=
  {| sys_version_info := (3, 11, 4)%nat;
     sys_version := "3.11.4 (main, Jun  7 2023, 12:45:48) [GCC 11.3.0]";
     sys_executable := "/usr/bin/python3";
     sys_stdout_encoding := Some "ascii";
     sys_stderr_encoding := Some "ascii";
     sys_getdefaultencoding := "utf-8";
     sys_path := ["/home/dev/DeepCode/scripts"; "/home/dev/DeepCode"];
     os_getcwd := Ok "/home/dev/DeepCode";
     subprocess_run := fun _ => Ok ("Python 3.11.4" +:+ PyStr.nl);
     importlib_import_module := Samples.installed;
     Path_exists := fun _ => Ok true;
     subprocess_Popen := fun _ _ => Ok Samples.resident;
     time_sleep := fun _ _ => None |}.

Definition ascii_world : World :=
  {| os_environ :=
       {[ "PATH" := "/usr/bin"; "PYTHONIOENCODING" := "ascii" ]} : gmap string string;
     console := [];
     console_err := [];
     spawned := [];
     procs := [];
     clock := 0 |}.

End Platforms.

(** * Vocabulary of the properties *)

(** The world after some lines were printed. *)
Definition printed (lines : list string) (w : World) : World :=
  with_console (fun out => out ++ lines) w.

(** An encoding name that is UTF-8 up to the case of its letters. *)
Definition is_utf8 (name : string) : Prop := PyStr.lower name = "utf-8".

(** Two worlds with the same environment mapping of the checker, the same
    environments of the processes in the table, in the same order, and the
    same log of process creation requests: what every step of the script
    other than a process creation leaves alone. *)
Definition same_envs (w w' : World) : Prop :=
  os_environ w' = os_environ w /\
  p_env <$> procs w' = p_env <$> procs w /\
  spawned w' = spawned w.

(** A computation is quiet when it relates every world to its final world
    by [same_envs], whatever its outcome. *)
Definition quiet {A} (m : M A) : Prop := forall w, same_envs w (snd (m w)).

(** The arguments and the environment [check_mcp_server] hands to
    [subprocess.Popen]. *)
Definition probe_args (h : Host) (script : string) : list string :=
  [sys_executable h; script].

Definition child_env (w : World) : gmap string string :=
  <["PYTHONIOENCODING" := "utf-8"]> (os_environ w).

(** The lines [check_mcp_server] prints before it creates the process. *)
Definition testing_lines (script name : string) : list string :=
  header_lines ("5. Testing " +:+ name) ++ [info_line ("Testing: " +:+ script)].

(** The handler of [except Exception as e] in [check_mcp_server]. *)
Definition probe_failed (server_name : string) (e : exn) : M bool :=
  print_error ("Failed to test " +:+ server_name +:+ ": " +:+ exn_str e) ;;
  ret false.

(** The entry a successful [Popen] of [check_mcp_server] adds to the
    process table. *)
Definition new_proc (h : Host) (script : string) (w : World) (b : Behaviour) : Proc :=
  mkProc (probe_args h script) (child_env w) b None 0.

(** Walking names as attributes from an object: every name is an attribute
    of the object reached so far, and its value is not [None]. *)
Inductive walks : PyVal -> list string -> Prop :=
  | walks_done m : walks m []
  | walks_step attrs name v rest :
      find_attr name attrs = Some v ->
      v <> PyNone ->
      walks v rest ->
      walks (PyObject attrs) (name :: rest).

(** An entry of the dependency list resolves: its top-level module is
    imported, and each subsequent name is found as an attribute. *)
Definition resolves (h : Host) (package : string) : Prop :=
  exists top rest m,
    PyStr.split_dot package = top :: rest /\
    importlib_import_module h top = Ok m /\
    walks m rest.

(** An entry fails to resolve: importing its top-level module raises an
    [ImportError], or one of the subsequent names cannot be walked. *)
Definition fails_to_resolve (h : Host) (package : string) : Prop :=
  exists top rest,
    PyStr.split_dot package = top :: rest /\
    ((exists e, importlib_import_module h top = Raise e /\
                isinstance e ImportError = true) \/
     (exists m, importlib_import_module h top = Ok m /\ ~ walks m rest)).

(** Importing the top-level module of an entry raises an exception that is
    not an [ImportError]. *)
Definition import_crashes (h : Host) (package : string) (e : exn) : Prop :=
  exists top rest,
    PyStr.split_dot package = top :: rest /\
    importlib_import_module h top = Raise e /\
    isinstance e ImportError = false.

(** The lines the dependency check reports for an entry. *)
Definition installed_lines (package : string) : list string :=
  [success_line ("Package '" +:+ package +:+ "' is installed")].

Definition not_installed_lines (package : string) : list string :=
  [error_line ("Package '" +:+ package +:+ "' is NOT installed");
   info_line ("  Install with: pip install "
                +:+ default "" (head (PyStr.split_dot package)))].

(** The report of an entry: its result line says installed when it
    resolves, not installed (followed by the install hint) when it fails
    to resolve. *)
Definition reported (h : Host) (package : string) (lines : list string) : Prop :=
  resolves h package /\ lines = installed_lines package \/
  fails_to_resolve h package /\ lines = not_installed_lines package.

(** [walks] as a test. *)
Fixpoint walksb (m : PyVal) (names : list string) : bool :=
  match names with
  | [] => true
  | name :: rest =>
      match m with
      | PyNone => false
      | PyObject attrs =>
          match find_attr name attrs with
          | Some v => negb (is_None v) && walksb v rest
          | None => false
          end
      end
  end.

(** A world that differs from another by printed lines and by the log of
    process creation requests only. *)
Definition undisturbed (w w' : World) : Prop :=
  os_environ w' = os_environ w /\ clock w' = clock w /\ procs w' = procs w /\
  console_err w' = console_err w.

(** Version 3.8 or later. *)
Definition at_least_3_8 (v : nat * nat * nat) : Prop :=
  let '(major, minor, _) := v in (3 < major \/ major = 3 /\ 8 <= minor)%nat.

Definition result_line (nr : string * bool) : string :=
  if snd nr then success_line (fst nr +:+ ": PASS") else error_line (fst nr +:+ ": FAIL").

Definition passed_count (results : list (string * bool)) : nat :=
  length (filter (fun nr => snd nr = true) results).

(** The lines of the summary. *)
Definition summary_lines (results : list (string * bool)) : list string :=
  header_lines "Summary" ++ (result_line <$> results)
    ++ total_line (passed_count results) (length results)
    :: (if (passed_count results =? length results)%nat
        then [success_line "All checks passed! Your MCP server setup is ready."]
        else [error_line "Some checks failed. Please review the errors above.";
              info_line (PyStr.nl +:+
                "For detailed troubleshooting, see: docs/TROUBLESHOOTING_MCP.md")]).

(** A world reached from another with the same environment mapping and
    after [secs] more seconds of pause. *)
Definition later (secs : nat) (w w' : World) : Prop :=
  os_environ w' = os_environ w /\ clock w' = (clock w + secs)%nat.

(** The launcher probe of [check_python_path] is not interrupted: what it
    raises, if anything, is an [Exception]. *)
Definition launcher_answers (h : Host) : Prop :=
  forall e, subprocess_run h ["python"; "--version"] = Raise e ->
            isinstance e Exception = true.

(** UTF-8 is configured: on standard output, or by PYTHONIOENCODING. *)
Definition utf8_configured (h : Host) (w : World) : Prop :=
  (exists s, sys_stdout_encoding h = Some s /\ is_utf8 s) \/
  (exists v, os_environ w !! "PYTHONIOENCODING" = Some v /\ is_utf8 v).

(** The current directory, or ".", is on the module path. *)
Definition cwd_on_path (h : Host) : Prop :=
  exists d, os_getcwd h = Ok d /\ (d ∈ sys_path h \/ "." ∈ sys_path h).

(** The worker script exists, its process is created, stays resident
    through a pause that starts at clock [t] and is not interrupted, and
    exits within the wait that follows the termination request. *)
Definition worker_resident (h : Host) (w : World) (script : string) (t : nat) : Prop :=
  Path_exists h script = Ok true /\
  (exists b code,
     subprocess_Popen h (probe_args h script) (child_env w) = Ok b /\
     exits_during_probe b = None /\
     exits_on_terminate b = Some code) /\
  time_sleep h t default_timeout = None.

(** The run of the end-to-end scenario. *)
Definition healthy_run (h : Host) (w : World) : Prop :=
  at_least_3_8 (sys_version_info h) /\
  launcher_answers h /\
  Forall (resolves h) required_packages /\
  utf8_configured h w /\
  cwd_on_path h /\
  worker_resident h w "tools/command_executor.py" (clock w) /\
  worker_resident h w "tools/code_implementation_server.py" (clock w + default_timeout).

(** The results of a run in which every check passes. *)
Definition all_passed : list (string * bool) :=
  [ ("Python Version", true); ("Python Path", true); ("Dependencies", true);
    ("Encoding", true); ("PYTHONPATH", true); ("Command Executor", true);
    ("Code Implementation", true) ].

(** A computation keeps a relation between worlds when it relates every
    world to its final world, whatever its outcome. *)
Definition kept (R : World -> World -> Prop) {A} (m : M A) : Prop :=
  forall w, R w (snd (m w)).

(** Two worlds that differ at most by printed lines and by the entry [n]
    of the process table. *)
Definition calm (n : nat) (w w' : World) : Prop :=
  os_environ w' = os_environ w /\
  spawned w' = spawned w /\
  console_err w' = console_err w /\
  clock w' = clock w /\
  length (procs w') = length (procs w) /\
  forall i, i <> n -> procs w' !! i = procs w !! i.

(** Two worlds with the same environment mapping of the checker. *)
Definition same_environ (w w' : World) : Prop := os_environ w' = os_environ w.

(** The request of the launcher probe of [check_python_path]. *)
Definition launcher_request : list string := ["python"; "--version"].

(** The process creation requests of a worker probe: one, with the running
    interpreter, when the script is found; none otherwise. *)
Definition probe_requests (h : Host) (script : string) : list (list string) :=
  match Path_exists h script with
  | Ok true => [probe_args h script]
  | _ => []
  end.

(** A worker probe pauses when the script is found, the process is created
    and the pause is not interrupted. *)
Definition pauses (h : Host) (script : string) (timeout : nat) (w : World) : bool :=
  match Path_exists h script,
        subprocess_Popen h (probe_args h script) (child_env w),
        time_sleep h (clock w) timeout with
  | Ok true, Ok _, None => true
  | _, _, _ => false
  end.

(** The labels of the results [main] collects, in order. *)
Definition check_labels : list string :=
  [ "Python Version"; "Python Path"; "Dependencies"; "Encoding"; "PYTHONPATH";
    "Command Executor"; "Code Implementation" ].

(** A world that differs from another by printed lines only. *)
Definition only_printed (w w' : World) : Prop := exists lines, w' = printed lines w.

(** A machine on which the module [mcp] has an attribute [server] whose
    value is [None]. *)
Definition none_attribute : Host :=
  {| sys_version_info := (3, 11, 4)%nat;
     sys_version := "3.11.4 (main, Jun  7 2023, 12:45:48) [GCC 11.3.0]";
     sys_executable := "/usr/bin/python3";
     sys_stdout_encoding := Some "utf-8";
     sys_stderr_encoding := Some "utf-8";
     sys_getdefaultencoding := "utf-8";
     sys_path := ["/home/dev/DeepCode/scripts"; "/home/dev/DeepCode"];
     os_getcwd := Ok "/home/dev/DeepCode";
     subprocess_run := fun _ => Ok ("Python 3.11.4" +:+ PyStr.nl);
     importlib_import_module := fun name =>
       if PyStr.eqb name "mcp" then Ok (PyObject [("server", PyNone)])
       else Samples.installed name;
     Path_exists := fun _ => Ok true;
     subprocess_Popen := fun _ _ => Ok Samples.resident;
     time_sleep := fun _ _ => None |}.

(** ** Vocabulary of the properties on any platform *)

(** Every line can be written to standard output. *)
Definition writes (p : Platform) : Prop :=
  forall out text, stdout_write p out text = None.

(** An exception that a write to standard output raised. *)
Definition write_error (p : Platform) (e : exn) : Prop :=
  exists out text, stdout_write p out text = Some e.

(** Nothing arrives during the calls of the [try] suite on a process. *)
Definition calls_go_through (p : Platform) (process : nat) : Prop :=
  forall site, in_try site = true -> arrives p process site = None.

(** Two computations with the same outcome and the same final world in
    every world. *)
Definition same {A} (m m' : M A) : Prop := forall w, m w = m' w.

(** A computation raises only exceptions of a given kind. *)
Definition raises_only (P : exn -> Prop) {A} (m : M A) : Prop :=
  forall w e w', m w = (Raise e, w') -> P e.



(** The handler of [except Exception as e] in [check_mcp_server]. *)
Definition report_failure (p : Platform) (server_name : string) (e : exn) : M bool :=
  General.print_error p ("Failed to test " +:+ server_name +:+ ": " +:+ exn_str e) ;;
  ret false.

(** The lines [check_mcp_server] prints for a worker that has exited with
    status [code], given the texts of what was captured. *)
Definition exit_report (name out err : string) (code : Z) : list string :=
  if (code =? 0)%Z then
    warning_line (name +:+ " exited normally (might be waiting for input)")
    :: (if PyStr.truthy out
        then [info_line ("stdout:" +:+ PyStr.nl +:+ PyStr.slice_to 500 out)]
        else [])
  else
    error_line (name +:+ " failed to start (exit code: " +:+ pretty code +:+ ")")
    :: (if PyStr.truthy err
        then [error_line ("stderr:" +:+ PyStr.nl +:+ PyStr.slice_to 500 err)]
        else []).

(** Nothing arrives during the calls of the [finally] suite on a process. *)
Definition cleanup_goes_through (p : Platform) (process : nat) : Prop :=
  forall site, in_try site = false -> arrives p process site = None.

(** Two worlds that differ at most by the process table. *)
Definition table_changed (w w' : World) : Prop :=
  os_environ w' = os_environ w /\ console w' = console w /\
  console_err w' = console_err w /\ spawned w' = spawned w /\ clock w' = clock w.

(** What the host or the platform delivers inside the [try] suite of a
    worker probe: the exception of the process creation, of the pause, of a
    call on the process, or of the decoding of what was captured. *)
Definition delivered_in_try (h : Host) (p : Platform) (script_path : string)
    (timeout : nat) (w : World) (e : exn) : Prop :=
  subprocess_Popen h (probe_args h script_path) (child_env w) = Raise e \/
  time_sleep h (clock w) timeout = Some e \/
  (exists site, in_try site = true /\ arrives p (length (procs w)) site = Some e) \/
  (exists out err, pipes_text p out err = Raise e).

(** A worker probe that reached its [try] statement pauses when the
    process is created and the pause is not interrupted. *)
Definition pauses_after_spawn (h : Host) (script_path : string) (timeout : nat)
    (w : World) : bool :=
  match subprocess_Popen h (probe_args h script_path) (child_env w),
        time_sleep h (clock w) timeout with
  | Ok _, None => true
  | _, _ => false
  end.

(** A platform on which the script is the one of the first part: every
    line can be written, what was captured is the text as it is, nothing
    arrives during a call on a process, and an interrupted pause leaves the
    workers as they were. *)
Definition plain (p : Platform) : Prop :=
  writes p /\
  (forall out err, pipes_text p out err = Ok (out, err)) /\
  (forall n site, arrives p n site = None) /\
  (forall n, exited_early p n = false).

(** * Properties *)

(** ** Exceptions *)

Lemma isinstance_cases (e : exn) :
  isinstance e KeyboardInterrupt = true /\ isinstance e Exception = false \/
  isinstance e KeyboardInterrupt = false /\ isinstance e Exception = true.
Proof. destruct e as [[] msg]; vm_compute; auto. Qed.

Lemma ImportError_is_Exception (e : exn) :
  isinstance e ImportError = true -> isinstance e Exception = true.
Proof. destruct e as [[] msg]; vm_compute; auto. Qed.

(** ** Printing *)

Lemma printed_printed l1 l2 w : printed l2 (printed l1 w) = printed (l1 ++ l2) w.
Proof. unfold printed, with_console; simpl. by rewrite app_assoc. Qed.

Lemma printed_nil w : printed [] w = w.
Proof. destruct w; unfold printed, with_console; simpl. by rewrite app_nil_r. Qed.

Lemma print_eq text w : print text w = (Ok tt, printed [text] w).
Proof. reflexivity. Qed.

Lemma print_header_eq text w :
  print_header text w = (Ok tt, printed (header_lines text) w).
Proof.
  unfold print_header, bind. rewrite !print_eq, !printed_printed. reflexivity.
Qed.

Lemma print_success_eq text w : print_success text w = (Ok tt, printed [success_line text] w).
Proof. reflexivity. Qed.
Lemma print_error_eq text w : print_error text w = (Ok tt, printed [error_line text] w).
Proof. reflexivity. Qed.
Lemma print_warning_eq text w : print_warning text w = (Ok tt, printed [warning_line text] w).
Proof. reflexivity. Qed.
Lemma print_info_eq text w : print_info text w = (Ok tt, printed [info_line text] w).
Proof. reflexivity. Qed.

(** Stepping through a sequence of prints. *)
Ltac step_prints :=
  repeat first
    [ rewrite print_header_eq | rewrite print_success_eq | rewrite print_error_eq
    | rewrite print_warning_eq | rewrite print_info_eq | rewrite print_eq
    | rewrite printed_printed ].

Global Opaque print_header print_success print_error print_warning print_info print.

(** ** Strings *)

Lemma eqb_true a b : PyStr.eqb a b = true <-> a = b.
Proof. unfold PyStr.eqb. apply bool_decide_eq_true. Qed.

Lemma eqb_false a b : PyStr.eqb a b = false <-> a <> b.
Proof. unfold PyStr.eqb. apply bool_decide_eq_false. Qed.

(** A slice holds at most [n] characters, whatever the number of bytes
    that encode them. *)
Lemma slice_to_length n s : (PyStr.len (PyStr.slice_to n s) <= n)%nat.
Proof.
  revert n; induction s as [|c s IH]; intros n; simpl; [lia|].
  destruct (PyStr.is_continuation c) eqn:Hc; simpl; rewrite ?Hc; [apply IH|].
  destruct n as [|n]; simpl; rewrite ?Hc; [lia|]. specialize (IH n). lia.
Qed.

Lemma slice_to_prefix n s : String.prefix (PyStr.slice_to n s) s = true.
Proof.
  revert n; induction s as [|c s IH]; intros n; simpl; [done|].
  destruct (PyStr.is_continuation c); simpl.
  - destruct (ascii_dec c c); [apply IH | congruence].
  - destruct n as [|n]; simpl; [done|].
    destruct (ascii_dec c c); [apply IH | congruence].
Qed.

(** The characters of a slice are the first characters of the text. *)
Lemma slice_to_len n s : PyStr.len (PyStr.slice_to n s) = (n `min` PyStr.len s)%nat.
Proof.
  revert n; induction s as [|c s IH]; intros n; simpl; [lia|].
  destruct (PyStr.is_continuation c) eqn:Hc; simpl; rewrite ?Hc; [apply IH|].
  destruct n as [|n]; simpl; rewrite ?Hc; [lia|]. rewrite IH. lia.
Qed.

(** ** The encoding check *)

Lemma stdout_is_utf8_iff (enc : option string) :
  (if negb (PyStr.eqb (or_unknown enc) "unknown")
   then PyStr.eqb (PyStr.lower (or_unknown enc)) "utf-8" else false) = true
  <-> exists s, enc = Some s /\ is_utf8 s.
Proof.
  unfold is_utf8, or_unknown, PyStr.truthy. split.
  - destruct enc as [s|]; [|simpl; discriminate].
    destruct (PyStr.eqb s "") eqn:Hs; simpl; [discriminate|].
    destruct (PyStr.eqb s "unknown"); simpl; [discriminate|].
    intros H%eqb_true. eauto.
  - intros (s & -> & Hs).
    destruct (PyStr.eqb s "") eqn:He; simpl.
    { apply eqb_true in He; subst s. discriminate Hs. }
    destruct (PyStr.eqb s "unknown") eqn:Hu; simpl.
    { apply eqb_true in Hu; subst s. discriminate Hs. }
    by apply eqb_true.
Qed.

Lemma env_is_utf8_iff (var : option string) :
  (if negb (PyStr.eqb (default "Not set" var) "Not set")
   then PyStr.eqb (PyStr.lower (default "Not set" var)) "utf-8" else false) = true
  <-> exists v, var = Some v /\ is_utf8 v.
Proof.
  unfold is_utf8. split.
  - destruct var as [v|]; simpl; [|discriminate].
    destruct (PyStr.eqb v "Not set"); simpl; [discriminate|].
    intros H%eqb_true. eauto.
  - intros (v & -> & Hv). simpl.
    destruct (PyStr.eqb v "Not set") eqn:Hn; simpl.
    { apply eqb_true in Hn; subst v. discriminate Hv. }
    by apply eqb_true.
Qed.

(** The verdict of [check_encoding], and the world it leaves: only lines
    were printed. *)
Lemma check_encoding_run (h : Host) (w : World) :
  exists lines,
    check_encoding h w =
      (Ok ((if negb (PyStr.eqb (or_unknown (sys_stdout_encoding h)) "unknown")
            then PyStr.eqb (PyStr.lower (or_unknown (sys_stdout_encoding h))) "utf-8"
            else false)
           || (if negb (PyStr.eqb (default "Not set" (os_environ w !! "PYTHONIOENCODING"))
                          "Not set")
               then PyStr.eqb (PyStr.lower (default "Not set"
                                              (os_environ w !! "PYTHONIOENCODING"))) "utf-8"
               else false)),
       printed lines w).
Proof.
  unfold check_encoding, bind, os_environ_get, ret. step_prints.
  cbn [os_environ printed with_console].
  match goal with |- context [if ?c then _ else _] =>
    match c with orb _ _ => destruct c end end; step_prints; eauto.
Qed.

(** ** Steps that create no process and change no environment *)

Lemma same_envs_refl w : same_envs w w.
Proof. by repeat split. Qed.

Lemma same_envs_trans w1 w2 w3 : same_envs w1 w2 -> same_envs w2 w3 -> same_envs w1 w3.
Proof. intros (?&?&?) (?&?&?). repeat split; congruence. Qed.

Lemma same_envs_printed lines w : same_envs w (printed lines w).
Proof. by repeat split. Qed.

Lemma quiet_ret {A} (a : A) : quiet (ret a).
Proof. intros w. apply same_envs_refl. Qed.

Lemma quiet_raise {A} (e : exn) : quiet (@raise A e).
Proof. intros w. apply same_envs_refl. Qed.

Lemma quiet_call {A} (r : Result A) : quiet (call r).
Proof. intros w. apply same_envs_refl. Qed.

Lemma quiet_bind {A B} (m : M A) (k : A -> M B) :
  quiet m -> (forall a, quiet (k a)) -> quiet (bind m k).
Proof.
  intros Hm Hk w. unfold bind. specialize (Hm w).
  destruct (m w) as [[a|e] w1]; simpl in *; [|done].
  eapply same_envs_trans; [exact Hm | apply Hk].
Qed.

Lemma quiet_try_except {A} (body : M A) catches handler :
  quiet body -> (forall e, quiet (handler e)) -> quiet (try_except body catches handler).
Proof.
  intros Hb Hh w. unfold try_except. specialize (Hb w).
  destruct (body w) as [[a|e] w1]; simpl in *; [done|].
  destruct (catches e); [|done].
  eapply same_envs_trans; [exact Hb | apply Hh].
Qed.

Lemma quiet_try_finally {A} (body : M A) fin :
  quiet body -> quiet fin -> quiet (try_finally body fin).
Proof.
  intros Hb Hf w. unfold try_finally. specialize (Hb w).
  destruct (body w) as [r w1]; simpl in *. specialize (Hf w1).
  destruct (fin w1) as [[[]|e] w2]; simpl in *; eapply same_envs_trans; eauto.
Qed.

Lemma quiet_print text : quiet (print text).
Proof. intros w. rewrite print_eq. apply same_envs_printed. Qed.

Lemma quiet_print_header text : quiet (print_header text).
Proof. intros w. rewrite print_header_eq. apply same_envs_printed. Qed.

Lemma quiet_print_success text : quiet (print_success text).
Proof. intros w. rewrite print_success_eq. apply same_envs_printed. Qed.

Lemma quiet_print_error text : quiet (print_error text).
Proof. intros w. rewrite print_error_eq. apply same_envs_printed. Qed.

Lemma quiet_print_warning text : quiet (print_warning text).
Proof. intros w. rewrite print_warning_eq. apply same_envs_printed. Qed.

Lemma quiet_print_info text : quiet (print_info text).
Proof. intros w. rewrite print_info_eq. apply same_envs_printed. Qed.

Lemma quiet_os_environ_get key dflt : quiet (os_environ_get key dflt).
Proof. intros w. apply same_envs_refl. Qed.

Lemma elapse_env p : p_env (elapse p) = p_env p.
Proof. unfold elapse. by destruct (p_returncode p), (exits_during_probe (p_behaviour p)). Qed.

Lemma quiet_sleep h secs : quiet (sleep h secs).
Proof.
  intros w. unfold sleep. destruct (time_sleep h (clock w) secs); [apply same_envs_refl|].
  repeat split; simpl. rewrite <- list_fmap_compose.
  apply list_fmap_ext. intros _ p _. apply elapse_env.
Qed.

Lemma quiet_with_proc {A} process (k : Proc -> M A) :
  (forall p, quiet (k p)) -> quiet (with_proc process k).
Proof.
  intros Hk w. unfold with_proc. destruct (procs w !! process) as [p|] eqn:Hp.
  - apply Hk.
  - apply same_envs_refl.
Qed.

Lemma fmap_env_insert (ps : list Proc) i p p' :
  ps !! i = Some p -> p_env p' = p_env p -> p_env <$> <[i := p']> ps = p_env <$> ps.
Proof.
  intros Hi He. rewrite list_fmap_insert, He.
  apply list_insert_id. by rewrite list_lookup_fmap, Hi.
Qed.

Lemma quiet_poll process : quiet (poll process).
Proof. apply quiet_with_proc. intros p. apply quiet_ret. Qed.

Lemma quiet_communicate process : quiet (communicate process).
Proof. apply quiet_with_proc. intros p. apply quiet_ret. Qed.

Lemma quiet_terminate process : quiet (terminate process).
Proof.
  intros w. unfold terminate, with_proc.
  destruct (procs w !! process) as [p|] eqn:Hp; [|apply same_envs_refl].
  destruct (p_returncode p); [apply same_envs_refl|].
  repeat split; simpl. by apply fmap_env_insert with p.
Qed.

Lemma quiet_wait process secs : quiet (wait process secs).
Proof.
  intros w. unfold wait, with_proc.
  destruct (procs w !! process) as [p|] eqn:Hp; [|apply same_envs_refl].
  destruct (p_returncode p); [apply same_envs_refl|].
  destruct (p_terminate_requests p); [apply same_envs_refl|].
  destruct (exits_on_terminate (p_behaviour p)); [|apply same_envs_refl].
  repeat split; simpl. by apply fmap_env_insert with p.
Qed.

Create HintDb quiet.
#[global] Hint Resolve quiet_ret quiet_raise quiet_call quiet_print quiet_print_header
  quiet_print_success quiet_print_error quiet_print_warning quiet_print_info
  quiet_os_environ_get quiet_sleep quiet_poll quiet_communicate quiet_terminate
  quiet_wait : quiet.

(** Decompose a computation into quiet steps. *)
Ltac quiet_steps :=
  repeat first
    [ apply quiet_bind; [|intros ?]
    | apply quiet_try_except; [|intros ?]
    | apply quiet_try_finally
    | solve [auto with quiet]
    | match goal with
      | |- quiet (match ?x with _ => _ end) => destruct x
      | |- quiet (if ?c then _ else _) => destruct c
      | |- quiet (let '(_, _) := ?x in _) => destruct x
      end ].

Lemma quiet_probe h server_name timeout process : quiet (probe h server_name timeout process).
Proof. unfold probe. quiet_steps. Qed.

Lemma quiet_load_local {A} name (slot : option A) : quiet (load_local name slot).
Proof. destruct slot; simpl; auto with quiet. Qed.

Lemma quiet_probe_cleanup process : quiet (probe_cleanup process).
Proof.
  unfold probe_cleanup, probe_cleanup_body.
  pose proof (@quiet_load_local nat). quiet_steps.
Qed.

(** ** The worker probe *)

Ltac world_simpl :=
  unfold printed, with_console, with_console_err, with_spawned, with_procs, with_clock,
    ret, raise, call;
  cbn [os_environ console console_err spawned procs clock fst snd negb].

Lemma check_mcp_server_found h script name timeout w :
  Path_exists h script = Ok true ->
  check_mcp_server h script name timeout w =
    (let '(r, process, w1) :=
       probe_try h script name timeout (printed (testing_lines script name) w) in
     try_finally
       (try_except (fun w' => (r, w')) (fun e => isinstance e Exception) (probe_failed name))
       (probe_cleanup process) w1).
Proof.
  intros Hex. unfold check_mcp_server, bind at 1 2, call. step_prints.
  rewrite Hex. cbn [negb]. unfold bind at 1. step_prints. reflexivity.
Qed.

Lemma check_mcp_server_missing h script name timeout w :
  Path_exists h script = Ok false ->
  check_mcp_server h script name timeout w =
    (Ok false,
     printed (header_lines ("5. Testing " +:+ name)
                ++ [error_line ("Server script not found: " +:+ script)]) w).
Proof.
  intros Hex. unfold check_mcp_server, bind, call. step_prints.
  rewrite Hex. cbn [negb]. step_prints. reflexivity.
Qed.

Lemma with_proc_at {A} (ps : list Proc) p (k : Proc -> M A) w n :
  procs w = ps ++ [p] -> n = length ps -> with_proc n k w = k p w.
Proof.
  intros Hp ->. unfold with_proc. by rewrite Hp, list_lookup_middle.
Qed.

Lemma insert_at (ps : list Proc) p p' n :
  n = length ps -> <[n := p']> (ps ++ [p]) = ps ++ [p'].
Proof.
  intros ->. rewrite insert_app_r_alt by lia. by rewrite Nat.sub_diag.
Qed.

(** The world right after a successful [Popen]. *)
Lemma Popen_ok h args env b w :
  subprocess_Popen h args env = Ok b ->
  Popen h args env w =
    (Ok (length (procs w)),
     mkWorld (os_environ w) (console w) (console_err w) (spawned w ++ [args])
             (procs w ++ [mkProc args env b None 0]) (clock w)).
Proof. intros H. unfold Popen. rewrite H. reflexivity. Qed.

Lemma Popen_raise h args env e w :
  subprocess_Popen h args env = Raise e ->
  Popen h args env w =
    (Raise e,
     mkWorld (os_environ w) (console w) (console_err w) (spawned w ++ [args])
             (procs w) (clock w)).
Proof. intros H. unfold Popen. rewrite H. reflexivity. Qed.

Lemma probe_cleanup_unbound w : probe_cleanup None w = (Ok tt, w).
Proof. reflexivity. Qed.

Lemma probe_cleanup_body_unbound w :
  exists e, probe_cleanup_body None w = (Raise e, w) /\ exn_class e = UnboundLocalError.
Proof. eexists. split; reflexivity. Qed.

(** [Popen] raises. *)
Lemma check_mcp_server_spawn_raises h script name timeout w e :
  Path_exists h script = Ok true ->
  subprocess_Popen h (probe_args h script) (child_env w) = Raise e ->
  check_mcp_server h script name timeout w =
    if isinstance e Exception then
      (Ok false,
       mkWorld (os_environ w)
         (console w ++ testing_lines script name
            ++ [error_line ("Failed to test " +:+ name +:+ ": " +:+ exn_str e)])
         (console_err w) (spawned w ++ [probe_args h script]) (procs w) (clock w))
    else
      (Raise e,
       mkWorld (os_environ w) (console w ++ testing_lines script name)
         (console_err w) (spawned w ++ [probe_args h script]) (procs w) (clock w)).
Proof.
  intros Hex Hsp. rewrite check_mcp_server_found by done.
  unfold probe_try. world_simpl.
  fold (child_env w). fold (probe_args h script).
  rewrite (Popen_raise _ _ _ e) by done.
  unfold try_finally, try_except. world_simpl.
  destruct (isinstance e Exception).
  - unfold probe_failed, bind. step_prints. world_simpl. rewrite probe_cleanup_unbound.
    rewrite <- app_assoc. reflexivity.
  - reflexivity.
Qed.

Section ProcessTable.
Variables (env : gmap string string) (out err : list string)
          (sp : list (list string)) (ps : list Proc) (p : Proc) (clk : nat).
Variable n : nat.
Hypothesis Hn : n = length ps.

Local Abbreviation w := (mkWorld env out err sp (ps ++ [p]) clk).

Lemma poll_at : poll n w = (Ok (p_returncode p), w).
Proof. unfold poll. by erewrite with_proc_at. Qed.

Lemma communicate_at :
  communicate n w =
    (Ok (captured_stdout (p_behaviour p), captured_stderr (p_behaviour p)), w).
Proof. unfold communicate. by erewrite with_proc_at. Qed.

Lemma terminate_at_running :
  p_returncode p = None ->
  terminate n w =
    (Ok tt,
     mkWorld env out err sp
       (ps ++ [mkProc (p_args p) (p_env p) (p_behaviour p) None
                      (S (p_terminate_requests p))]) clk).
Proof.
  intros Hrun. unfold terminate. erewrite with_proc_at by done.
  rewrite Hrun. unfold with_procs; simpl. by rewrite insert_at.
Qed.

Lemma terminate_at_exited c :
  p_returncode p = Some c -> terminate n w = (Ok tt, w).
Proof.
  intros Hc. unfold terminate. erewrite with_proc_at by done. by rewrite Hc.
Qed.

Lemma wait_at_exited c :
  p_returncode p = Some c -> wait n 2 w = (Ok c, w).
Proof.
  intros Hc. unfold wait. erewrite with_proc_at by done. by rewrite Hc.
Qed.

Lemma wait_at_exits k c :
  p_returncode p = None -> p_terminate_requests p = S k ->
  exits_on_terminate (p_behaviour p) = Some c ->
  wait n 2 w =
    (Ok c,
     mkWorld env out err sp
       (ps ++ [mkProc (p_args p) (p_env p) (p_behaviour p) (Some c)
                      (p_terminate_requests p)]) clk).
Proof.
  intros Hrun Hk Hc. unfold wait. erewrite with_proc_at by done.
  rewrite Hrun, Hk, Hc. unfold with_procs; simpl. by rewrite insert_at.
Qed.

Lemma wait_at_stays :
  p_returncode p = None -> exits_on_terminate (p_behaviour p) = None ->
  wait n 2 w = (Raise (timeout_expired p 2), w).
Proof.
  intros Hrun Hc. unfold wait. erewrite with_proc_at by done.
  rewrite Hrun, Hc. by destruct (p_terminate_requests p).
Qed.
End ProcessTable.

Lemma sleep_ok h secs w :
  time_sleep h (clock w) secs = None ->
  sleep h secs w =
    (Ok tt,
     mkWorld (os_environ w) (console w) (console_err w) (spawned w)
             (elapse <$> procs w) (clock w + secs)).
Proof. intros H. unfold sleep. by rewrite H. Qed.

Lemma elapse_exited p c : p_returncode p = Some c -> elapse p = p.
Proof. intros H. unfold elapse. by rewrite H. Qed.

Lemma elapse_resident p :
  exits_during_probe (p_behaviour p) = None -> elapse p = p.
Proof. intros H. unfold elapse. rewrite H. by destruct (p_returncode p). Qed.

Lemma elapse_exits h script w b c :
  exits_during_probe b = Some c ->
  elapse (new_proc h script w b) = mkProc (probe_args h script) (child_env w) b (Some c) 0.
Proof. intros H. unfold elapse, new_proc; simpl. by rewrite H. Qed.

Ltac table_len := rewrite ?length_fmap; reflexivity.

Ltac table_step :=
  first
    [ rewrite poll_at by table_len
    | rewrite communicate_at by table_len
    | erewrite terminate_at_running by (first [table_len | reflexivity])
    | erewrite wait_at_exits by (first [table_len | reflexivity | eassumption])
    | erewrite wait_at_stays by (first [table_len | reflexivity | eassumption]) ].

(** The [try] suite once the process is created. *)
Lemma probe_try_spawned h script name timeout w b :
  subprocess_Popen h (probe_args h script) (child_env w) = Ok b ->
  probe_try h script name timeout (printed (testing_lines script name) w) =
    (let '(r, w2) :=
       probe h name timeout (length (procs w))
         (mkWorld (os_environ w) (console w ++ testing_lines script name) (console_err w)
            (spawned w ++ [probe_args h script]) (procs w ++ [new_proc h script w b])
            (clock w)) in
     (r, Some (length (procs w)), w2)).
Proof.
  intros Hsp. unfold probe_try. world_simpl.
  fold (child_env w). fold (probe_args h script).
  rewrite (Popen_ok _ _ _ b) by done. world_simpl. reflexivity.
Qed.

(** The worker stays resident and exits when asked to. *)
Lemma check_mcp_server_resident h script name timeout w b c :
  Path_exists h script = Ok true ->
  subprocess_Popen h (probe_args h script) (child_env w) = Ok b ->
  time_sleep h (clock w) timeout = None ->
  exits_during_probe b = None ->
  exits_on_terminate b = Some c ->
  check_mcp_server h script name timeout w =
    (Ok true,
     mkWorld (os_environ w)
       (console w ++ testing_lines script name
          ++ [success_line (name +:+ " started successfully")])
       (console_err w) (spawned w ++ [probe_args h script])
       ((elapse <$> procs w)
          ++ [mkProc (probe_args h script) (child_env w) b (Some c) 1])
       (clock w + timeout)).
Proof.
  intros Hex Hsp Hsl Hres Hterm. rewrite check_mcp_server_found by done.
  rewrite (probe_try_spawned _ _ _ _ _ b) by done.
  unfold probe, bind. rewrite sleep_ok by done. world_simpl.
  rewrite fmap_app. cbn [fmap list_fmap]. rewrite (elapse_resident (new_proc _ _ _ _)) by done.
  table_step. cbn [p_returncode new_proc]. step_prints. world_simpl.
  table_step. cbn [p_args p_env p_behaviour p_terminate_requests].
  table_step. cbn [p_args p_env p_behaviour p_terminate_requests].
  unfold try_finally, try_except, probe_cleanup, probe_cleanup_body, try_except, bind, load_local.
  world_simpl. table_step. cbn [p_returncode]. world_simpl.
  rewrite <- app_assoc. reflexivity.
Qed.

Lemma timeout_expired_is_Exception p secs : isinstance (timeout_expired p secs) Exception = true.
Proof. by vm_compute. Qed.


Lemma with_proc_raises {A} process (k : Proc -> M A) w e w' :
  with_proc process k w = (Raise e, w') ->
  isinstance e Exception = true \/ exists p, k p w = (Raise e, w').
Proof.
  unfold with_proc. destruct (procs w !! process) as [p|]; [eauto|].
  intros [= <- <-]. by left.
Qed.

Lemma quiet_probe_failed name e : quiet (probe_failed name e).
Proof. unfold probe_failed. quiet_steps. Qed.

(** What a whole probe does to the environments: nothing to the one of
    the checker and to those of the processes already in the table; a
    created process is appended with the environment handed to [Popen]. *)
Lemma check_mcp_server_envs h script name timeout w :
  let w' := snd (check_mcp_server h script name timeout w) in
  os_environ w' = os_environ w /\
  match Path_exists h script, subprocess_Popen h (probe_args h script) (child_env w) with
  | Ok true, Ok b =>
      p_env <$> procs w' = (p_env <$> procs w) ++ [child_env w] /\
      spawned w' = spawned w ++ [probe_args h script]
  | Ok true, Raise _ =>
      p_env <$> procs w' = p_env <$> procs w /\
      spawned w' = spawned w ++ [probe_args h script]
  | _, _ => same_envs w w'
  end.
Proof.
  destruct (Path_exists h script) as [[|]|e] eqn:Hex.
  - rewrite check_mcp_server_found by done.
    assert (Hfin : forall r process w1,
               same_envs w1 (snd (try_finally
                 (try_except (fun w' => (r, w')) (fun e => isinstance e Exception)
                    (probe_failed name)) (probe_cleanup process) w1))).
    { intros r process. apply quiet_try_finally; [|apply quiet_probe_cleanup].
      apply quiet_try_except; [intros w1; apply same_envs_refl|apply quiet_probe_failed]. }
    destruct (subprocess_Popen h (probe_args h script) (child_env w)) as [b|e] eqn:Hsp.
    + rewrite (probe_try_spawned _ _ _ _ _ b) by done.
      match goal with |- context [probe h name timeout ?n ?w1] =>
        pose proof (quiet_probe h name timeout n w1) as Hq;
        destruct (probe h name timeout n w1) as [r w2] end.
      specialize (Hfin r (Some (length (procs w))) w2).
      destruct Hq as (Hq1 & Hq2 & Hq3), Hfin as (Hf1 & Hf2 & Hf3).
      cbn [snd os_environ procs spawned] in *.
      rewrite Hf1, Hq1, Hf2, Hq2, Hf3, Hq3, fmap_app. done.
    + unfold probe_try. world_simpl. fold (child_env w). fold (probe_args h script).
      rewrite (Popen_raise _ _ _ e) by done.
      match goal with |- context [try_finally ?a ?b ?w1] =>
        specialize (Hfin (Raise e) None w1) end.
      destruct Hfin as (Hf1 & Hf2 & Hf3). cbn [snd os_environ procs spawned] in *.
      rewrite Hf1, Hf2, Hf3. done.
  - rewrite check_mcp_server_missing by done. split; [done|]. apply same_envs_printed.
  - unfold check_mcp_server, bind, call. step_prints. rewrite Hex.
    split; [done|]. apply same_envs_printed.
Qed.

Lemma child_env_lookup w :
  child_env w !! "PYTHONIOENCODING" = Some "utf-8" /\
  forall k, k <> "PYTHONIOENCODING" -> child_env w !! k = os_environ w !! k.
Proof.
  unfold child_env. split; [apply lookup_insert_eq|].
  intros k Hk. by rewrite lookup_insert_ne.
Qed.

(** C9: when a worker probe spawns a subprocess, PYTHONIOENCODING is set to
    "utf-8" in the environment of the child only: the environment mapping
    of the checker is the same after the probe (as are the environments of
    the processes created before), the child is the one process added to
    the table, and every other variable the child sees has the value the
    checker sees. *)
Theorem C9_child_environment h script name timeout w b :
  Path_exists h script = Ok true ->
  subprocess_Popen h (probe_args h script) (child_env w) = Ok b ->
  let w' := snd (check_mcp_server h script name timeout w) in
  os_environ w' = os_environ w /\
  (exists p, procs w' !! length (procs w) = Some p /\ p_env p = child_env w) /\
  length (procs w') = S (length (procs w)) /\
  (forall i p, procs w !! i = Some p ->
     exists p', procs w' !! i = Some p' /\ p_env p' = p_env p) /\
  child_env w !! "PYTHONIOENCODING" = Some "utf-8" /\
  (forall k, k <> "PYTHONIOENCODING" -> child_env w !! k = os_environ w !! k).
Proof.
  intros Hex Hsp w'. pose proof (check_mcp_server_envs h script name timeout w) as H.
  cbv zeta in H. rewrite Hex, Hsp in H. fold w' in H. destruct H as (He & Hp & _).
  split; [done|]. repeat split; try apply child_env_lookup.
  - assert (Hl : (p_env <$> procs w') !! length (procs w) = Some (child_env w)).
    { rewrite Hp. apply list_lookup_middle. by rewrite length_fmap. }
    rewrite list_lookup_fmap in Hl. destruct (procs w' !! length (procs w)) as [p|]; [|done].
    exists p. split; [done|]. by injection Hl.
  - apply (f_equal length) in Hp. rewrite length_app, !length_fmap in Hp. simpl in Hp. lia.
  - intros i p Hi.
    assert (Hl : (p_env <$> procs w') !! i = Some (p_env p)).
    { rewrite Hp, lookup_app_l by (rewrite length_fmap; by eapply lookup_lt_Some).
      by rewrite list_lookup_fmap, Hi. }
    rewrite list_lookup_fmap in Hl. destruct (procs w' !! i) as [p'|]; [|done].
    exists p'. split; [done|]. by injection Hl.
Qed.

Lemma C9_child_environment_witness :
  let w' := snd (check_mcp_server (Samples.healthy Samples.resident)
                   "tools/command_executor.py" "Command Executor Server" 3
                   Samples.world0) in
  os_environ w' = os_environ Samples.world0 /\
  (exists p, procs w' !! 0%nat = Some p /\ p_env p = child_env Samples.world0).
Proof.
  pose proof (C9_child_environment (Samples.healthy Samples.resident)
                "tools/command_executor.py" "Command Executor Server" 3
                Samples.world0 Samples.resident eq_refl eq_refl) as (H1 & H2 & _).
  exact (conj H1 H2).
Defined.

(** C8: a worker probe whose script path does not exist returns fail at
    once, having printed the "not found" line, and creates no process: the
    log of process creation requests and the process table are as before. *)
Theorem C8_missing_script_not_spawned h script name timeout w :
  Path_exists h script = Ok false ->
  exists w',
    check_mcp_server h script name timeout w = (Ok false, w') /\
    spawned w' = spawned w /\
    procs w' = procs w /\
    console w' =
      console w ++ header_lines ("5. Testing " +:+ name)
        ++ [error_line ("Server script not found: " +:+ script)].
Proof.
  intros Hex. rewrite check_mcp_server_missing by done.
  eexists. split; [reflexivity|]. by repeat split.
Qed.

Lemma C8_missing_script_not_spawned_witness :
  exists w',
    check_mcp_server Samples.no_scripts "tools/command_executor.py"
      "Command Executor Server" 3 Samples.world0 = (Ok false, w') /\
    spawned w' = [] /\
    procs w' = [] /\
    console w' =
      console Samples.world0 ++ header_lines ("5. Testing " +:+ "Command Executor Server")
        ++ [error_line ("Server script not found: " +:+ "tools/command_executor.py")].
Proof.
  exact (C8_missing_script_not_spawned Samples.no_scripts "tools/command_executor.py"
           "Command Executor Server" 3 Samples.world0 eq_refl).
Defined.

(** C10: when [Popen] itself raises an [Exception], the worker probe
    returns fail: the handler prints the failure, and the cleanup, whose
    body then reads the unbound local variable [process] and so raises
    [UnboundLocalError], swallows that error; no process is in the table
    that was not there before. *)
Theorem C10_spawn_raises_returns_fail h script name timeout w e :
  Path_exists h script = Ok true ->
  subprocess_Popen h (probe_args h script) (child_env w) = Raise e ->
  isinstance e Exception = true ->
  exists w',
    check_mcp_server h script name timeout w = (Ok false, w') /\
    procs w' = procs w /\
    console w' =
      console w ++ testing_lines script name
        ++ [error_line ("Failed to test " +:+ name +:+ ": " +:+ exn_str e)] /\
    (exists e', probe_cleanup_body None w' = (Raise e', w') /\
                exn_class e' = UnboundLocalError) /\
    probe_cleanup None w' = (Ok tt, w').
Proof.
  intros Hex Hsp He. rewrite (check_mcp_server_spawn_raises _ _ _ _ _ e) by done.
  rewrite He. eexists. split; [reflexivity|].
  split; [done|]. split; [done|]. split.
  - apply probe_cleanup_body_unbound.
  - apply probe_cleanup_unbound.
Qed.

Lemma C10_spawn_raises_returns_fail_witness :
  exists w',
    check_mcp_server (Samples.no_spawn (mkExn PermissionError "[Errno 13] Permission denied"))
      "tools/command_executor.py" "Command Executor Server" 3 Samples.world0
    = (Ok false, w') /\
    procs w' = [].
Proof.
  destruct (C10_spawn_raises_returns_fail
              (Samples.no_spawn (mkExn PermissionError "[Errno 13] Permission denied"))
              "tools/command_executor.py" "Command Executor Server" 3 Samples.world0
              (mkExn PermissionError "[Errno 13] Permission denied")
              eq_refl eq_refl eq_refl) as (w' & H1 & H2 & _).
  exact (ex_intro _ w' (conj H1 H2)).
Defined.

(** C3, as the code has it: a worker probe on an existing script whose
    process is still running when polled after the probe duration, and
    which exits within the wait that follows the termination request,
    returns pass, and when the probe returns the process it created has
    exited. *)
Theorem C3_resident_worker_terminated h script name timeout w b code :
  Path_exists h script = Ok true ->
  subprocess_Popen h (probe_args h script) (child_env w) = Ok b ->
  time_sleep h (clock w) timeout = None ->
  exits_during_probe b = None ->
  exits_on_terminate b = Some code ->
  exists w' p,
    check_mcp_server h script name timeout w = (Ok true, w') /\
    length (procs w') = S (length (procs w)) /\
    procs w' !! length (procs w) = Some p /\
    p_args p = probe_args h script /\
    p_returncode p = Some code.
Proof.
  intros Hex Hsp Hsl Hres Hterm.
  rewrite (check_mcp_server_resident _ _ _ _ _ b code) by done.
  eexists _, _. split; [reflexivity|]. cbn [procs]. split; [|split].
  - rewrite length_app, length_fmap. simpl. lia.
  - apply list_lookup_middle. by rewrite length_fmap.
  - done.
Qed.

Lemma C3_resident_worker_terminated_witness :
  exists w' p,
    check_mcp_server (Samples.healthy Samples.resident) "tools/command_executor.py"
      "Command Executor Server" 3 Samples.world0 = (Ok true, w') /\
    procs w' !! 0%nat = Some p /\
    p_returncode p = Some (-15).
Proof.
  destruct (C3_resident_worker_terminated (Samples.healthy Samples.resident)
              "tools/command_executor.py" "Command Executor Server" 3 Samples.world0
              Samples.resident (-15) eq_refl eq_refl eq_refl eq_refl eq_refl)
    as (w' & p & H1 & _ & H2 & _ & H3).
  exact (ex_intro _ w' (ex_intro _ p (conj H1 (conj H2 H3)))).
Defined.

(** C3, as stated, fails: on a machine where the script exists and the
    worker is still running when polled but does not exit within the wait
    that follows the termination request, the probe returns fail and the
    process is still running when the probe returns. *)
Lemma C3_counterexample :
  Path_exists (Samples.healthy Samples.stubborn) "tools/command_executor.py" = Ok true /\
  exits_during_probe Samples.stubborn = None /\
  fst (check_mcp_server (Samples.healthy Samples.stubborn) "tools/command_executor.py"
         "Command Executor Server" 3 Samples.world0) = Ok false /\
  p_returncode <$>
    procs (snd (check_mcp_server (Samples.healthy Samples.stubborn)
                  "tools/command_executor.py" "Command Executor Server" 3
                  Samples.world0)) !! 0%nat = Some None.
Proof. repeat split; vm_compute; reflexivity. Qed.

(** ** The dependency check *)

Lemma split_dot_nonempty s : PyStr.split_dot s <> [].
Proof.
  destruct s as [|c s]; simpl; [done|].
  destruct (Ascii.eqb c "."); [done|]. by destruct (PyStr.split_dot s).
Qed.

Lemma split_dot_singleton s p : PyStr.split_dot s = [p] -> p = s.
Proof.
  revert p; induction s as [|c s IH]; simpl; intros p.
  - by intros [= <-].
  - destruct (Ascii.eqb c ".").
    + intros [= _ H]. by apply split_dot_nonempty in H.
    + pose proof (split_dot_nonempty s) as Hne.
      destruct (PyStr.split_dot s) as [|p' ps]; [done|].
      intros [= <- ->]. f_equal. by apply IH.
Qed.

Lemma is_None_true v : is_None v = true <-> v = PyNone.
Proof. destruct v; simpl; split; congruence. Qed.

Lemma getattr_walk attrs name :
  getattr (PyObject attrs) name = default PyNone (find_attr name attrs).
Proof. reflexivity. Qed.

(** The inner loop either walks all the names, or raises [ImportError]. *)
Lemma walk_parts_run package m rest w :
  (walks m rest /\ exists m', walk_parts package m rest w = (Ok m', w)) \/
  (~ walks m rest /\
   walk_parts package m rest w = (Raise (mkExn ImportError ("Cannot import " +:+ package)), w)).
Proof.
  revert m; induction rest as [|name rest IH]; intros m; simpl.
  - left. split; [constructor|eauto].
  - destruct (is_None (getattr m name)) eqn:Hn.
    + right. split; [|done]. apply is_None_true in Hn.
      inversion 1; subst. rewrite getattr_walk in Hn.
      match goal with H : find_attr _ _ = Some _ |- _ => rewrite H in Hn end. simpl in Hn. done.
    + assert (Hv : getattr m name <> PyNone).
      { intros Hv. apply is_None_true in Hv. congruence. }
      destruct m as [|attrs]; [done|]. rewrite getattr_walk in *.
      destruct (find_attr name attrs) as [v|] eqn:Ha; [|done]. simpl in *.
      destruct (IH v) as [[Hw Hr]|[Hw Hr]].
      * left. split; [by econstructor|done].
      * right. split; [|done]. inversion 1; subst. 
        match goal with H : find_attr name attrs = Some _ |- _ => rewrite Ha in H; injection H as <- end.
        done.
Qed.

Lemma resolves_not_fails h package : resolves h package -> ~ fails_to_resolve h package.
Proof.
  intros (top & rest & m & Hs & Hi & Hw) (top' & rest' & Hs' & H).
  rewrite Hs in Hs'. injection Hs' as <- <-.
  destruct H as [(e & He & _)|(m' & Hm & Hnw)]; congruence.
Qed.

(** The [try] suite for one entry: it resolves and is reported, or an
    exception comes out of it. *)
Lemma import_package_cases h package w :
  (resolves h package /\
   import_package h package (PyStr.split_dot package) w =
     (Ok tt, printed (installed_lines package) w)) \/
  (exists e,
     import_package h package (PyStr.split_dot package) w = (Raise e, w) /\
     (isinstance e ImportError = true /\ fails_to_resolve h package \/
      isinstance e ImportError = false /\ import_crashes h package e)).
Proof.
  unfold import_package, installed_lines.
  pose proof (split_dot_nonempty package) as Hne.
  destruct (PyStr.split_dot package) as [|top rest] eqn:Hs; [done|]. clear Hne.
  assert (Hraise : forall e, importlib_import_module h top = Raise e ->
            isinstance e ImportError = true /\ fails_to_resolve h package \/
            isinstance e ImportError = false /\ import_crashes h package e).
  { intros e Hi. destruct (isinstance e ImportError) eqn:He; [left|right].
    - split; [done|]. exists top, rest. eauto.
    - split; [done|]. by exists top, rest. }
  unfold bind, call, ret.
  destruct rest as [|name rest]; cbn [length Nat.eqb head tail default from_option id].
  - apply split_dot_singleton in Hs as Hp. subst top.
    destruct (importlib_import_module h package) as [m|e] eqn:Hi.
    + left. split; [exists package, [], m; repeat split; [done..|constructor]|].
      step_prints. reflexivity.
    + right. exists e. split; [done|]. by apply Hraise.
  - destruct (importlib_import_module h top) as [m|e] eqn:Hi.
    + destruct (walk_parts_run package m (name :: rest) w) as [[Hw [m' Hr]]|[Hw Hr]];
        rewrite Hr.
      * left. split; [by exists top, (name :: rest), m|]. step_prints. reflexivity.
      * right. eexists. split; [reflexivity|]. left. split; [done|].
        exists top, (name :: rest). split; [done|]. right. by exists m.
    + right. exists e. split; [done|]. by apply Hraise.
Qed.

(** One iteration of the loop of the dependency check. *)
Lemma check_package_cases h all_ok package w :
  (resolves h package /\
   check_package h all_ok package w = (Ok all_ok, printed (installed_lines package) w)) \/
  (fails_to_resolve h package /\
   check_package h all_ok package w = (Ok false, printed (not_installed_lines package) w)) \/
  (exists e, import_crashes h package e /\
             check_package h all_ok package w = (Raise e, w)).
Proof.
  destruct (import_package_cases h package w) as [[Hr Hrun]|(e & Hrun & [[He Hf]|[He Hc]])].
  - left. split; [done|]. unfold check_package, try_except, bind. by rewrite Hrun.
  - right; left. split; [done|]. unfold check_package, try_except, bind.
    rewrite Hrun, He. step_prints. reflexivity.
  - right; right. exists e. split; [done|]. unfold check_package, try_except, bind.
    by rewrite Hrun, He.
Qed.

(** The loop over the entries, when no import crashes: every entry is
    reported, and the result is the conjunction of the incoming flag and of
    the entries resolving. *)
Lemma check_packages_run h packages : forall all_ok w,
  Forall (fun p => resolves h p \/ fails_to_resolve h p) packages ->
  exists b lines,
    check_packages h all_ok packages w = (Ok b, printed (concat lines) w) /\
    Forall2 (reported h) packages lines /\
    (b = true <-> all_ok = true /\ Forall (resolves h) packages).
Proof.
  induction packages as [|p ps IH]; intros all_ok w Hall; simpl.
  - exists all_ok, []. rewrite printed_nil. repeat split; auto; tauto.
  - apply Forall_cons in Hall as [Hp Hps]. unfold bind.
    destruct (check_package_cases h all_ok p w) as [[Hr Hrun]|[[Hf Hrun]|(e & Hc & _)]].
    + rewrite Hrun.
      destruct (IH all_ok (printed (installed_lines p) w) Hps) as (b & lines & Hrun' & Hrep & Hb).
      exists b, (installed_lines p :: lines). rewrite Hrun', printed_printed.
      split; [done|]. split; [constructor; [by left|done]|].
      rewrite Hb, Forall_cons. tauto.
    + rewrite Hrun.
      destruct (IH false (printed (not_installed_lines p) w) Hps) as (b & lines & Hrun' & Hrep & Hb).
      exists b, (not_installed_lines p :: lines). rewrite Hrun', printed_printed.
      split; [done|]. split; [constructor; [by right|done]|].
      rewrite Hb, Forall_cons. split; [intros [? _]; done|].
      intros (_ & Hr & _). by apply resolves_not_fails in Hr.
    + exfalso. destruct Hc as (top & rest & Hs & Hi & He).
      destruct Hp as [(top' & rest' & m & Hs' & Hi' & _)|(top' & rest' & Hs' & H)];
        rewrite Hs in Hs'; injection Hs' as <- <-.
      * congruence.
      * destruct H as [(e' & Hi' & He')|(m & Hi' & _)]; congruence.
Qed.

(** The loop returns pass only if the flag came in true and every entry
    resolves. *)
Lemma check_packages_pass h packages : forall all_ok w w',
  check_packages h all_ok packages w = (Ok true, w') ->
  all_ok = true /\ Forall (resolves h) packages.
Proof.
  induction packages as [|p ps IH]; intros all_ok w w'; simpl.
  - intros [= -> _]. auto.
  - unfold bind.
    destruct (check_package_cases h all_ok p w) as [[Hr Hrun]|[[Hf Hrun]|(e & Hc & Hrun)]];
      rewrite Hrun; [| |done].
    + intros H%IH. destruct H. auto.
    + intros H%IH. by destruct H.
Qed.

Lemma walksb_spec m names : walksb m names = true <-> walks m names.
Proof.
  revert m; induction names as [|name rest IH]; intros m; simpl.
  - split; [constructor|done].
  - destruct m as [|attrs]; [split; [done|inversion 1]|].
    destruct (find_attr name attrs) as [v|] eqn:Ha; [|split; [done|inversion 1; congruence]].
    rewrite andb_true_iff, negb_true_iff, IH. split.
    + intros [Hn Hw]. econstructor; [done| |done]. intros ->. done.
    + inversion 1; subst.
      match goal with H : find_attr name attrs = Some _ |- _ =>
        rewrite Ha in H; injection H as <- end.
      split; [by destruct v|done].
Qed.

Lemma not_all_resolve h packages :
  Forall (fun p => resolves h p \/ fails_to_resolve h p) packages ->
  (~ Forall (resolves h) packages <-> Exists (fails_to_resolve h) packages).
Proof.
  induction 1 as [|p ps Hp _ IH]; [split; [intros []; constructor|inversion 1]|].
  rewrite Forall_cons, Exists_cons, <- IH. split.
  - intros Hn. destruct Hp as [Hr|Hf]; [right|by left]. tauto.
  - intros [Hf|Hn] [Hr Hrs]; [by apply resolves_not_fails in Hr|done].
Qed.

Lemma check_dependencies_eq h w :
  check_dependencies h w =
    check_packages h true required_packages
      (printed (header_lines "3. Checking Required Dependencies") w).
Proof. unfold check_dependencies, bind. by rewrite print_header_eq. Qed.

Lemma check_dependencies_pass_iff h w :
  (exists w', check_dependencies h w = (Ok true, w')) <->
  Forall (resolves h) required_packages.
Proof.
  rewrite check_dependencies_eq. split.
  - intros [w' H]. by apply check_packages_pass in H as [_ H].
  - intros Hall.
    destruct (check_packages_run h required_packages true
                (printed (header_lines "3. Checking Required Dependencies") w))
      as (b & lines & Hc & _ & Hb).
    { eapply Forall_impl; [exact Hall|]. by left. }
    assert (b = true) as -> by (by apply Hb). eauto.
Qed.

Lemma check_dependencies_run h w :
  Forall (fun p => resolves h p \/ fails_to_resolve h p) required_packages ->
  exists b lines,
    check_dependencies h w =
      (Ok b, printed (header_lines "3. Checking Required Dependencies" ++ concat lines) w) /\
    Forall2 (reported h) required_packages lines /\
    (b = false <-> Exists (fails_to_resolve h) required_packages).
Proof.
  intros Hall. rewrite check_dependencies_eq.
  destruct (check_packages_run h required_packages true
              (printed (header_lines "3. Checking Required Dependencies") w) Hall)
    as (b & lines & Hc & Hrep & Hb).
  exists b, lines. rewrite Hc, printed_printed. split; [done|]. split; [done|].
  rewrite <- not_all_resolve by done. rewrite <- not_true_iff_false, Hb. tauto.
Qed.

(** C5: the dependency check returns pass exactly when every entry of the
    fixed list resolves, a dotted entry resolving by the import of its
    top-level module followed by a walk of each subsequent name as an
    attribute, which fails on an absent attribute.  When every entry
    either resolves or fails to resolve, the check returns, fail exactly
    when some entry fails to resolve, and one report is printed for every
    entry of the list, in order. *)
Theorem C5_check_dependencies (h : Host) (w : World) :
  ((exists w', check_dependencies h w = (Ok true, w')) <->
     Forall (resolves h) required_packages) /\
  (Forall (fun p => resolves h p \/ fails_to_resolve h p) required_packages ->
   exists b lines,
     check_dependencies h w =
       (Ok b, printed (header_lines "3. Checking Required Dependencies" ++ concat lines) w) /\
     Forall2 (reported h) required_packages lines /\
     (b = false <-> Exists (fails_to_resolve h) required_packages)) /\
  (forall attrs name rest,
     find_attr name attrs = None -> ~ walks (PyObject attrs) (name :: rest)).
Proof.
  split; [apply check_dependencies_pass_iff|]. split; [apply check_dependencies_run|].
  intros attrs name rest Ha. inversion 1; congruence.
Qed.

(** Settle [resolves] and [fails_to_resolve] on a host that computes. *)
Ltac settle_entry :=
  first
    [ left; eexists _, _, _; split; [reflexivity|]; split; [reflexivity|];
      apply walksb_spec; reflexivity
    | right; eexists _, _; split; [reflexivity|]; left; eexists; split; reflexivity
    | right; eexists _, _; split; [reflexivity|]; right; eexists; split; [reflexivity|];
      rewrite <- walksb_spec; discriminate ].

Lemma C5_check_dependencies_witness :
  exists b lines,
    check_dependencies Samples.partly_installed Samples.world0 =
      (Ok b, printed (header_lines "3. Checking Required Dependencies" ++ concat lines)
               Samples.world0) /\
    Forall2 (reported Samples.partly_installed) required_packages lines /\
    (b = false <-> Exists (fails_to_resolve Samples.partly_installed) required_packages).
Proof.
  apply (proj1 (proj2 (C5_check_dependencies Samples.partly_installed Samples.world0))).
  unfold required_packages. repeat (constructor; [settle_entry|]). constructor.
Defined.

(** ** The checks of the environment, [main] and the exit status *)

Lemma undisturbed_refl w : undisturbed w w.
Proof. by repeat split. Qed.

Lemma undisturbed_printed lines w : undisturbed w (printed lines w).
Proof. by repeat split. Qed.

Lemma tuple_ge_3_8 major minor micro :
  tuple_ge [major; minor; micro] [3; 8]%nat = true <-> at_least_3_8 (major, minor, micro).
Proof.
  unfold at_least_3_8. cbn [tuple_ge].
  destruct (major <? 3)%nat eqn:H1; [apply Nat.ltb_lt in H1; split; [done|lia]|].
  apply Nat.ltb_ge in H1.
  destruct (3 <? major)%nat eqn:H2; [apply Nat.ltb_lt in H2; split; [lia|done]|].
  apply Nat.ltb_ge in H2.
  destruct (minor <? 8)%nat eqn:H3; [apply Nat.ltb_lt in H3; split; [done|lia]|].
  apply Nat.ltb_ge in H3.
  destruct (8 <? minor)%nat; split; auto; lia.
Qed.

Lemma check_python_version_run h w :
  exists lines,
    check_python_version h w =
      (Ok (let '(major, minor, micro) := sys_version_info h in
           tuple_ge [major; minor; micro] [3; 8]%nat),
       printed lines w).
Proof.
  unfold check_python_version, bind, ret. step_prints.
  destruct (sys_version_info h) as [[major minor] micro].
  destruct (tuple_ge _ _); step_prints; eauto.
Qed.

Lemma check_python_path_run h w :
  match subprocess_run h ["python"; "--version"] with
  | Ok out =>
      check_python_path h w =
        (Ok true,
         with_spawned (fun l => l ++ [["python"; "--version"]])
           (printed (header_lines "2. Checking Python Executable"
                       ++ [info_line ("Python executable: " +:+ sys_executable h);
                           success_line ("'python' command available: " +:+ PyStr.strip out)])
              w))
  | Raise e =>
      if isinstance e Exception then
        check_python_path h w =
          (Ok true,
           with_spawned (fun l => l ++ [["python"; "--version"]])
             (printed (header_lines "2. Checking Python Executable"
                         ++ [info_line ("Python executable: " +:+ sys_executable h);
                             warning_line ("'python' command not available: " +:+ exn_str e);
                             info_line "  Note: Use 'python3' instead on Unix/Linux systems"])
                w))
      else
        check_python_path h w =
          (Raise e,
           with_spawned (fun l => l ++ [["python"; "--version"]])
             (printed (header_lines "2. Checking Python Executable"
                         ++ [info_line ("Python executable: " +:+ sys_executable h)])
                w))
  end.
Proof.
  unfold check_python_path, bind, try_except, run, ret. step_prints.
  destruct (subprocess_run h ["python"; "--version"]) as [out|e]; cbn [fst snd].
  - step_prints. world_simpl. by rewrite <- !app_assoc.
  - destruct (isinstance e Exception); step_prints; world_simpl; by rewrite <- ?app_assoc.
Qed.

Lemma check_pythonpath_run h w :
  match os_getcwd h with
  | Ok d =>
      exists lines,
        check_pythonpath h w =
          (Ok (bool_decide (d ∈ sys_path h) || bool_decide ("." ∈ sys_path h)),
           printed lines w)
  | Raise e =>
      exists lines, check_pythonpath h w = (Raise e, printed lines w)
  end.
Proof.
  unfold check_pythonpath, bind, os_environ_get, call, ret. step_prints.
  destruct (os_getcwd h) as [d|e]; [|eauto].
  destruct (_ || _); step_prints; eauto.
Qed.

Lemma passed_all results :
  (passed_count results =? length results)%nat = true <->
  Forall (fun nr : string * bool => snd nr = true) results.
Proof.
  unfold passed_count. rewrite Nat.eqb_eq. induction results as [|[name r] rs IH].
  - split; [constructor|done].
  - rewrite Forall_cons. pose proof (length_filter (fun nr : string * bool => snd nr = true) rs).
    rewrite filter_cons. simpl. destruct (decide (r = true)) as [->|Hr]; simpl.
    + rewrite <- IH. split; [intros [= ?]; done|intros [_ ->]; done].
    + split; [lia|]. intros [? _]. done.
Qed.

Lemma print_results_run results w :
  print_results results w = (Ok tt, printed (result_line <$> results) w).
Proof.
  revert w; induction results as [|[name r] rs IH]; intros w; simpl.
  - by rewrite printed_nil.
  - unfold bind. destruct r; step_prints; rewrite IH, printed_printed; reflexivity.
Qed.

Lemma main_summary_run results w :
  main_summary results w =
    (Ok (if (passed_count results =? length results)%nat then 0 else 1),
     printed (summary_lines results) w).
Proof.
  unfold main_summary, bind, summary_lines. step_prints. rewrite print_results_run.
  fold (passed_count results). step_prints.
  destruct (_ =? _)%nat; step_prints; unfold ret; rewrite <- ?app_assoc; reflexivity.
Qed.

Lemma script_completed h w results w1 :
  main_checks h w = (Ok results, w1) ->
  script h w =
    ((if (passed_count results =? length results)%nat then 0 else 1),
     printed (summary_lines results) w1).
Proof.
  intros H. unfold script, main, bind. rewrite H, main_summary_run. reflexivity.
Qed.

Lemma script_raised h w e w1 :
  main_checks h w = (Raise e, w1) ->
  script h w =
    if isinstance e KeyboardInterrupt then
      (130, printed [PyStr.nl +:+ Colors.YELLOW +:+ "Health check interrupted by user"
                       +:+ Colors.RESET] w1)
    else
      (1, with_console_err (fun err => err ++ [format_exc e])
            (printed [error_line ("Unexpected error: " +:+ exn_str e)] w1)).
Proof.
  intros H. unfold script, main, bind. rewrite H.
  destruct (isinstance e KeyboardInterrupt); step_prints; reflexivity.
Qed.

Lemma not_all_passed (results : list (string * bool)) :
  ~ Forall (fun nr => snd nr = true) results <-> Exists (fun nr => snd nr = false) results.
Proof.
  induction results as [|[name r] rs IH]; [split; [intros []; constructor|inversion 1]|].
  rewrite Forall_cons, Exists_cons, <- IH. simpl. destruct r.
  - split; [intros Hn; right; tauto|intros [?|?] [? ?]; done].
  - split; [by left|intros _ [? _]; done].
Qed.

(** C7: the exit status of the process is 0 exactly when the run completes
    and every collected result is true; it is 1 exactly when the run
    completes with a false result or an [Exception] escapes the checks, in
    which case the error line and a trace are printed; it is 130 exactly
    when a [KeyboardInterrupt] escapes, and then no trace is printed. *)
Theorem C7_exit_code (h : Host) (w : World) :
  (fst (script h w) = 0 <->
     exists results w1,
       main_checks h w = (Ok results, w1) /\
       Forall (fun nr => snd nr = true) results) /\
  (fst (script h w) = 1 <->
     (exists results w1,
        main_checks h w = (Ok results, w1) /\
        Exists (fun nr => snd nr = false) results) \/
     (exists e w1,
        main_checks h w = (Raise e, w1) /\ isinstance e Exception = true)) /\
  (fst (script h w) = 130 <->
     exists e w1,
       main_checks h w = (Raise e, w1) /\ isinstance e KeyboardInterrupt = true) /\
  (forall e w1,
     main_checks h w = (Raise e, w1) ->
     isinstance e Exception = true ->
     console (snd (script h w)) =
       console w1 ++ [error_line ("Unexpected error: " +:+ exn_str e)] /\
     console_err (snd (script h w)) = console_err w1 ++ [format_exc e]) /\
  (forall e w1,
     main_checks h w = (Raise e, w1) ->
     isinstance e KeyboardInterrupt = true ->
     console_err (snd (script h w)) = console_err w1).
Proof.
  destruct (main_checks h w) as [[results|e] w1] eqn:Hrun.
  - rewrite (script_completed _ _ _ _ Hrun). cbn [fst snd].
    pose proof (passed_all results) as Hall. pose proof (not_all_passed results) as Hnot.
    destruct (passed_count results =? length results)%nat.
    + assert (Forall (fun nr : string * bool => snd nr = true) results) as HF by (by apply Hall).
      split; [|split; [|split; [|split]]].
      * split; [eauto|done].
      * split; [done|].
        intros [(r' & w' & [= <- <-] & HE)|(e & w' & [=] & _)]. by apply Hnot in HE.
      * split; [done|]. intros (e & w' & [=] & _).
      * intros e w' [=].
      * intros e w' [=].
    + assert (~ Forall (fun nr : string * bool => snd nr = true) results) as HF
          by (intros HF; apply Hall in HF; done).
      split; [|split; [|split; [|split]]].
      * split; [done|]. intros (r' & w' & [= <- <-] & HE). done.
      * split; [|done]. intros _. left. exists results, w1. split; [done|]. by apply Hnot.
      * split; [done|]. intros (e & w' & [=] & _).
      * intros e w' [=].
      * intros e w' [=].
  - rewrite (script_raised _ _ _ _ Hrun).
    destruct (isinstance_cases e) as [[Hk He]|[Hk He]]; rewrite Hk; cbn [fst snd].
    + split; [|split; [|split; [|split]]].
      * split; [done|]. intros (r & w' & [=] & _).
      * split; [done|].
        intros [(r & w' & [=] & _)|(e' & w' & [= <- <-] & He')]. congruence.
      * split; [eauto|done].
      * intros e' w' [= <- <-]. congruence.
      * by intros e' w' [= <- <-] _.
    + split; [|split; [|split; [|split]]].
      * split; [done|]. intros (r & w' & [=] & _).
      * split; [|done]. intros _. right. eauto.
      * split; [done|]. intros (e' & w' & [= <- <-] & He'). congruence.
      * by intros e' w' [= <- <-] _.
      * intros e' w' [= <- <-]. congruence.
Qed.

(** ** The end-to-end scenario *)

Lemma later_refl w : later 0 w w.
Proof. split; [done|]. lia. Qed.

Lemma later_trans a b w1 w2 w3 : later a w1 w2 -> later b w2 w3 -> later (a + b) w1 w3.
Proof. intros [? ?] [? ?]. split; [congruence|lia]. Qed.

Lemma later_printed lines w : later 0 w (printed lines w).
Proof. split; [done|]. simpl. lia. Qed.

Lemma version_passes h w :
  at_least_3_8 (sys_version_info h) ->
  exists w', check_python_version h w = (Ok true, w') /\ later 0 w w'.
Proof.
  intros Hv. destruct (check_python_version_run h w) as [lines Hrun].
  destruct (sys_version_info h) as [[major minor] micro].
  apply tuple_ge_3_8 in Hv. rewrite Hv in Hrun.
  eexists. split; [exact Hrun|apply later_printed].
Qed.

Lemma path_passes h w :
  launcher_answers h ->
  exists w', check_python_path h w = (Ok true, w') /\ later 0 w w'.
Proof.
  intros Hl. pose proof (check_python_path_run h w) as Hrun.
  destruct (subprocess_run h ["python"; "--version"]) as [out|e] eqn:Hs.
  - eexists. split; [exact Hrun|]. split; [done|]. simpl. lia.
  - rewrite (Hl e Hs) in Hrun.
    eexists. split; [exact Hrun|]. split; [done|]. simpl. lia.
Qed.

Lemma dependencies_pass h w :
  Forall (resolves h) required_packages ->
  exists w', check_dependencies h w = (Ok true, w') /\ later 0 w w'.
Proof.
  intros Hall.
  destruct (proj2 (check_dependencies_pass_iff h w) Hall) as [w' Hrun].
  destruct (check_dependencies_run h w) as (b & lines & Hrun' & _).
  { eapply Forall_impl; [exact Hall|]. by left. }
  rewrite Hrun in Hrun'. injection Hrun' as <- ->.
  eexists. split; [exact Hrun|apply later_printed].
Qed.

Lemma encoding_passes h w :
  utf8_configured h w ->
  exists w', check_encoding h w = (Ok true, w') /\ later 0 w w'.
Proof.
  intros Hu. destruct (check_encoding_run h w) as [lines Hrun].
  eexists. split; [|apply later_printed]. rewrite Hrun. f_equal. f_equal.
  apply orb_true_iff. by rewrite stdout_is_utf8_iff, env_is_utf8_iff.
Qed.

Lemma pythonpath_passes h w :
  cwd_on_path h ->
  exists w', check_pythonpath h w = (Ok true, w') /\ later 0 w w'.
Proof.
  intros (d & Hd & Hin). pose proof (check_pythonpath_run h w) as Hrun.
  rewrite Hd in Hrun. destruct Hrun as [lines Hrun].
  eexists. split; [|apply later_printed]. rewrite Hrun. f_equal. f_equal.
  apply orb_true_iff. rewrite !bool_decide_eq_true. done.
Qed.

Lemma child_env_later secs w w' : later secs w w' -> child_env w' = child_env w.
Proof. intros [He _]. unfold child_env. by rewrite He. Qed.

Lemma worker_passes h script name w0 secs w :
  later secs w0 w ->
  worker_resident h w0 script (clock w0 + secs) ->
  exists w', check_mcp_server h script name default_timeout w = (Ok true, w') /\
             later (secs + default_timeout) w0 w'.
Proof.
  intros Hl (Hex & (b & code & Hsp & Hres & Hterm) & Hsl).
  pose proof (child_env_later _ _ _ Hl) as Henv. destruct Hl as [He Hc].
  rewrite <- Henv in Hsp. rewrite <- Hc in Hsl.
  rewrite (check_mcp_server_resident _ _ _ _ _ b code) by done.
  eexists. split; [reflexivity|]. split; simpl; [done|lia].
Qed.

(** In the end-to-end scenario every check passes. *)
Lemma main_checks_healthy h w :
  healthy_run h w -> exists w', main_checks h w = (Ok all_passed, w').
Proof.
  intros (Hv & Hl & Hd & Hu & Hc & Hw1 & Hw2).
  unfold main_checks, bind. step_prints.
  match goal with |- context [check_python_version h ?w0] =>
    assert (Hl0 : later 0 w w0) by apply later_printed;
    destruct (version_passes h w0 Hv) as (w1 & -> & Hl1) end.
  destruct (path_passes h w1 Hl) as (w2 & -> & Hl2).
  destruct (dependencies_pass h w2 Hd) as (w3 & -> & Hl3).
  pose proof (later_trans _ _ _ _ _ (later_trans _ _ _ _ _ (later_trans _ _ _ _ _ Hl0 Hl1) Hl2) Hl3)
    as Hl03. simpl in Hl03.
  assert (Hu3 : utf8_configured h w3).
  { unfold utf8_configured in *. by rewrite (proj1 Hl03). }
  destruct (encoding_passes h w3 Hu3) as (w4 & -> & Hl4).
  destruct (pythonpath_passes h w4 Hc) as (w5 & -> & Hl5).
  pose proof (later_trans _ _ _ _ _ (later_trans _ _ _ _ _ Hl03 Hl4) Hl5) as Hl05.
  simpl in Hl05.
  rewrite <- (Nat.add_0_r (clock w)) in Hw1.
  destruct (worker_passes h _ "Command Executor Server" w 0 w5 Hl05 Hw1) as (w6 & -> & Hl6).
  simpl in Hl6.
  destruct (worker_passes h _ "Code Implementation Server" w _ w6 Hl6 Hw2) as (w7 & -> & Hl7).
  unfold ret. eauto.
Qed.

(** C1, as the code has it: in a run where the interpreter version is at
    least 3.8, every entry of the dependency list resolves, UTF-8 is
    configured, the current directory is on the module path, both worker
    scripts exist, stay resident for the probe duration and exit within the
    wait that follows the termination request, and nothing is interrupted,
    the seven collected results are all true, the summary reports seven
    checks passed out of seven, and the exit status is 0. *)
Theorem C1_healthy_run (h : Host) (w : World) :
  healthy_run h w ->
  exists w1,
    main_checks h w = (Ok all_passed, w1) /\
    script h w =
      (0, printed (header_lines "Summary" ++ (result_line <$> all_passed)
                     ++ [total_line 7 7;
                         success_line "All checks passed! Your MCP server setup is ready."])
            w1) /\
    PyStr.contains "Total: 7/7 checks passed" (total_line 7 7) = true.
Proof.
  intros Hrun. destruct (main_checks_healthy h w Hrun) as [w1 Hchecks].
  exists w1. split; [done|]. split; [|by vm_compute].
  rewrite (script_completed _ _ _ _ Hchecks). reflexivity.
Qed.

Lemma healthy_sample : healthy_run (Samples.healthy Samples.resident) Samples.world0.
Proof.
  unfold healthy_run. split; [|split; [|split; [|split; [|split; [|split]]]]].
  - right. split; [reflexivity|]. simpl. lia.
  - intros e. discriminate.
  - unfold required_packages.
    repeat (constructor;
            [eexists _, _, _; split; [reflexivity|]; split; [reflexivity|];
             apply walksb_spec; reflexivity|]).
    constructor.
  - left. eexists. split; reflexivity.
  - eexists. split; [reflexivity|]. left. simpl. set_solver.
  - split; [reflexivity|]. split; [|reflexivity]. eexists _, _. repeat split; reflexivity.
  - split; [reflexivity|]. split; [|reflexivity]. eexists _, _. repeat split; reflexivity.
Defined.

Lemma C1_healthy_run_witness :
  exists w1,
    main_checks (Samples.healthy Samples.resident) Samples.world0 = (Ok all_passed, w1) /\
    script (Samples.healthy Samples.resident) Samples.world0 =
      (0, printed (header_lines "Summary" ++ (result_line <$> all_passed)
                     ++ [total_line 7 7;
                         success_line "All checks passed! Your MCP server setup is ready."])
            w1) /\
    PyStr.contains "Total: 7/7 checks passed" (total_line 7 7) = true.
Proof.
  exact (C1_healthy_run (Samples.healthy Samples.resident) Samples.world0 healthy_sample).
Defined.

(** C1, as stated, fails: on the healthy sample machine, where all the
    conditions of the scenario hold, the run collects seven results, the
    summary line reads "7/7 checks passed", and no printed line contains
    "6/6 checks passed". *)
Lemma C1_counterexample :
  fst (main_checks (Samples.healthy Samples.resident) Samples.world0) = Ok all_passed /\
  length all_passed = 7%nat /\
  fst (script (Samples.healthy Samples.resident) Samples.world0) = 0 /\
  existsb (PyStr.contains "7/7 checks passed")
    (console (snd (script (Samples.healthy Samples.resident) Samples.world0))) = true /\
  existsb (PyStr.contains "6/6 checks passed")
    (console (snd (script (Samples.healthy Samples.resident) Samples.world0))) = false.
Proof. repeat split; vm_compute; reflexivity. Qed.

(** ** Which errors a check handles *)


Lemma main_raises h w e w1 :
  main_checks h w = (Raise e, w1) -> main h w = (Raise e, w1).
Proof. intros H. unfold main, bind. by rewrite H. Qed.

(** * Further properties of the checks *)

(** ** The checks of the environment and the summary *)



Lemma passed_count_le results : (passed_count results <= length results)%nat.
Proof. unfold passed_count. apply length_filter. Qed.

(** X4: for every list of results, the empty one included, the summary
    never raises, prints the header, one line per result in order, the
    total and the closing lines, and returns 0 exactly when every result is
    true and 1 exactly when some result is false; the count of passed
    results is at most the total, with equality exactly when all passed. *)
Theorem X4_summary (results : list (string * bool)) (w : World) :
  exists code,
    main_summary results w = (Ok code, printed (summary_lines results) w) /\
    (code = 0 <-> Forall (fun nr => snd nr = true) results) /\
    (code = 1 <-> Exists (fun nr => snd nr = false) results) /\
    (passed_count results <= length results)%nat /\
    (passed_count results = length results <-> Forall (fun nr => snd nr = true) results).
Proof.
  rewrite main_summary_run. eexists. split; [reflexivity|].
  pose proof (passed_all results) as Hall. pose proof (not_all_passed results) as Hnot.
  rewrite <- Nat.eqb_eq.
  destruct (passed_count results =? length results)%nat.
  - assert (Forall (fun nr : string * bool => snd nr = true) results) as HF by tauto.
    split; [tauto|]. split; [|split; [apply passed_count_le|tauto]].
    split; [done|]. intros HE. apply Hnot in HE. tauto.
  - assert (~ Forall (fun nr : string * bool => snd nr = true) results) as HF.
    { intros HF. apply Hall in HF. done. }
    split; [split; [done|tauto]|]. split; [|split; [apply passed_count_le|]].
    + split; [|done]. intros _. by apply Hnot.
    + split; [done|tauto].
Qed.

(** ** Relations every step keeps *)

Section Kept.
Variable R : World -> World -> Prop.
Hypothesis R_refl : forall w, R w w.
Hypothesis R_trans : forall w1 w2 w3, R w1 w2 -> R w2 w3 -> R w1 w3.

Lemma kept_ret {A} (a : A) : kept R (ret a).
Proof. intros w. apply R_refl. Qed.

Lemma kept_raise {A} (e : exn) : kept R (@raise A e).
Proof. intros w. apply R_refl. Qed.

Lemma kept_call {A} (r : Result A) : kept R (call r).
Proof. intros w. apply R_refl. Qed.

Lemma kept_os_environ_get key dflt : kept R (os_environ_get key dflt).
Proof. intros w. apply R_refl. Qed.

Lemma kept_load_local {A} name (slot : option A) : kept R (load_local name slot).
Proof. intros w. destruct slot; apply R_refl. Qed.

Lemma kept_bind {A B} (m : M A) (k : A -> M B) :
  kept R m -> (forall a, kept R (k a)) -> kept R (bind m k).
Proof.
  intros Hm Hk w. unfold bind. specialize (Hm w).
  destruct (m w) as [[a|e] w1]; simpl in *; [|done].
  eapply R_trans; [exact Hm | apply Hk].
Qed.

Lemma kept_try_except {A} (body : M A) catches handler :
  kept R body -> (forall e, kept R (handler e)) -> kept R (try_except body catches handler).
Proof.
  intros Hb Hh w. unfold try_except. specialize (Hb w).
  destruct (body w) as [[a|e] w1]; simpl in *; [done|].
  destruct (catches e); [|done].
  eapply R_trans; [exact Hb | apply Hh].
Qed.

Lemma kept_try_finally {A} (body : M A) fin :
  kept R body -> kept R fin -> kept R (try_finally body fin).
Proof.
  intros Hb Hf w. unfold try_finally. specialize (Hb w).
  destruct (body w) as [r w1]; simpl in *. specialize (Hf w1).
  destruct (fin w1) as [[[]|e] w2]; simpl in *; eapply R_trans; eauto.
Qed.

Lemma kept_with_proc {A} process (k : Proc -> M A) :
  (forall p, kept R (k p)) -> kept R (with_proc process k).
Proof.
  intros Hk w. unfold with_proc. destruct (procs w !! process) as [p|].
  - apply Hk.
  - apply R_refl.
Qed.

Hypothesis R_printed : forall lines w, R w (printed lines w).

Lemma kept_print text : kept R (print text).
Proof. intros w. rewrite print_eq. apply R_printed. Qed.

Lemma kept_print_header text : kept R (print_header text).
Proof. intros w. rewrite print_header_eq. apply R_printed. Qed.

Lemma kept_print_success text : kept R (print_success text).
Proof. intros w. rewrite print_success_eq. apply R_printed. Qed.

Lemma kept_print_error text : kept R (print_error text).
Proof. intros w. rewrite print_error_eq. apply R_printed. Qed.

Lemma kept_print_warning text : kept R (print_warning text).
Proof. intros w. rewrite print_warning_eq. apply R_printed. Qed.

Lemma kept_print_info text : kept R (print_info text).
Proof. intros w. rewrite print_info_eq. apply R_printed. Qed.

Lemma kept_poll process : kept R (poll process).
Proof. apply kept_with_proc. intros p. apply kept_ret. Qed.

Lemma kept_communicate process : kept R (communicate process).
Proof. apply kept_with_proc. intros p. apply kept_ret. Qed.
End Kept.

(** Decompose a computation into steps that keep a relation; [base] solves
    the steps that are particular to the relation. *)
Ltac kept_steps Hrefl Htrans Hprinted base :=
  repeat first
    [ solve [base]
    | apply (kept_bind _ Htrans); [|intros ?]
    | apply (kept_try_except _ Htrans); [|intros ?]
    | apply (kept_try_finally _ Htrans)
    | apply (kept_ret _ Hrefl) | apply (kept_raise _ Hrefl) | apply (kept_call _ Hrefl)
    | apply (kept_os_environ_get _ Hrefl) | apply (kept_load_local _ Hrefl)
    | apply (kept_print _ Hprinted) | apply (kept_print_header _ Hprinted)
    | apply (kept_print_success _ Hprinted) | apply (kept_print_error _ Hprinted)
    | apply (kept_print_warning _ Hprinted) | apply (kept_print_info _ Hprinted)
    | apply (kept_poll _ Hrefl) | apply (kept_communicate _ Hrefl)
    | match goal with
      | |- kept _ (match ?x with _ => _ end) => destruct x
      | |- kept _ (if ?c then _ else _) => destruct c
      | |- kept _ (let '(_, _) := ?x in _) => destruct x
      end ].

(** *** Steps that leave all but one process alone *)

Lemma calm_refl n w : calm n w w.
Proof. by repeat split. Qed.

Lemma calm_trans n w1 w2 w3 : calm n w1 w2 -> calm n w2 w3 -> calm n w1 w3.
Proof.
  intros (?&?&?&?&?&Ha) (?&?&?&?&?&Hb). repeat split; try congruence.
  intros i Hi. rewrite Hb, Ha by done. done.
Qed.

Lemma calm_printed n lines w : calm n w (printed lines w).
Proof. by repeat split. Qed.

Lemma calm_terminate n : kept (calm n) (terminate n).
Proof.
  intros w. unfold terminate, with_proc.
  destruct (procs w !! n) as [p|]; [|apply calm_refl].
  destruct (p_returncode p); [apply calm_refl|].
  repeat split; simpl; [by rewrite length_insert|].
  intros i Hi. by rewrite list_lookup_insert_ne.
Qed.

Lemma calm_wait n secs : kept (calm n) (wait n secs).
Proof.
  intros w. unfold wait, with_proc.
  destruct (procs w !! n) as [p|]; [|apply calm_refl].
  destruct (p_returncode p); [apply calm_refl|].
  destruct (p_terminate_requests p); [apply calm_refl|].
  destruct (exits_on_terminate (p_behaviour p)); [|apply calm_refl].
  repeat split; simpl; [by rewrite length_insert|].
  intros i Hi. by rewrite list_lookup_insert_ne.
Qed.

(** ** More of the worker probe *)



(** *** Checks that only print *)

Lemma only_printed_refl w : only_printed w w.
Proof. exists []. by rewrite printed_nil. Qed.

Lemma only_printed_trans w1 w2 w3 :
  only_printed w1 w2 -> only_printed w2 w3 -> only_printed w1 w3.
Proof. intros [l1 ->] [l2 ->]. exists (l1 ++ l2). apply printed_printed. Qed.

Lemma only_printed_printed lines w : only_printed w (printed lines w).
Proof. by exists lines. Qed.

Ltac print_steps base :=
  kept_steps only_printed_refl only_printed_trans only_printed_printed base.

Lemma walk_parts_prints package rest : forall m, kept only_printed (walk_parts package m rest).
Proof.
  induction rest as [|name rest IH]; intros m; cbn [walk_parts]; print_steps ltac:(apply IH).
Qed.

Lemma check_package_prints h all_ok package : kept only_printed (check_package h all_ok package).
Proof.
  unfold check_package, import_package. print_steps ltac:(apply walk_parts_prints).
Qed.

Lemma check_packages_prints h packages :
  forall all_ok, kept only_printed (check_packages h all_ok packages).
Proof.
  induction packages as [|p ps IH]; intros all_ok; cbn [check_packages];
    print_steps ltac:(first [apply check_package_prints | apply IH]).
Qed.

Lemma check_python_version_prints h : kept only_printed (check_python_version h).
Proof. intros w. destruct (check_python_version_run h w) as [lines ->]. by exists lines. Qed.

Lemma check_dependencies_prints h : kept only_printed (check_dependencies h).
Proof. unfold check_dependencies. print_steps ltac:(apply check_packages_prints). Qed.

Lemma check_encoding_prints h : kept only_printed (check_encoding h).
Proof. intros w. destruct (check_encoding_run h w) as [lines ->]. by exists lines. Qed.

Lemma check_pythonpath_prints h : kept only_printed (check_pythonpath h).
Proof.
  intros w. pose proof (check_pythonpath_run h w) as H.
  destruct (os_getcwd h); destruct H as [lines ->]; by exists lines.
Qed.

(** X12: the version, dependency, encoding and search-path checks only
    print, whatever their outcome, an exception included: the final world
    is the initial one with lines added to the console. *)
Theorem X12_checks_that_only_print (h : Host) (w : World) :
  (exists lines, snd (check_python_version h w) = printed lines w) /\
  (exists lines, snd (check_dependencies h w) = printed lines w) /\
  (exists lines, snd (check_encoding h w) = printed lines w) /\
  (exists lines, snd (check_pythonpath h w) = printed lines w).
Proof.
  split; [apply check_python_version_prints|].
  split; [apply check_dependencies_prints|].
  split; [apply check_encoding_prints|apply check_pythonpath_prints].
Qed.

(** *** The environment mapping of the checker *)

Lemma same_environ_refl w : same_environ w w.
Proof. done. Qed.

Lemma same_environ_trans w1 w2 w3 :
  same_environ w1 w2 -> same_environ w2 w3 -> same_environ w1 w3.
Proof. unfold same_environ. congruence. Qed.

Lemma same_environ_printed lines w : same_environ w (printed lines w).
Proof. done. Qed.

Lemma same_environ_only_printed {A} (m : M A) : kept only_printed m -> kept same_environ m.
Proof. intros H w. destruct (H w) as [lines ->]. done. Qed.

Lemma same_environ_run h args : kept same_environ (run h args).
Proof. by intros w. Qed.

Lemma same_environ_check_mcp_server h script name timeout :
  kept same_environ (check_mcp_server h script name timeout).
Proof. intros w. apply check_mcp_server_envs. Qed.

Lemma same_environ_check_python_path h : kept same_environ (check_python_path h).
Proof.
  unfold check_python_path.
  kept_steps same_environ_refl same_environ_trans same_environ_printed
    ltac:(apply same_environ_run).
Qed.

Lemma same_environ_main_checks h : kept same_environ (main_checks h).
Proof.
  unfold main_checks.
  kept_steps same_environ_refl same_environ_trans same_environ_printed
    ltac:(first
            [ apply same_environ_check_python_path
            | apply same_environ_check_mcp_server
            | apply same_environ_only_printed;
              first [ apply check_python_version_prints | apply check_dependencies_prints
                    | apply check_encoding_prints | apply check_pythonpath_prints ] ]).
Qed.

(** X10: a run never changes the environment mapping of the checker,
    whether it completes, fails or is interrupted. *)
Theorem X10_environment_unchanged (h : Host) (w : World) :
  os_environ (snd (main_checks h w)) = os_environ w /\
  os_environ (snd (main h w)) = os_environ w /\
  os_environ (snd (script h w)) = os_environ w.
Proof.
  pose proof (same_environ_main_checks h w) as Hc. unfold same_environ in Hc.
  split; [done|].
  destruct (main_checks h w) as [[results|e] w1] eqn:Hrun; cbn [snd] in Hc.
  - rewrite (script_completed _ _ _ _ Hrun). unfold main, bind.
    rewrite Hrun, main_summary_run. done.
  - rewrite (script_raised _ _ _ _ Hrun), (main_raises _ _ _ _ Hrun).
    split; [done|]. by destruct (isinstance e KeyboardInterrupt).
Qed.

(** *** A run that completes *)

Lemma main_checks_completed h w results w' :
  main_checks h w = (Ok results, w') ->
  exists b1 w1 b2 w2 b3 w3 b4 w4 b5 w5 b6 w6 b7,
    check_python_version h
      (printed [PyStr.nl +:+ Colors.BOLD +:+ rule; "  MCP Server Health Check";
                rule +:+ Colors.RESET +:+ PyStr.nl] w) = (Ok b1, w1) /\
    check_python_path h w1 = (Ok b2, w2) /\
    check_dependencies h w2 = (Ok b3, w3) /\
    check_encoding h w3 = (Ok b4, w4) /\
    check_pythonpath h w4 = (Ok b5, w5) /\
    check_mcp_server h "tools/command_executor.py" "Command Executor Server"
      default_timeout w5 = (Ok b6, w6) /\
    check_mcp_server h "tools/code_implementation_server.py" "Code Implementation Server"
      default_timeout w6 = (Ok b7, w') /\
    results =
      [ ("Python Version", b1); ("Python Path", b2); ("Dependencies", b3);
        ("Encoding", b4); ("PYTHONPATH", b5); ("Command Executor", b6);
        ("Code Implementation", b7) ].
Proof.
  unfold main_checks, bind. step_prints.
  repeat match goal with
         | |- context [let (_, _) := ?m in _] =>
             destruct m as [[?b|?e] ?w] eqn:?H; [|discriminate]
         end.
  unfold ret. intros [= <- <-]. repeat eexists; eauto.
Qed.

Lemma check_python_path_true h w b w' : check_python_path h w = (Ok b, w') -> b = true.
Proof.
  pose proof (check_python_path_run h w) as Hrun.
  destruct (subprocess_run h ["python"; "--version"]) as [out|e];
    [|destruct (isinstance e Exception)]; rewrite Hrun; by intros [= <- _].
Qed.

Lemma check_mcp_server_spawned h script name timeout w :
  spawned (snd (check_mcp_server h script name timeout w)) =
    spawned w ++ probe_requests h script.
Proof.
  pose proof (check_mcp_server_envs h script name timeout w) as [_ H].
  unfold probe_requests.
  destruct (Path_exists h script) as [[|]|e];
    [destruct (subprocess_Popen h (probe_args h script) (child_env w)); by destruct H| |];
    destruct H as (_ & _ & ->); by rewrite app_nil_r.
Qed.

(** X5: a run whose checks all return collects seven results, labelled
    in the fixed order whatever their values (a failed check skips none of
    the later ones), with the interpreter-path result always true; the
    summary then reports the number of passed results out of 7, and the
    exit status is 0 when that number is 7 and 1 otherwise. *)
Theorem X5_completed_run (h : Host) (w : World) results w' :
  main_checks h w = (Ok results, w') ->
  fst <$> results = check_labels /\
  results !! 1%nat = Some ("Python Path", true) /\
  script h w =
    ((if (passed_count results =? 7)%nat then 0 else 1),
     printed (summary_lines results) w') /\
  total_line (passed_count results) 7 ∈ summary_lines results.
Proof.
  intros Hrun.
  destruct (main_checks_completed _ _ _ _ Hrun)
    as (b1 & w1 & b2 & w2 & b3 & w3 & b4 & w4 & b5 & w5 & b6 & w6 & b7 &
        H1 & H2 & H3 & H4 & H5 & H6 & H7 & ->).
  split; [done|]. split; [by rewrite (check_python_path_true _ _ _ _ H2)|].
  split; [by rewrite (script_completed _ _ _ _ Hrun)|].
  unfold summary_lines. rewrite !elem_of_app. right. right. apply list_elem_of_here.
Qed.

Lemma X5_completed_run_witness :
  fst <$> all_passed = check_labels /\
  all_passed !! 1%nat = Some ("Python Path", true) /\
  script (Samples.healthy Samples.resident) Samples.world0 =
    ((if (passed_count all_passed =? 7)%nat then 0 else 1),
     printed (summary_lines all_passed)
       (snd (main_checks (Samples.healthy Samples.resident) Samples.world0))) /\
  total_line (passed_count all_passed) 7 ∈ summary_lines all_passed.
Proof.
  apply (X5_completed_run (Samples.healthy Samples.resident) Samples.world0).
  vm_compute. reflexivity.
Defined.

Lemma snd_only_printed {A} (m : M A) w r w' :
  kept only_printed m -> m w = (r, w') -> spawned w' = spawned w.
Proof.
  intros H Hr. specialize (H w). rewrite Hr in H. cbn [snd] in H.
  by destruct H as [lines ->].
Qed.

(** X13: in a run whose checks all return, the process creation requests
    are, in order, the launcher probe and one request per worker script
    that exists, with the running interpreter: at least one and at most
    three requests. *)
Theorem X13_requests_of_completed_run (h : Host) (w : World) results w' :
  main_checks h w = (Ok results, w') ->
  spawned w' =
    spawned w ++ [launcher_request]
      ++ probe_requests h "tools/command_executor.py"
      ++ probe_requests h "tools/code_implementation_server.py" /\
  (1 <= length (spawned w') - length (spawned w) <= 3)%nat.
Proof.
  intros Hrun.
  destruct (main_checks_completed _ _ _ _ Hrun)
    as (b1 & w1 & b2 & w2 & b3 & w3 & b4 & w4 & b5 & w5 & b6 & w6 & b7 &
        H1 & H2 & H3 & H4 & H5 & H6 & H7 & _).
  apply (snd_only_printed _ _ _ _ (check_python_version_prints h)) in H1.
  apply (snd_only_printed _ _ _ _ (check_dependencies_prints h)) in H3.
  apply (snd_only_printed _ _ _ _ (check_encoding_prints h)) in H4.
  apply (snd_only_printed _ _ _ _ (check_pythonpath_prints h)) in H5.
  pose proof (check_python_path_run h w1) as Hp.
  assert (Hs2 : spawned w2 = spawned w1 ++ [launcher_request]).
  { destruct (subprocess_run h ["python"; "--version"]) as [out|e];
      [|destruct (isinstance e Exception)]; rewrite Hp in H2; by injection H2 as _ <-. }
  pose proof (check_mcp_server_spawned h "tools/command_executor.py"
                "Command Executor Server" default_timeout w5) as Hs6.
  pose proof (check_mcp_server_spawned h "tools/code_implementation_server.py"
                "Code Implementation Server" default_timeout w6) as Hs7.
  rewrite H6 in Hs6. rewrite H7 in Hs7. cbn [snd] in *.
  assert (Heq : spawned w' =
    spawned w ++ [launcher_request]
      ++ probe_requests h "tools/command_executor.py"
      ++ probe_requests h "tools/code_implementation_server.py").
  { rewrite Hs7, Hs6, H5, H4, H3, Hs2, H1. cbn [spawned printed with_console].
    by rewrite <- !app_assoc. }
  split; [done|]. rewrite Heq, !length_app. unfold probe_requests.
  destruct (Path_exists h "tools/command_executor.py") as [[|]|?],
           (Path_exists h "tools/code_implementation_server.py") as [[|]|?]; simpl; lia.
Qed.

Lemma X13_requests_of_completed_run_witness :
  spawned (snd (main_checks Samples.no_scripts Samples.world0)) =
    spawned Samples.world0 ++ [launcher_request]
      ++ probe_requests Samples.no_scripts "tools/command_executor.py"
      ++ probe_requests Samples.no_scripts "tools/code_implementation_server.py" /\
  (1 <= length (spawned (snd (main_checks Samples.no_scripts Samples.world0)))
        - length (spawned Samples.world0) <= 3)%nat.
Proof.
  apply (X13_requests_of_completed_run Samples.no_scripts Samples.world0
           (match fst (main_checks Samples.no_scripts Samples.world0) with
            | Ok r => r | Raise _ => [] end)).
  vm_compute. reflexivity.
Defined.

(** ** More of the dependency check *)

(** X11: in the dependency check an attribute whose value is [None]
    counts as missing: a dotted entry whose top-level module is imported
    and whose next name is bound to [None] is reported as not installed,
    and the result of the check turns false. *)
Theorem X11_none_valued_attribute h package top name rest attrs all_ok w :
  PyStr.split_dot package = top :: name :: rest ->
  importlib_import_module h top = Ok (PyObject attrs) ->
  find_attr name attrs = Some PyNone ->
  check_package h all_ok package w =
    (Ok false, printed (not_installed_lines package) w).
Proof.
  intros Hs Hi Ha.
  destruct (check_package_cases h all_ok package w)
    as [[Hr _]|[[_ Hrun]|(e & Hc & _)]]; [exfalso| done |exfalso].
  - destruct Hr as (top' & rest' & m & Hs' & Hi' & Hw).
    rewrite Hs in Hs'. injection Hs' as <- <-. rewrite Hi in Hi'. injection Hi' as <-.
    inversion Hw; subst. congruence.
  - destruct Hc as (top' & rest' & Hs' & Hi' & _).
    rewrite Hs in Hs'. injection Hs' as <- <-. congruence.
Qed.

Lemma X11_none_valued_attribute_witness :
  check_package none_attribute true "mcp.server" Samples.world0 =
    (Ok false, printed (not_installed_lines "mcp.server") Samples.world0).
Proof.
  exact (X11_none_valued_attribute none_attribute "mcp.server" "mcp" "server" []
           [("server", PyNone)] true Samples.world0 eq_refl eq_refl eq_refl).
Defined.

(** * Properties of the script on any platform *)

(** ** Computations with the same outcome *)

Lemma same_refl {A} (m : M A) : same m m.
Proof. by intros w. Qed.

Lemma same_bind {A B} (m m' : M A) (k k' : A -> M B) :
  same m m' -> (forall a, same (k a) (k' a)) -> same (bind m k) (bind m' k').
Proof.
  intros Hm Hk w. unfold bind. rewrite Hm.
  destruct (m' w) as [[a|e] w1]; [apply Hk|done].
Qed.

Lemma same_try_except {A} (body body' : M A) catches handler handler' :
  same body body' -> (forall e, same (handler e) (handler' e)) ->
  same (try_except body catches handler) (try_except body' catches handler').
Proof.
  intros Hb Hh w. unfold try_except. rewrite Hb.
  destruct (body' w) as [[a|e] w1]; [done|]. destruct (catches e); [apply Hh|done].
Qed.

Lemma same_try_finally {A} (body body' : M A) fin fin' :
  same body body' -> same fin fin' ->
  same (try_finally body fin) (try_finally body' fin').
Proof.
  intros Hb Hf w. unfold try_finally. rewrite Hb.
  destruct (body' w) as [r w1]. by rewrite Hf.
Qed.

(** ** Printing where every line can be written *)

Section Writes.
Variable p : Platform.
Hypothesis Hw : writes p.

Lemma general_print_eq text w : General.print p text w = (Ok tt, printed [text] w).
Proof. unfold General.print. by rewrite Hw. Qed.

Lemma print_same text : same (General.print p text) (print text).
Proof. intros w. by rewrite general_print_eq, print_eq. Qed.

Lemma print_header_same text : same (General.print_header p text) (print_header text).
Proof.
  intros w. rewrite print_header_eq. unfold General.print_header, bind.
  rewrite !general_print_eq, !printed_printed. reflexivity.
Qed.

Lemma print_success_same text : same (General.print_success p text) (print_success text).
Proof. intros w. unfold General.print_success. by rewrite general_print_eq, print_success_eq. Qed.

Lemma print_error_same text : same (General.print_error p text) (print_error text).
Proof. intros w. unfold General.print_error. by rewrite general_print_eq, print_error_eq. Qed.

Lemma print_warning_same text : same (General.print_warning p text) (print_warning text).
Proof. intros w. unfold General.print_warning. by rewrite general_print_eq, print_warning_eq. Qed.

Lemma print_info_same text : same (General.print_info p text) (print_info text).
Proof. intros w. unfold General.print_info. by rewrite general_print_eq, print_info_eq. Qed.

End Writes.

(** Decompose two computations of the same shape into their steps; [base]
    solves the steps that differ. *)
Ltac same_steps base :=
  repeat first
    [ apply same_refl
    | solve [base]
    | apply same_bind; [|intros ?]
    | apply same_try_except; [|intros ?]
    | apply same_try_finally
    | match goal with
      | |- same (match ?x with _ => _ end) _ => destruct x
      | |- same (if ?c then _ else _) _ => destruct c
      | |- same (let '(_, _) := ?x in _) _ => destruct x
      end ].

Ltac same_prints Hw :=
  first [ apply (print_same _ Hw) | apply (print_header_same _ Hw)
        | apply (print_success_same _ Hw) | apply (print_error_same _ Hw)
        | apply (print_warning_same _ Hw) | apply (print_info_same _ Hw) ].

(** Where every line can be written, the checks of the environment are
    the ones of the first part. *)
Lemma check_python_version_same h p :
  writes p -> same (General.check_python_version h p) (check_python_version h).
Proof.
  intros Hw. unfold General.check_python_version, check_python_version.
  same_steps ltac:(same_prints Hw).
Qed.

Lemma check_python_path_same h p :
  writes p -> same (General.check_python_path h p) (check_python_path h).
Proof.
  intros Hw. unfold General.check_python_path, check_python_path.
  same_steps ltac:(same_prints Hw).
Qed.

Lemma check_package_same h p all_ok package :
  writes p -> same (General.check_package h p all_ok package) (check_package h all_ok package).
Proof.
  intros Hw. unfold General.check_package, check_package,
    General.import_package, import_package.
  same_steps ltac:(same_prints Hw).
Qed.

Lemma check_packages_same h p packages :
  writes p ->
  forall all_ok, same (General.check_packages h p all_ok packages)
                      (check_packages h all_ok packages).
Proof.
  intros Hw. induction packages as [|package rest IH]; intros all_ok; simpl.
  - apply same_refl.
  - apply same_bind; [by apply check_package_same|]. intros b. apply IH.
Qed.

Lemma check_dependencies_same h p :
  writes p -> same (General.check_dependencies h p) (check_dependencies h).
Proof.
  intros Hw. unfold General.check_dependencies, check_dependencies.
  same_steps ltac:(first [same_prints Hw | by apply check_packages_same]).
Qed.

Lemma check_encoding_same h p :
  writes p -> same (General.check_encoding h p) (check_encoding h).
Proof.
  intros Hw. unfold General.check_encoding, check_encoding.
  same_steps ltac:(same_prints Hw).
Qed.

Lemma check_pythonpath_same h p :
  writes p -> same (General.check_pythonpath h p) (check_pythonpath h).
Proof.
  intros Hw. unfold General.check_pythonpath, check_pythonpath.
  same_steps ltac:(same_prints Hw).
Qed.

Lemma main_summary_same p results :
  writes p -> same (General.main_summary p results) (main_summary results).
Proof.
  intros Hw. unfold General.main_summary, main_summary.
  assert (Hr : forall rs, same (General.print_results p rs) (print_results rs)).
  { induction rs as [|[name r] rs IH]; simpl; same_steps ltac:(first [same_prints Hw | apply IH]). }
  same_steps ltac:(first [same_prints Hw | apply Hr]).
Qed.

(** ** What a computation raises *)

Lemma bind_ok {A B} (m : M A) (k : A -> M B) w b w' :
  bind m k w = (Ok b, w') -> exists a w1, m w = (Ok a, w1) /\ k a w1 = (Ok b, w').
Proof. unfold bind. destruct (m w) as [[a|e] w1]; [eauto|discriminate]. Qed.

Lemma bind_raise {A B} (m : M A) (k : A -> M B) w e w' :
  bind m k w = (Raise e, w') ->
  m w = (Raise e, w') \/ exists a w1, m w = (Ok a, w1) /\ k a w1 = (Raise e, w').
Proof.
  unfold bind. destruct (m w) as [[a|e0] w1]; intros H.
  - right. by exists a, w1.
  - left. by injection H as -> ->.
Qed.

Section RaisesOnly.
Variable P : exn -> Prop.

Lemma raises_only_ret {A} (a : A) : raises_only P (ret a).
Proof. intros w e w'. discriminate. Qed.

Lemma raises_only_raise {A} e : P e -> raises_only P (@raise A e).
Proof. intros He w e' w' [= <- _]. done. Qed.


Lemma raises_only_os_environ_get key dflt : raises_only P (os_environ_get key dflt).
Proof. intros w e w'. discriminate. Qed.

Lemma raises_only_bind {A B} (m : M A) (k : A -> M B) :
  raises_only P m -> (forall a, raises_only P (k a)) -> raises_only P (bind m k).
Proof.
  intros Hm Hk w e w' [H|(a & w1 & _ & H)]%bind_raise; [by eapply Hm|by eapply Hk].
Qed.


Lemma raises_only_try_finally {A} (body : M A) fin :
  raises_only P body -> raises_only P fin -> raises_only P (try_finally body fin).
Proof.
  intros Hb Hf w e w'. unfold try_finally.
  destruct (body w) as [r w1] eqn:Hrun.
  destruct (fin w1) as [[[]|e1] w2] eqn:Hfin.
  - intros [= -> _]. by eapply Hb.
  - intros [= <- _]. by eapply Hf.
Qed.
End RaisesOnly.

Lemma raises_only_weaken {A} (P Q : exn -> Prop) (m : M A) :
  (forall e, P e -> Q e) -> raises_only P m -> raises_only Q m.
Proof. intros HPQ Hm w e w' H. apply HPQ. by eapply Hm. Qed.

(** ** Printing on any platform *)

Lemma general_print_ok p text w u w' :
  General.print p text w = (Ok u, w') -> w' = printed [text] w.
Proof.
  unfold General.print. destruct (stdout_write p (console w) text); [discriminate|].
  by intros [= _ <-].
Qed.

Lemma general_print_header_ok p text w u w' :
  General.print_header p text w = (Ok u, w') -> w' = printed (header_lines text) w.
Proof.
  unfold General.print_header.
  intros (u1 & w1 & H1 & (u2 & w2 & H2 & H3)%bind_ok)%bind_ok.
  apply general_print_ok in H1, H2, H3. subst. by rewrite !printed_printed.
Qed.

Lemma general_print_raises p text w e w' :
  General.print p text w = (Raise e, w') -> stdout_write p (console w) text = Some e /\ w' = w.
Proof.
  unfold General.print. destruct (stdout_write p (console w) text); [|discriminate].
  by intros [= <- <-].
Qed.

Section PrintsRaise.
Variables (p : Platform) (P : exn -> Prop).
Hypothesis HP : forall e, write_error p e -> P e.

Lemma raises_only_print text : raises_only P (General.print p text).
Proof. intros w e w' [H _]%general_print_raises. apply HP. by eexists _, _. Qed.

Lemma raises_only_print_header text : raises_only P (General.print_header p text).
Proof.
  unfold General.print_header.
  repeat (apply raises_only_bind; [|intros ?]); apply raises_only_print.
Qed.

Lemma raises_only_print_success text : raises_only P (General.print_success p text).
Proof. apply raises_only_print. Qed.
Lemma raises_only_print_error text : raises_only P (General.print_error p text).
Proof. apply raises_only_print. Qed.
Lemma raises_only_print_warning text : raises_only P (General.print_warning p text).
Proof. apply raises_only_print. Qed.
Lemma raises_only_print_info text : raises_only P (General.print_info p text).
Proof. apply raises_only_print. Qed.
End PrintsRaise.

(** Decompose a computation into steps as to what they raise; [HP] says
    that the errors of a write are among the exceptions allowed, and [base]
    solves the other steps. *)
Ltac raise_steps HP base :=
  repeat first
    [ solve [base]
    | apply raises_only_bind; [|intros ?]
    | apply raises_only_try_finally
    | apply raises_only_ret | apply raises_only_os_environ_get
    | apply (raises_only_print _ _ HP) | apply (raises_only_print_header _ _ HP)
    | apply (raises_only_print_success _ _ HP) | apply (raises_only_print_error _ _ HP)
    | apply (raises_only_print_warning _ _ HP) | apply (raises_only_print_info _ _ HP)
    | match goal with
      | |- raises_only _ (match ?x with _ => _ end) => destruct x
      | |- raises_only _ (if ?c then _ else _) => destruct c
      | |- raises_only _ (let '(_, _) := ?x in _) => destruct x
      end ].

Section KeptGeneral.
Variable R : World -> World -> Prop.
Hypothesis R_refl : forall w, R w w.
Hypothesis R_trans : forall w1 w2 w3, R w1 w2 -> R w2 w3 -> R w1 w3.
Hypothesis R_printed : forall lines w, R w (printed lines w).
Variable p : Platform.

Lemma kept_general_print text : kept R (General.print p text).
Proof.
  intros w. unfold General.print.
  destruct (stdout_write p (console w) text); [apply R_refl|apply (R_printed [text])].
Qed.

Lemma kept_general_print_header text : kept R (General.print_header p text).
Proof.
  unfold General.print_header.
  repeat (apply (kept_bind _ R_trans); [|intros ?]); apply kept_general_print.
Qed.

Lemma kept_general_print_success text : kept R (General.print_success p text).
Proof. apply kept_general_print. Qed.
Lemma kept_general_print_error text : kept R (General.print_error p text).
Proof. apply kept_general_print. Qed.
Lemma kept_general_print_warning text : kept R (General.print_warning p text).
Proof. apply kept_general_print. Qed.
Lemma kept_general_print_info text : kept R (General.print_info p text).
Proof. apply kept_general_print. Qed.

Lemma kept_during {A} process site (m : M A) :
  kept R m -> kept R (General.during p process site m).
Proof.
  intros Hm. unfold General.during. destruct (arrives p process site); [|done].
  apply (kept_raise _ R_refl).
Qed.
End KeptGeneral.

Ltac general_kept_steps Hrefl Htrans Hprinted base :=
  repeat first
    [ solve [base]
    | apply (kept_bind _ Htrans); [|intros ?]
    | apply (kept_try_except _ Htrans); [|intros ?]
    | apply (kept_try_finally _ Htrans)
    | apply (kept_ret _ Hrefl) | apply (kept_raise _ Hrefl) | apply (kept_call _ Hrefl)
    | apply (kept_os_environ_get _ Hrefl) | apply (kept_load_local _ Hrefl)
    | apply (kept_general_print _ Hrefl Hprinted)
    | apply (kept_general_print_header _ Hrefl Htrans Hprinted)
    | apply (kept_general_print_success _ Hrefl Hprinted)
    | apply (kept_general_print_error _ Hrefl Hprinted)
    | apply (kept_general_print_warning _ Hrefl Hprinted)
    | apply (kept_general_print_info _ Hrefl Hprinted)
    | match goal with
      | |- kept _ (match ?x with _ => _ end) => destruct x
      | |- kept _ (if ?c then _ else _) => destruct c
      | |- kept _ (let '(_, _) := ?x in _) => destruct x
      end ].

Ltac general_print_steps base :=
  general_kept_steps only_printed_refl only_printed_trans only_printed_printed base.

(** ** The version check *)

Lemma general_version_verdict h p w b w' :
  General.check_python_version h p w = (Ok b, w') ->
  b = (let '(major, minor, micro) := sys_version_info h in
       tuple_ge [major; minor; micro] [3; 8]%nat).
Proof.
  unfold General.check_python_version.
  intros (u1 & w1 & _ & (u2 & w2 & _ & H)%bind_ok)%bind_ok. revert H.
  destruct (sys_version_info h) as [[major minor] micro].
  destruct (tuple_ge _ _); intros (u3 & w3 & _ & H)%bind_ok; by injection H as <- _.
Qed.

Lemma general_version_prints h p : kept only_printed (General.check_python_version h p).
Proof. unfold General.check_python_version. general_print_steps idtac. Qed.

Lemma general_version_raises h p :
  raises_only (write_error p) (General.check_python_version h p).
Proof.
  unfold General.check_python_version. raise_steps (fun e (H : write_error p e) => H) idtac.
Qed.

(** X1: the version check returns pass exactly when the version is 3.8 or
    later (major above 3, or major 3 and minor at least 8), whatever the
    micro version: whenever it returns, its result is true exactly then.
    It changes nothing but the console; the only exception it raises is one
    that a print raised; where every line can be written it returns. *)
Theorem X1_version_check (h : Host) (p : Platform) (w : World) :
  (forall b w', General.check_python_version h p w = (Ok b, w') ->
     (b = true <-> at_least_3_8 (sys_version_info h))) /\
  (forall e w', General.check_python_version h p w = (Raise e, w') -> write_error p e) /\
  (exists lines, snd (General.check_python_version h p w) = printed lines w) /\
  (writes p -> exists b w', General.check_python_version h p w = (Ok b, w')).
Proof.
  split; [|split; [|split]].
  - intros b w' ->%general_version_verdict.
    destruct (sys_version_info h) as [[major minor] micro]. apply tuple_ge_3_8.
  - intros e w'. apply general_version_raises.
  - apply general_version_prints.
  - intros Hw. rewrite (check_python_version_same h p Hw w).
    destruct (check_python_version_run h w) as [lines ->]. eauto.
Qed.

(** ** The encoding check *)




(** C4, where the code departs from it: on a machine started with
    PYTHONIOENCODING=ascii, where neither the encoding of standard output
    nor the variable is UTF-8, the encoding check does not return fail: its
    first information line cannot be encoded, and the error of that print
    comes out of the check once the header is printed.  A whole run on that
    machine ends the same way in the version check, whose first
    information line is the first line of the run that is not ASCII: the
    encoding check is not reached. *)
Theorem C4_encoding_check_raises :
  sys_stdout_encoding Platforms.ascii_host = Some "ascii" /\
  os_environ Platforms.ascii_world !! "PYTHONIOENCODING" = Some "ascii" /\
  ~ is_utf8 "ascii" /\
  fst (General.check_encoding Platforms.ascii_host
         (Platforms.posix Platforms.ascii_console Platforms.ascii_pipes)
         Platforms.ascii_world) =
    Raise (mkExn UnicodeEncodeError
             "'ascii' codec can't encode character '\u2139' in position 5: ordinal not in range(128)") /\
  console (snd (General.check_encoding Platforms.ascii_host
                  (Platforms.posix Platforms.ascii_console Platforms.ascii_pipes)
                  Platforms.ascii_world)) =
    header_lines "4. Checking Encoding Configuration" /\
  fst (General.main Platforms.ascii_host
         (Platforms.posix Platforms.ascii_console Platforms.ascii_pipes)
         Platforms.ascii_world) =
    Raise (mkExn UnicodeEncodeError
             "'ascii' codec can't encode character '\u2139' in position 5: ordinal not in range(128)") /\
  existsb (PyStr.contains "4. Checking Encoding Configuration")
    (console (snd (General.main Platforms.ascii_host
                     (Platforms.posix Platforms.ascii_console Platforms.ascii_pipes)
                     Platforms.ascii_world))) = false.
Proof. repeat split; try (vm_compute; reflexivity). discriminate. Qed.


(** ** The worker probe on any platform *)

Section WritesMore.
Variable p : Platform.
Hypothesis Hw : writes p.

Lemma general_print_header_eq text w :
  General.print_header p text w = (Ok tt, printed (header_lines text) w).
Proof. by rewrite (print_header_same p Hw text w), print_header_eq. Qed.

Lemma general_print_success_eq text w :
  General.print_success p text w = (Ok tt, printed [success_line text] w).
Proof. apply (general_print_eq p Hw). Qed.

Lemma general_print_error_eq text w :
  General.print_error p text w = (Ok tt, printed [error_line text] w).
Proof. apply (general_print_eq p Hw). Qed.

Lemma general_print_warning_eq text w :
  General.print_warning p text w = (Ok tt, printed [warning_line text] w).
Proof. apply (general_print_eq p Hw). Qed.

Lemma general_print_info_eq text w :
  General.print_info p text w = (Ok tt, printed [info_line text] w).
Proof. apply (general_print_eq p Hw). Qed.
End WritesMore.

Ltac general_prints Hw :=
  repeat first
    [ rewrite (general_print_header_eq _ Hw) | rewrite (general_print_success_eq _ Hw)
    | rewrite (general_print_error_eq _ Hw) | rewrite (general_print_warning_eq _ Hw)
    | rewrite (general_print_info_eq _ Hw) | rewrite (general_print_eq _ Hw)
    | rewrite printed_printed ].

Lemma general_found h p script name timeout w :
  writes p ->
  Path_exists h (Path_str p script) = Ok true ->
  General.check_mcp_server h p script name timeout w =
    (let '(r, process, w1) :=
       General.probe_try h p (Path_str p script) name timeout
         (printed (testing_lines script name) w) in
     try_finally
       (try_except (fun w' => (r, w')) (fun e => isinstance e Exception)
          (report_failure p name))
       (General.probe_cleanup p process) w1).
Proof.
  intros Hw Hex. unfold General.check_mcp_server, bind at 1 2, call. general_prints Hw.
  rewrite Hex. cbn [negb]. unfold bind at 1. general_prints Hw. reflexivity.
Qed.

Lemma general_missing h p script name timeout w :
  writes p ->
  Path_exists h (Path_str p script) = Ok false ->
  General.check_mcp_server h p script name timeout w =
    (Ok false,
     printed (header_lines ("5. Testing " +:+ name)
                ++ [error_line ("Server script not found: " +:+ script)]) w).
Proof.
  intros Hw Hex. unfold General.check_mcp_server, bind, call. general_prints Hw.
  rewrite Hex. cbn [negb]. general_prints Hw. reflexivity.
Qed.

Lemma general_probe_try_spawned h p path script name timeout w b :
  subprocess_Popen h (probe_args h path) (child_env w) = Ok b ->
  General.probe_try h p path name timeout (printed (testing_lines script name) w) =
    (let '(r, w2) :=
       General.probe h p name timeout (length (procs w))
         (mkWorld (os_environ w) (console w ++ testing_lines script name) (console_err w)
            (spawned w ++ [probe_args h path]) (procs w ++ [new_proc h path w b])
            (clock w)) in
     (r, Some (length (procs w)), w2)).
Proof.
  intros Hsp. unfold General.probe_try. world_simpl.
  fold (child_env w). fold (probe_args h path).
  rewrite (Popen_ok _ _ _ b) by done. world_simpl. reflexivity.
Qed.

Lemma general_sleep_ok h p secs w :
  time_sleep h (clock w) secs = None ->
  General.sleep h p secs w =
    (Ok tt,
     mkWorld (os_environ w) (console w) (console_err w) (spawned w)
             (elapse <$> procs w) (clock w + secs)).
Proof. intros H. unfold General.sleep. by rewrite H. Qed.

Lemma general_sleep_raise h p secs w e :
  time_sleep h (clock w) secs = Some e ->
  General.sleep h p secs w =
    (Raise e,
     mkWorld (os_environ w) (console w) (console_err w) (spawned w)
       (imap (fun i q => if exited_early p i then elapse q else q) (procs w)) (clock w)).
Proof. intros H. unfold General.sleep. by rewrite H. Qed.

Lemma during_none {A} p process site (m : M A) :
  arrives p process site = None -> General.during p process site m = m.
Proof. intros H. unfold General.during. by rewrite H. Qed.

Lemma during_some {A} p process site (m : M A) e :
  arrives p process site = Some e -> General.during p process site m = raise e.
Proof. intros H. unfold General.during. by rewrite H. Qed.

(** The cleanup finds a process that has exited: whatever arrives, it
    returns and the world is as it was. *)
Lemma general_cleanup_exited p w ps q n c :
  procs w = ps ++ [q] -> n = length ps -> p_returncode q = Some c ->
  General.probe_cleanup p (Some n) w = (Ok tt, w).
Proof.
  intros Hp Hn Hc.
  unfold General.probe_cleanup, General.probe_cleanup_body, try_except, bind, load_local, ret,
    General.poll, General.during.
  destruct (arrives p n cleanup_poll); [reflexivity|].
  unfold poll. rewrite (with_proc_at ps q) by done. unfold ret. by rewrite Hc.
Qed.

(** The cleanup always returns. *)
Lemma general_cleanup_total p process w :
  exists w', General.probe_cleanup p process w = (Ok tt, w').
Proof.
  unfold General.probe_cleanup, try_except.
  destruct (General.probe_cleanup_body p process w) as [[[]|e] w1]; eauto.
Qed.

(** The worker has exited when polled, and what it wrote is decoded. *)
Lemma general_exited h p script name timeout w b c out err :
  writes p ->
  Path_exists h (Path_str p script) = Ok true ->
  subprocess_Popen h (probe_args h (Path_str p script)) (child_env w) = Ok b ->
  time_sleep h (clock w) timeout = None ->
  exits_during_probe b = Some c ->
  arrives p (length (procs w)) at_poll = None ->
  arrives p (length (procs w)) at_communicate = None ->
  pipes_text p (captured_stdout b) (captured_stderr b) = Ok (out, err) ->
  General.check_mcp_server h p script name timeout w =
    (Ok (c =? 0)%Z,
     mkWorld (os_environ w)
       (console w ++ testing_lines script name ++ exit_report name out err c)
       (console_err w) (spawned w ++ [probe_args h (Path_str p script)])
       ((elapse <$> procs w)
          ++ [mkProc (probe_args h (Path_str p script)) (child_env w) b (Some c) 0])
       (clock w + timeout)).
Proof.
  intros Hw Hex Hsp Hsl Hexit Hpoll Hcomm Hpipes. rewrite general_found by done.
  rewrite (general_probe_try_spawned _ _ _ _ _ _ _ b) by done.
  unfold General.probe, bind. rewrite general_sleep_ok by done. world_simpl.
  rewrite fmap_app. cbn [fmap list_fmap]. rewrite (elapse_exits _ _ _ _ c) by done.
  unfold General.poll, General.communicate.
  rewrite !during_none by done.
  table_step. cbn [p_returncode].
  erewrite with_proc_at by table_len. cbn [p_behaviour]. rewrite Hpipes. world_simpl.
  unfold exit_report.
  destruct (c =? 0)%Z; general_prints Hw;
    match goal with |- context [PyStr.truthy ?s] => destruct (PyStr.truthy s) end;
    general_prints Hw; world_simpl;
    unfold try_finally, try_except;
    erewrite general_cleanup_exited by (first [reflexivity | table_len]);
    rewrite <- ?app_assoc; reflexivity.
Qed.

(** The worker has exited when polled, and what it wrote cannot be
    decoded. *)
Lemma general_undecodable h p script name timeout w b c e :
  writes p ->
  Path_exists h (Path_str p script) = Ok true ->
  subprocess_Popen h (probe_args h (Path_str p script)) (child_env w) = Ok b ->
  time_sleep h (clock w) timeout = None ->
  exits_during_probe b = Some c ->
  arrives p (length (procs w)) at_poll = None ->
  arrives p (length (procs w)) at_communicate = None ->
  pipes_text p (captured_stdout b) (captured_stderr b) = Raise e ->
  General.check_mcp_server h p script name timeout w =
    ((if isinstance e Exception then Ok false else Raise e),
     mkWorld (os_environ w)
       (console w ++ testing_lines script name
          ++ (if isinstance e Exception
              then [error_line ("Failed to test " +:+ name +:+ ": " +:+ exn_str e)]
              else []))
       (console_err w) (spawned w ++ [probe_args h (Path_str p script)])
       ((elapse <$> procs w)
          ++ [mkProc (probe_args h (Path_str p script)) (child_env w) b (Some c) 0])
       (clock w + timeout)).
Proof.
  intros Hw Hex Hsp Hsl Hexit Hpoll Hcomm Hpipes. rewrite general_found by done.
  rewrite (general_probe_try_spawned _ _ _ _ _ _ _ b) by done.
  unfold General.probe, bind. rewrite general_sleep_ok by done. world_simpl.
  rewrite fmap_app. cbn [fmap list_fmap]. rewrite (elapse_exits _ _ _ _ c) by done.
  unfold General.poll, General.communicate.
  rewrite !during_none by done.
  table_step. cbn [p_returncode].
  erewrite with_proc_at by table_len. cbn [p_behaviour]. rewrite Hpipes. world_simpl.
  unfold try_finally, try_except.
  destruct (isinstance e Exception); unfold report_failure, bind; general_prints Hw;
    world_simpl;
    erewrite general_cleanup_exited by (first [reflexivity | table_len]);
    rewrite <- ?app_assoc, ?app_nil_r; reflexivity.
Qed.

(** C6, as the code has it: where the lines can be written, a worker probe
    on an existing script whose process has exited when polled, and whose
    captured output is decoded to the texts [out] and [err], returns pass
    when the exit status is 0, after a warning and, if [out] is not empty,
    one line with its first 500 characters; it returns fail when the status
    is not 0, after an error line and, if [err] is not empty, one line with
    its first 500 characters.  The characters are code points: a slice
    holds at most 500 of them and starts the text. *)
Theorem C6_exited_worker_decoded h p script name timeout w b code out err :
  writes p ->
  Path_exists h (Path_str p script) = Ok true ->
  subprocess_Popen h (probe_args h (Path_str p script)) (child_env w) = Ok b ->
  time_sleep h (clock w) timeout = None ->
  exits_during_probe b = Some code ->
  calls_go_through p (length (procs w)) ->
  pipes_text p (captured_stdout b) (captured_stderr b) = Ok (out, err) ->
  exists r w',
    General.check_mcp_server h p script name timeout w = (Ok r, w') /\
    (code = 0 ->
       r = true /\
       console w' =
         console w ++ testing_lines script name
           ++ warning_line (name +:+ " exited normally (might be waiting for input)")
              :: (if PyStr.truthy out
                  then [info_line ("stdout:" +:+ PyStr.nl +:+ PyStr.slice_to 500 out)]
                  else [])) /\
    (code <> 0 ->
       r = false /\
       console w' =
         console w ++ testing_lines script name
           ++ error_line (name +:+ " failed to start (exit code: " +:+ pretty code +:+ ")")
              :: (if PyStr.truthy err
                  then [error_line ("stderr:" +:+ PyStr.nl +:+ PyStr.slice_to 500 err)]
                  else [])) /\
    (PyStr.len (PyStr.slice_to 500 out) <= 500)%nat /\
    String.prefix (PyStr.slice_to 500 out) out = true /\
    (PyStr.len (PyStr.slice_to 500 err) <= 500)%nat /\
    String.prefix (PyStr.slice_to 500 err) err = true.
Proof.
  intros Hw Hex Hsp Hsl Hcode Hcalls Hpipes.
  rewrite (general_exited _ _ _ _ _ _ b code out err) by (auto; by apply Hcalls).
  eexists _, _. split; [reflexivity|]. cbn [console]. unfold exit_report.
  split; [|split].
  - intros ->. done.
  - intros Hne. apply Z.eqb_neq in Hne. by rewrite Hne.
  - auto using slice_to_length, slice_to_prefix.
Qed.

Lemma C6_exited_worker_decoded_witness :
  exists r w',
    General.check_mcp_server
      (Samples.healthy (Samples.quits (PyStr.mul (PyStr.chr 233) 300)))
      (Platforms.posix Platforms.utf8_console Platforms.latin1_pipes)
      "./tools/command_executor.py" "Command Executor Server" 3 Samples.world0
    = (Ok r, w') /\
    r = true /\
    last (console w') =
      Some (info_line ("stdout:" +:+ PyStr.nl +:+ PyStr.mul "é" 300)) /\
    String.length (PyStr.mul "é" 300) = 600%nat.
Proof.
  destruct (C6_exited_worker_decoded
              (Samples.healthy (Samples.quits (PyStr.mul (PyStr.chr 233) 300)))
              (Platforms.posix Platforms.utf8_console Platforms.latin1_pipes)
              "./tools/command_executor.py" "Command Executor Server" 3 Samples.world0
              (Samples.quits (PyStr.mul (PyStr.chr 233) 300)) 0
              (PyStr.mul "é" 300) "")
    as (r & w' & H1 & H2 & _).
  - intros out text. reflexivity.
  - reflexivity.
  - reflexivity.
  - reflexivity.
  - reflexivity.
  - intros site _. reflexivity.
  - vm_compute. reflexivity.
  - destruct (H2 eq_refl) as [Hr Hc].
    exists r, w'. split; [exact H1|]. split; [exact Hr|].
    split; [rewrite Hc; vm_compute; reflexivity|vm_compute; reflexivity].
Defined.

(** C6, as stated, fails: a worker whose script exists and which has
    exited with status 0 when polled, having written a line that is not
    ASCII on a platform whose pipes are decoded as ASCII, makes the
    probe return fail: [communicate] raises the error of the decoding
    inside the [try] suite, and the handler reports it. *)
Lemma C6_counterexample :
  Path_exists (Samples.healthy (Samples.quits "✓ ready")) "tools/command_executor.py"
    = Ok true /\
  exits_during_probe (Samples.quits "✓ ready") = Some 0 /\
  fst (General.check_mcp_server (Samples.healthy (Samples.quits "✓ ready"))
         (Platforms.posix Platforms.utf8_console Platforms.ascii_pipes)
         "tools/command_executor.py" "Command Executor Server" 3 Samples.world0)
    = Ok false /\
  p_returncode <$>
    procs (snd (General.check_mcp_server (Samples.healthy (Samples.quits "✓ ready"))
                  (Platforms.posix Platforms.utf8_console Platforms.ascii_pipes)
                  "tools/command_executor.py" "Command Executor Server" 3
                  Samples.world0)) !! 0%nat = Some (Some 0) /\
  last (console (snd (General.check_mcp_server (Samples.healthy (Samples.quits "✓ ready"))
                        (Platforms.posix Platforms.utf8_console Platforms.ascii_pipes)
                        "tools/command_executor.py" "Command Executor Server" 3
                        Samples.world0))) =
    Some (error_line ("Failed to test Command Executor Server: 'ascii' codec can't decode "
                        +:+ "byte 0xe2 in position 0: ordinal not in range(128)")).
Proof. repeat split; vm_compute; reflexivity. Qed.

(** ** What a worker probe leaves behind *)

(** The four ways through [check_mcp_server]: a print before the [try]
    statement fails, the existence test raises, the script is missing, or
    the [try] statement is reached. *)
Lemma general_check_cases h p script name timeout w r w' :
  General.check_mcp_server h p script name timeout w = (r, w') ->
  (exists e lines, r = Raise e /\ w' = printed lines w /\ write_error p e) \/
  (exists e,
     Path_exists h (Path_str p script) = Raise e /\
     r = Raise e /\ w' = printed (header_lines ("5. Testing " +:+ name)) w) \/
  (Path_exists h (Path_str p script) = Ok false /\
   r = Ok false /\
   w' = printed (header_lines ("5. Testing " +:+ name)
                   ++ [error_line ("Server script not found: " +:+ script)]) w) \/
  (Path_exists h (Path_str p script) = Ok true /\
   (r, w') =
     (let '(r0, process, w1) :=
        General.probe_try h p (Path_str p script) name timeout
          (printed (testing_lines script name) w) in
      try_finally
        (try_except (fun w2 => (r0, w2)) (fun e => isinstance e Exception)
           (report_failure p name))
        (General.probe_cleanup p process) w1)).
Proof.
  unfold General.check_mcp_server, bind at 1.
  destruct (General.print_header p ("5. Testing " +:+ name) w) as [[[]|e] w1] eqn:H1.
  - apply general_print_header_ok in H1 as ->. unfold bind at 1, call.
    destruct (Path_exists h (Path_str p script)) as [[|]|e] eqn:Hex; cbn [negb].
    + unfold bind at 1.
      match goal with |- context [General.print_info p ?t ?w0] =>
        destruct (General.print_info p t w0) as [[[]|e] w2] eqn:H2 end.
      * apply general_print_ok in H2 as ->. rewrite printed_printed.
        intros H. right; right; right. split; [done|]. symmetry. exact H.
      * apply general_print_raises in H2 as [H2 ->]. intros [= <- <-].
        left. exists e. eexists. split; [done|]. split; [reflexivity|]. by eexists _, _.
    + unfold bind at 1.
      match goal with |- context [General.print_error p ?t ?w0] =>
        destruct (General.print_error p t w0) as [[[]|e] w2] eqn:H2 end.
      * apply general_print_ok in H2 as ->. rewrite printed_printed.
        intros [= <- <-]. right; right; left. done.
      * apply general_print_raises in H2 as [H2 ->]. intros [= <- <-].
        left. exists e. eexists. split; [done|]. split; [reflexivity|]. by eexists _, _.
    + intros [= <- <-]. right; left. by exists e.
  - intros [= <- <-]. left.
    pose proof (kept_general_print_header _ only_printed_refl only_printed_trans
                  only_printed_printed p ("5. Testing " +:+ name) w) as Hk.
    rewrite H1 in Hk. destruct Hk as [lines Hk]. cbn [snd] in Hk.
    exists e, lines. split; [done|]. split; [done|].
    eapply (raises_only_print_header p _ (fun e H => H)). exact H1.
Qed.

(** *** Steps that leave all but one process alone *)

Lemma calm_general_poll p site n : kept (calm n) (General.poll p site n).
Proof. apply (kept_during _ (calm_refl n)), (kept_poll _ (calm_refl n)). Qed.

Lemma calm_general_terminate p site n : kept (calm n) (General.terminate p site n).
Proof. apply (kept_during _ (calm_refl n)), calm_terminate. Qed.

Lemma calm_general_wait p site n secs : kept (calm n) (General.wait p site n secs).
Proof. apply (kept_during _ (calm_refl n)), calm_wait. Qed.

Lemma calm_general_communicate p n : kept (calm n) (General.communicate p n).
Proof.
  apply (kept_during _ (calm_refl n)), (kept_with_proc _ (calm_refl n)).
  intros q. apply (kept_call _ (calm_refl n)).
Qed.

Ltac general_calm_steps n :=
  general_kept_steps (calm_refl n) (calm_trans n) (calm_printed n)
    ltac:(first [ apply calm_general_poll | apply calm_general_terminate
                | apply calm_general_wait | apply calm_general_communicate ]).

Lemma calm_general_cleanup p n : kept (calm n) (General.probe_cleanup p (Some n)).
Proof.
  assert (H : kept (calm n)
                (let* poll_ := General.poll p cleanup_poll n in
                 match poll_ with
                 | None =>
                     General.terminate p cleanup_terminate n ;;
                     let* _ := General.wait p cleanup_wait n 2 in ret tt
                 | Some _ => ret tt
                 end)) by general_calm_steps n.
  unfold General.probe_cleanup. apply (kept_try_except _ (calm_trans n)).
  - intros w. exact (H w).
  - intros e. apply (kept_ret _ (calm_refl n)).
Qed.

Lemma general_cleanup_unbound p w : General.probe_cleanup p None w = (Ok tt, w).
Proof. reflexivity. Qed.

Lemma calm_report_failure p n name e : kept (calm n) (report_failure p name e).
Proof. unfold report_failure. general_calm_steps n. Qed.

Lemma general_calm_handlers p n name (r : Result bool) process w1 :
  process = None \/ process = Some n ->
  calm n w1
    (snd (try_finally
            (try_except (fun w' => (r, w')) (fun e => isinstance e Exception)
               (report_failure p name))
            (General.probe_cleanup p process) w1)).
Proof.
  intros Hp.
  assert (H : kept (calm n)
                (try_finally
                   (try_except (fun w' => (r, w')) (fun e => isinstance e Exception)
                      (report_failure p name))
                   (General.probe_cleanup p process))); [|apply H].
  apply (kept_try_finally _ (calm_trans n)).
  - apply (kept_try_except _ (calm_trans n)); [intros w; apply calm_refl|].
    intros e. apply calm_report_failure.
  - destruct Hp as [-> | ->]; [|apply calm_general_cleanup].
    intros w. rewrite general_cleanup_unbound. apply calm_refl.
Qed.

(** After the pause, the steps of the probe leave alone everything but the
    process under probe. *)
Lemma general_probe_after_pause h p name timeout n w :
  match time_sleep h (clock w) timeout with
  | Some e =>
      General.probe h p name timeout n w =
        (Raise e,
         mkWorld (os_environ w) (console w) (console_err w) (spawned w)
           (imap (fun i q => if exited_early p i then elapse q else q) (procs w)) (clock w))
  | None =>
      calm n (mkWorld (os_environ w) (console w) (console_err w) (spawned w)
                (elapse <$> procs w) (clock w + timeout))
             (snd (General.probe h p name timeout n w))
  end.
Proof.
  unfold General.probe.
  match goal with |- context [bind (General.sleep h p timeout) ?k w] => set (K := k) end.
  unfold bind, General.sleep.
  destruct (time_sleep h (clock w) timeout) as [e|]; [done|].
  assert (H : kept (calm n) (K tt)) by (subst K; general_calm_steps n).
  apply H.
Qed.

Lemma early_or_not p i q :
  (if exited_early p i then elapse q else q) = q \/
  (if exited_early p i then elapse q else q) = elapse q.
Proof. destruct (exited_early p i); auto. Qed.

(** The footprint of a probe that reached its [try] statement. *)
Lemma general_try_footprint h p path script name timeout w r w' :
  (r, w') =
    (let '(r0, process, w1) :=
       General.probe_try h p path name timeout (printed (testing_lines script name) w) in
     try_finally
       (try_except (fun w2 => (r0, w2)) (fun e => isinstance e Exception)
          (report_failure p name))
       (General.probe_cleanup p process) w1) ->
  spawned w' = spawned w ++ [probe_args h path] /\
  clock w' = (clock w + (if pauses_after_spawn h path timeout w then timeout else 0))%nat /\
  console_err w' = console_err w /\
  os_environ w' = os_environ w /\
  (length (procs w) <= length (procs w') <= S (length (procs w)))%nat /\
  (forall i q, procs w !! i = Some q ->
     exists q', procs w' !! i = Some q' /\ (q' = q \/ q' = elapse q)).
Proof.
  unfold pauses_after_spawn.
  destruct (subprocess_Popen h (probe_args h path) (child_env w)) as [b|e] eqn:Hsp.
  - rewrite (general_probe_try_spawned _ _ _ _ _ _ _ b) by done.
    match goal with |- context [General.probe h p name timeout ?n ?w0] =>
      pose proof (general_probe_after_pause h p name timeout n w0) as Hp;
      destruct (General.probe h p name timeout n w0) as [r0 w2] eqn:Hrun end.
    cbn [clock] in Hp.
    pose proof (general_calm_handlers p (length (procs w)) name r0 (Some (length (procs w))) w2
                  (or_intror eq_refl)) as (H1 & H2 & H3 & H4 & H5 & H6).
    intros Heq. rewrite <- Heq in *. cbn [snd] in *. clear Heq.
    destruct (time_sleep h (clock w) timeout) as [e|].
    + injection Hp as -> ->. cbn [os_environ spawned console_err clock procs] in *.
      rewrite length_imap, length_app in H5. simpl in H5.
      rewrite H1, H2, H3, H4, H5.
      repeat split; try lia; try done.
      intros i q Hi. pose proof (lookup_lt_Some _ _ _ Hi).
      rewrite H6 by lia. rewrite list_lookup_imap, lookup_app_l, Hi by done. simpl.
      eexists. split; [reflexivity|]. apply early_or_not.
    + destruct Hp as (G1 & G2 & G3 & G4 & G5 & G6).
      cbn [os_environ spawned console_err clock procs snd] in *.
      rewrite length_fmap, length_app in G5. simpl in G5.
      rewrite H1, G1, H2, G2, H3, G3, H4, G4, H5, G5.
      repeat split; try lia; try done.
      intros i q Hi. pose proof (lookup_lt_Some _ _ _ Hi).
      rewrite H6, G6 by lia.
      rewrite list_lookup_fmap, lookup_app_l, Hi by done. simpl. eauto.
  - unfold General.probe_try. world_simpl. fold (child_env w). fold (probe_args h path).
    rewrite (Popen_raise _ _ _ e) by done.
    match goal with |- context [try_finally ?a ?b ?w1] =>
      pose proof (general_calm_handlers p (length (procs w)) name (Raise e) None w1
                    (or_introl eq_refl)) as (H1 & H2 & H3 & H4 & H5 & H6) end.
    intros Heq. rewrite <- Heq in *. cbn [snd] in *. clear Heq.
    cbn [os_environ spawned console_err clock procs] in *.
    rewrite H1, H2, H3, H4, H5. repeat split; try lia; try done.
    intros i q Hi. pose proof (lookup_lt_Some _ _ _ Hi). rewrite H6 by lia. eauto.
Qed.

(** X9: what a worker probe leaves behind, on every path.  It makes at
    most one process creation request, with the running interpreter and
    the path as [pathlib] writes it; the clock stays or advances by the
    probe duration; standard error and the environment mapping are
    untouched; the table gains at most one process; and a process that was
    in the table before gets no termination request: it is as it was, but
    for the passing of the pause.  Where every line can be written, the
    request is made exactly when the script is found, and the clock
    advances exactly when the process was created and the pause was not
    interrupted. *)
Theorem X9_probe_footprint h p script name timeout w :
  let w' := snd (General.check_mcp_server h p script name timeout w) in
  (spawned w' = spawned w \/
   spawned w' = spawned w ++ [[sys_executable h; Path_str p script]]) /\
  (clock w' = clock w \/ clock w' = (clock w + timeout)%nat) /\
  console_err w' = console_err w /\
  os_environ w' = os_environ w /\
  (length (procs w) <= length (procs w') <= S (length (procs w)))%nat /\
  (forall i q, procs w !! i = Some q ->
     exists q', procs w' !! i = Some q' /\ (q' = q \/ q' = elapse q)) /\
  (writes p ->
   spawned w' = spawned w ++ probe_requests h (Path_str p script) /\
   clock w' =
     (clock w + (if pauses h (Path_str p script) timeout w then timeout else 0))%nat).
Proof.
  intros w'. subst w'.
  destruct (General.check_mcp_server h p script name timeout w) as [r w'] eqn:Hrun.
  cbn [snd]. unfold pauses, probe_requests.
  apply general_check_cases in Hrun
    as [(e & lines & -> & -> & He)|[(e & Hex & -> & ->)|[(Hex & -> & ->)|(Hex & Hrun)]]].
  - cbn [printed with_console spawned clock console_err os_environ procs].
    split; [by left|]. split; [by left|]. split; [done|]. split; [done|].
    split; [lia|]. split; [eauto|].
    intros Hw. destruct He as (out & text & He). by rewrite Hw in He.
  - cbn [printed with_console spawned clock console_err os_environ procs]. rewrite Hex.
    split; [by left|]. split; [by left|]. split; [done|]. split; [done|].
    split; [lia|]. split; [eauto|]. intros _. by rewrite app_nil_r, Nat.add_0_r.
  - cbn [printed with_console spawned clock console_err os_environ procs]. rewrite Hex.
    split; [by left|]. split; [by left|]. split; [done|]. split; [done|].
    split; [lia|]. split; [eauto|]. intros _. by rewrite app_nil_r, Nat.add_0_r.
  - apply general_try_footprint in Hrun as (H1 & H2 & H3 & H4 & H5 & H6).
    rewrite Hex. unfold pauses_after_spawn in H2.
    split; [by right|]. split.
    { rewrite H2. destruct (subprocess_Popen _ _ _); [destruct (time_sleep _ _ _)|]; auto. }
    split; [done|]. split; [done|]. split; [lia|]. split; [done|]. intros _. done.
Qed.

(** ** An interrupted pause *)

Lemma table_changed_refl w : table_changed w w.
Proof. by repeat split. Qed.

Lemma table_changed_trans w1 w2 w3 :
  table_changed w1 w2 -> table_changed w2 w3 -> table_changed w1 w3.
Proof. intros (?&?&?&?&?) (?&?&?&?&?). repeat split; congruence. Qed.

Lemma table_changed_terminate n : kept table_changed (terminate n).
Proof.
  intros w. unfold terminate, with_proc.
  destruct (procs w !! n) as [q|]; [|apply table_changed_refl].
  destruct (p_returncode q); [apply table_changed_refl|]. by repeat split.
Qed.

Lemma table_changed_wait n secs : kept table_changed (wait n secs).
Proof.
  intros w. unfold wait, with_proc.
  destruct (procs w !! n) as [q|]; [|apply table_changed_refl].
  destruct (p_returncode q); [apply table_changed_refl|].
  destruct (p_terminate_requests q); [apply table_changed_refl|].
  destruct (exits_on_terminate (p_behaviour q)); [|apply table_changed_refl].
  by repeat split.
Qed.

(** The cleanup prints nothing and takes no time: it changes at most the
    process table. *)
Lemma table_changed_cleanup p process : kept table_changed (General.probe_cleanup p process).
Proof.
  unfold General.probe_cleanup, General.probe_cleanup_body.
  apply (kept_try_except _ table_changed_trans);
    [|intros e; apply (kept_ret _ table_changed_refl)].
  apply (kept_bind _ table_changed_trans); [apply (kept_load_local _ table_changed_refl)|].
  intros n. apply (kept_bind _ table_changed_trans).
  { apply (kept_during _ table_changed_refl), (kept_poll _ table_changed_refl). }
  intros [c|]; [apply (kept_ret _ table_changed_refl)|].
  apply (kept_bind _ table_changed_trans).
  { apply (kept_during _ table_changed_refl), table_changed_terminate. }
  intros _. apply (kept_bind _ table_changed_trans).
  { apply (kept_during _ table_changed_refl), table_changed_wait. }
  intros _. apply (kept_ret _ table_changed_refl).
Qed.

(** The cleanup of a process that is still running, when nothing arrives
    during its calls: one termination request, and the wait. *)
Lemma general_cleanup_running p env out err sp ps q clk n :
  n = length ps ->
  cleanup_goes_through p n ->
  p_returncode q = None ->
  General.probe_cleanup p (Some n) (mkWorld env out err sp (ps ++ [q]) clk) =
    (Ok tt,
     mkWorld env out err sp
       (ps ++ [mkProc (p_args q) (p_env q) (p_behaviour q)
                 (exits_on_terminate (p_behaviour q)) (S (p_terminate_requests q))]) clk).
Proof.
  intros Hn Hgo Hrun.
  unfold General.probe_cleanup, General.probe_cleanup_body, try_except, bind, load_local, ret.
  cbv beta iota.
  unfold General.poll, General.terminate, General.wait, General.during.
  rewrite !Hgo by done. world_simpl.
  rewrite poll_at by done. rewrite Hrun.
  rewrite terminate_at_running by done.
  destruct (exits_on_terminate (p_behaviour q)) as [c|] eqn:Hterm.
  - erewrite wait_at_exits by (first [done | reflexivity | exact Hterm]). reflexivity.
  - erewrite wait_at_stays by (first [done | reflexivity | exact Hterm]). reflexivity.
Qed.

(** X6: where the lines can be written, when the pause of a probe is
    interrupted by an exception that is not an [Exception] (a
    [KeyboardInterrupt]), that exception comes out of the probe with no
    failure line printed, whatever arrives during the cleanup.  When
    nothing arrives during the cleanup, a worker that had exited by itself
    before the interrupt keeps its status and gets no termination request;
    any other worker is asked to terminate, once: it has exited if it exits
    on such a request, and the [TimeoutExpired] of the wait is swallowed
    otherwise. *)
Theorem X6_interrupted_pause h p script name timeout w b e :
  writes p ->
  Path_exists h (Path_str p script) = Ok true ->
  subprocess_Popen h (probe_args h (Path_str p script)) (child_env w) = Ok b ->
  time_sleep h (clock w) timeout = Some e ->
  isinstance e Exception = false ->
  exists w',
    General.check_mcp_server h p script name timeout w = (Raise e, w') /\
    console w' = console w ++ testing_lines script name /\
    clock w' = clock w /\
    (cleanup_goes_through p (length (procs w)) ->
     procs w' !! length (procs w) =
       Some (match exits_during_probe b with
             | Some c =>
                 if exited_early p (length (procs w))
                 then mkProc (probe_args h (Path_str p script)) (child_env w) b (Some c) 0
                 else mkProc (probe_args h (Path_str p script)) (child_env w) b
                        (exits_on_terminate b) 1
             | None =>
                 mkProc (probe_args h (Path_str p script)) (child_env w) b
                   (exits_on_terminate b) 1
             end)).
Proof.
  intros Hw Hex Hsp Hsl He. rewrite general_found by done.
  rewrite (general_probe_try_spawned _ _ _ _ _ _ _ b) by done.
  unfold General.probe, bind at 1. rewrite (general_sleep_raise _ _ _ _ e) by done.
  unfold try_finally, try_except. rewrite He.
  cbn [procs]. rewrite imap_app. cbn [imap]. rewrite Nat.add_0_r.
  match goal with |- context [General.probe_cleanup p ?pr ?w0] =>
    pose proof (table_changed_cleanup p pr w0) as Hk;
    destruct (general_cleanup_total p pr w0) as [w' Hc] end.
  rewrite Hc in Hk |- *. cbn [snd] in Hk. destruct Hk as (_ & K2 & _ & _ & K5).
  exists w'. split; [reflexivity|]. split; [exact K2|]. split; [exact K5|].
  intros Hgo. revert Hc. set (n := length (procs w)).
  set (ps := imap (fun i q => if exited_early p i then elapse q else q) (procs w)).
  assert (Hn : n = length ps) by (subst ps; by rewrite length_imap).
  assert (Hlook : forall q, (ps ++ [q]) !! n = Some q).
  { intros q. by apply list_lookup_middle. }
  destruct (exits_during_probe b) as [c|] eqn:Hexit; [destruct (exited_early p n)|].
  - rewrite (elapse_exits _ _ _ _ c) by done.
    erewrite general_cleanup_exited by (first [reflexivity | exact Hn]).
    intros [= <-]. apply Hlook.
  - unfold new_proc. rewrite general_cleanup_running by done. intros [= <-]. apply Hlook.
  - unfold new_proc.
    assert (Hsame : (if exited_early p n
                     then elapse (mkProc (probe_args h (Path_str p script)) (child_env w) b None 0)
                     else mkProc (probe_args h (Path_str p script)) (child_env w) b None 0)
                    = mkProc (probe_args h (Path_str p script)) (child_env w) b None 0).
    { destruct (exited_early p n); [|done]. by apply elapse_resident. }
    rewrite Hsame. rewrite general_cleanup_running by done. intros [= <-]. apply Hlook.
Qed.

Lemma X6_interrupted_pause_witness :
  exists w',
    General.check_mcp_server (Platforms.interrupted_pause (Samples.quits ""))
      (Platforms.exiting_early (Platforms.posix Platforms.utf8_console Platforms.latin1_pipes))
      "tools/command_executor.py" "Command Executor Server" 3 Samples.world0
    = (Raise (mkExn KeyboardInterrupt ""), w') /\
    procs w' !! 0%nat =
      Some (mkProc ["/usr/bin/python3"; "tools/command_executor.py"]
              (child_env Samples.world0) (Samples.quits "") (Some 0) 0).
Proof.
  destruct (X6_interrupted_pause (Platforms.interrupted_pause (Samples.quits ""))
              (Platforms.exiting_early
                 (Platforms.posix Platforms.utf8_console Platforms.latin1_pipes))
              "tools/command_executor.py" "Command Executor Server" 3 Samples.world0
              (Samples.quits "") (mkExn KeyboardInterrupt ""))
    as (w' & H1 & _ & _ & H2).
  - intros out text. reflexivity.
  - reflexivity.
  - reflexivity.
  - reflexivity.
  - reflexivity.
  - exists w'. split; [exact H1|]. apply H2. intros site _. reflexivity.
Defined.

(** A worker that stays resident is asked to terminate by the cleanup when
    its pause is interrupted. *)
Lemma interrupted_resident_worker :
  p_terminate_requests <$>
    procs (snd (General.check_mcp_server (Platforms.interrupted_pause Samples.resident)
                  (Platforms.posix Platforms.utf8_console Platforms.latin1_pipes)
                  "tools/command_executor.py" "Command Executor Server" 3
                  Samples.world0)) !! 0%nat = Some 1%nat.
Proof. vm_compute. reflexivity. Qed.

(** ** What comes out of a worker probe *)

Lemma poll_raises n : raises_only (fun e => isinstance e Exception = true) (poll n).
Proof. intros w e w' [?|[q H]]%with_proc_raises; [done|discriminate H]. Qed.

Lemma terminate_raises n : raises_only (fun e => isinstance e Exception = true) (terminate n).
Proof.
  intros w e w' [?|[q H]]%with_proc_raises; [done|].
  revert H. destruct (p_returncode q); discriminate.
Qed.

Lemma wait_raises n secs :
  raises_only (fun e => isinstance e Exception = true) (wait n secs).
Proof.
  intros w e w' [?|[q H]]%with_proc_raises; [done|].
  revert H. destruct (p_returncode q); [discriminate|].
  destruct (p_terminate_requests q), (exits_on_terminate (p_behaviour q));
    try discriminate; intros [= <- _]; apply timeout_expired_is_Exception.
Qed.

Lemma raises_only_during {A} (P : exn -> Prop) p n site (m : M A) :
  raises_only P m -> (forall e, arrives p n site = Some e -> P e) ->
  raises_only P (General.during p n site m).
Proof.
  intros Hm Ha. unfold General.during. destruct (arrives p n site) as [e|]; [|done].
  apply raises_only_raise. by apply Ha.
Qed.

(** What the steps of the [try] suite raise once the pause is over: an
    [Exception], what arrived during a call, the error of the decoding, or
    the error of a print. *)
Lemma general_probe_raises h p name timeout n w e w' :
  General.probe h p name timeout n w = (Raise e, w') ->
  time_sleep h (clock w) timeout = Some e \/
  isinstance e Exception = true \/
  (exists site, in_try site = true /\ arrives p n site = Some e) \/
  (exists out err, pipes_text p out err = Raise e) \/
  write_error p e.
Proof.
  unfold General.probe. intros [H|(u & w1 & _ & H)]%bind_raise.
  - left. revert H. unfold General.sleep.
    destruct (time_sleep h (clock w) timeout); [by intros [= <- _]|discriminate].
  - right. revert H.
    set (P := fun e => isinstance e Exception = true \/
                (exists site, in_try site = true /\ arrives p n site = Some e) \/
                (exists out err, pipes_text p out err = Raise e) \/
                write_error p e).
    assert (HP : forall e, write_error p e -> P e) by (intros e0 H0; right; right; by right).
    assert (HE : forall {A} (m : M A),
               raises_only (fun e => isinstance e Exception = true) m -> raises_only P m).
    { intros A m. apply raises_only_weaken. intros e0 H0. by left. }
    assert (HA : forall site e0, in_try site = true -> arrives p n site = Some e0 -> P e0).
    { intros site e0 Hs H0. right; left. eauto. }
    match goal with |- ?m w1 = _ -> _ => assert (Hr : raises_only P m) end.
    { unfold General.poll, General.terminate, General.wait, General.communicate.
      raise_steps HP
        ltac:(first
                [ apply raises_only_during;
                  [first [ apply HE, poll_raises | apply HE, terminate_raises
                         | apply HE, wait_raises ]
                  | intros ?; by apply HA ] ]).
      all: apply raises_only_during; [|intros ?; by apply HA].
      all: intros w2 e2 w3 [?|[q Hq]]%with_proc_raises; [by left|].
      all: right; right; left; injection Hq as Hq _; eauto. }
    intros H. exact (Hr _ _ _ H).
Qed.

Lemma general_probe_try_raises h p path name timeout lines w e process w1 :
  General.probe_try h p path name timeout (printed lines w) = (Raise e, process, w1) ->
  isinstance e Exception = true \/ delivered_in_try h p path timeout w e \/ write_error p e.
Proof.
  unfold General.probe_try, delivered_in_try. world_simpl.
  fold (child_env w). fold (probe_args h path). unfold Popen.
  destruct (subprocess_Popen h (probe_args h path) (child_env w)) as [b|e0] eqn:Hsp.
  - match goal with |- context [General.probe h p name timeout ?n ?w0] =>
      destruct (General.probe h p name timeout n w0) as [r w2] eqn:Hp end.
    intros [= -> _ _]. apply general_probe_raises in Hp. cbn [clock procs] in Hp.
    destruct Hp as [?|[?|[?|[?|?]]]]; auto 6.
  - intros [= -> _ _]. right; left. by left.
Qed.

(** What comes out of a probe, and where from. *)
Lemma general_check_raises h p script name timeout w e w' :
  General.check_mcp_server h p script name timeout w = (Raise e, w') ->
  write_error p e \/
  Path_exists h (Path_str p script) = Raise e \/
  isinstance e Exception = false /\
  Path_exists h (Path_str p script) = Ok true /\
  delivered_in_try h p (Path_str p script) timeout w e.
Proof.
  intros [(e0 & lines & [= <-] & _ & He)|[(e0 & Hex & [= <-] & _)|
          [(_ & [=] & _)|(Hex & Hrun)]]]%general_check_cases; [by left|right; by left|].
  revert Hrun.
  destruct (General.probe_try h p (Path_str p script) name timeout
              (printed (testing_lines script name) w)) as [[r0 process] w1] eqn:Htry.
  unfold try_finally, try_except.
  destruct r0 as [b|e1].
  - destruct (general_cleanup_total p process w1) as [w2 ->]. discriminate.
  - destruct (isinstance e1 Exception) eqn:He1.
    + unfold report_failure, bind.
      match goal with |- context [General.print_error p ?t w1] =>
        destruct (General.print_error p t w1) as [[[]|e2] w2] eqn:Hprint end.
      * unfold ret. destruct (general_cleanup_total p process w2) as [w3 ->]. discriminate.
      * destruct (general_cleanup_total p process w2) as [w3 ->]. intros [= -> _].
        left. eapply (raises_only_print_error p _ (fun e H => H)). exact Hprint.
    + destruct (general_cleanup_total p process w1) as [w2 ->]. intros [= -> _].
      apply general_probe_try_raises in Htry as [H|[H|H]]; [congruence| |by left].
      right; right. done.
Qed.

(** X8: the exceptions that come out of a worker probe are the error of a
    print, what the existence test of the script path raised and, when the
    script exists, what the process creation, the pause, a call on the
    process in the [try] suite or the decoding delivered that is not an
    [Exception].  So the [TimeoutExpired] of a wait, the unbound-name
    error of the cleanup and whatever arrives during the cleanup never come
    out. *)
Theorem X8_probe_escapes h p script name timeout w e w' :
  General.check_mcp_server h p script name timeout w = (Raise e, w') ->
  write_error p e \/
  Path_exists h (Path_str p script) = Raise e \/
  isinstance e Exception = false /\
  Path_exists h (Path_str p script) = Ok true /\
  (subprocess_Popen h (probe_args h (Path_str p script)) (child_env w) = Raise e \/
   time_sleep h (clock w) timeout = Some e \/
   (exists site, in_try site = true /\ arrives p (length (procs w)) site = Some e) \/
   (exists out err, pipes_text p out err = Raise e)).
Proof. apply general_check_raises. Qed.

Lemma X8_probe_escapes_witness :
  write_error (Platforms.interrupt_during at_wait false) (mkExn KeyboardInterrupt "") \/
  Path_exists (Samples.healthy Samples.resident)
    (Path_str (Platforms.interrupt_during at_wait false) "tools/command_executor.py")
    = Raise (mkExn KeyboardInterrupt "") \/
  isinstance (mkExn KeyboardInterrupt "") Exception = false /\
  Path_exists (Samples.healthy Samples.resident)
    (Path_str (Platforms.interrupt_during at_wait false) "tools/command_executor.py")
    = Ok true /\
  (subprocess_Popen (Samples.healthy Samples.resident)
     (probe_args (Samples.healthy Samples.resident)
        (Path_str (Platforms.interrupt_during at_wait false) "tools/command_executor.py"))
     (child_env Samples.world0) = Raise (mkExn KeyboardInterrupt "") \/
   time_sleep (Samples.healthy Samples.resident) (clock Samples.world0) 3
     = Some (mkExn KeyboardInterrupt "") \/
   (exists site, in_try site = true /\
      arrives (Platforms.interrupt_during at_wait false) (length (procs Samples.world0)) site
        = Some (mkExn KeyboardInterrupt "")) \/
   (exists out err,
      pipes_text (Platforms.interrupt_during at_wait false) out err
        = Raise (mkExn KeyboardInterrupt ""))).
Proof.
  apply (X8_probe_escapes (Samples.healthy Samples.resident)
           (Platforms.interrupt_during at_wait false)
           "tools/command_executor.py" "Command Executor Server" 3 Samples.world0
           (mkExn KeyboardInterrupt "")
           (snd (General.check_mcp_server (Samples.healthy Samples.resident)
                   (Platforms.interrupt_during at_wait false)
                   "tools/command_executor.py" "Command Executor Server" 3
                   Samples.world0))).
  vm_compute. reflexivity.
Defined.

(** ** Which errors a check handles *)










(** ** The checks in order *)








(** ** The first part as a case of the general script *)

Lemma same_trans {A} (m1 m2 m3 : M A) : same m1 m2 -> same m2 m3 -> same m1 m3.
Proof. intros H1 H2 w. by rewrite H1. Qed.

Lemma bind_assoc {A B C} (m : M A) (k : A -> M B) (k' : B -> M C) :
  same (bind (bind m k) k') (bind m (fun a => bind (k a) k')).
Proof. intros w. unfold bind. by destruct (m w) as [[a|e] w1]. Qed.

Lemma imap_unchanged {A} (l : list A) : forall f : nat -> A -> A,
  (forall i x, f i x = x) -> imap f l = l.
Proof.
  induction l as [|x l IH]; intros f Hf; [done|].
  rewrite imap_cons, Hf. f_equal. apply IH. intros i y. apply Hf.
Qed.

Section Plain.
Variables (h : Host) (p : Platform).
Hypothesis Hplain : plain p.

Lemma plain_sleep secs : same (General.sleep h p secs) (sleep h secs).
Proof.
  destruct Hplain as (_ & _ & _ & Hearly). intros w. unfold General.sleep, sleep.
  destruct (time_sleep h (clock w) secs); [|done]. f_equal.
  destruct w as [env out err sp ps clk]. unfold with_procs; simpl. f_equal.
  apply imap_unchanged. intros i q. by rewrite Hearly.
Qed.

Lemma plain_during {A} n site (m : M A) : General.during p n site m = m.
Proof. destruct Hplain as (_ & _ & Harr & _). by apply during_none. Qed.

Lemma plain_communicate n : same (General.communicate p n) (communicate n).
Proof.
  intros w. unfold General.communicate, communicate. rewrite plain_during.
  unfold with_proc. destruct (procs w !! n) as [q|]; [|done].
  destruct Hplain as (_ & Hpipes & _). unfold call, ret. by rewrite Hpipes.
Qed.

Lemma plain_probe name timeout n :
  same (General.probe h p name timeout n) (probe h name timeout n).
Proof.
  destruct Hplain as (Hw & _). unfold General.probe, probe.
  unfold General.poll, General.terminate, General.wait. rewrite !plain_during.
  same_steps ltac:(first [same_prints Hw | apply plain_sleep | apply plain_communicate]).
Qed.

Lemma plain_cleanup process : same (General.probe_cleanup p process) (probe_cleanup process).
Proof.
  unfold General.probe_cleanup, probe_cleanup, General.probe_cleanup_body, probe_cleanup_body.
  unfold General.poll, General.terminate, General.wait.
  apply same_try_except; [|intros e; apply same_refl].
  apply same_bind; [apply same_refl|]. intros n. rewrite !plain_during. apply same_refl.
Qed.

Lemma plain_check_mcp_server script name timeout :
  Path_str p script = script ->
  same (General.check_mcp_server h p script name timeout)
       (check_mcp_server h script name timeout).
Proof.
  intros Hpath. pose proof Hplain as (Hw & _).
  unfold General.check_mcp_server, check_mcp_server. rewrite Hpath.
  same_steps ltac:(same_prints Hw).
  intros w. unfold General.probe_try, probe_try.
  match goal with |- context [Popen h ?args ?env w] =>
    destruct (Popen h args env w) as [[n|e] w1] end.
  - rewrite plain_probe. destruct (probe h name timeout n w1) as [r w2].
    apply same_try_finally; [|apply plain_cleanup].
    apply same_try_except; [apply same_refl|]. intros e.
    same_steps ltac:(same_prints Hw).
  - apply same_try_finally; [|apply plain_cleanup].
    apply same_try_except; [apply same_refl|]. intros e0.
    same_steps ltac:(same_prints Hw).
Qed.

(** On a plain platform that writes the two script paths as they are
    given, a run is the run of the first part. *)
Lemma plain_main :
  Path_str p "tools/command_executor.py" = "tools/command_executor.py" ->
  Path_str p "tools/code_implementation_server.py" = "tools/code_implementation_server.py" ->
  same (General.main_checks h p) (main_checks h) /\ same (General.main h p) (main h).
Proof.
  intros H1 H2. pose proof Hplain as (Hw & _).
  assert (Hc : same (General.main_checks h p) (main_checks h)).
  { unfold General.main_checks, main_checks, General.banner.
    eapply same_trans; [apply bind_assoc|]. apply same_bind; [same_prints Hw|]. intros _.
    eapply same_trans; [apply bind_assoc|]. apply same_bind; [same_prints Hw|]. intros _.
    same_steps ltac:(first
      [ same_prints Hw | by apply check_python_version_same | by apply check_python_path_same
      | by apply check_dependencies_same | by apply check_encoding_same
      | by apply check_pythonpath_same | by apply plain_check_mcp_server ]). }
  split; [exact Hc|]. unfold General.main, main.
  apply same_bind; [exact Hc|]. intros results. by apply main_summary_same.
Qed.
End Plain.

(** ** Output that cannot be decoded, and paths *)

(** X15: where the lines can be written, a worker that has exited when
    polled and whose captured output cannot be decoded makes the probe
    return fail whatever its exit status: [communicate] raises the error of
    the decoding inside the [try] suite, the handler prints it in a failure
    line, and the process keeps its status. *)
Theorem X15_undecodable_output h p script name timeout w b code e :
  writes p ->
  Path_exists h (Path_str p script) = Ok true ->
  subprocess_Popen h (probe_args h (Path_str p script)) (child_env w) = Ok b ->
  time_sleep h (clock w) timeout = None ->
  exits_during_probe b = Some code ->
  calls_go_through p (length (procs w)) ->
  pipes_text p (captured_stdout b) (captured_stderr b) = Raise e ->
  isinstance e Exception = true ->
  exists w',
    General.check_mcp_server h p script name timeout w = (Ok false, w') /\
    console w' =
      console w ++ testing_lines script name
        ++ [error_line ("Failed to test " +:+ name +:+ ": " +:+ exn_str e)] /\
    procs w' !! length (procs w) =
      Some (mkProc (probe_args h (Path_str p script)) (child_env w) b (Some code) 0).
Proof.
  intros Hw Hex Hsp Hsl Hcode Hcalls Hpipes He.
  rewrite (general_undecodable _ _ _ _ _ _ b code e) by (auto; by apply Hcalls).
  rewrite He. eexists. split; [reflexivity|]. split; [reflexivity|].
  cbn [procs]. apply list_lookup_middle. by rewrite length_fmap.
Qed.

Lemma X15_undecodable_output_witness :
  exists w',
    General.check_mcp_server (Samples.healthy (Samples.quits "✓ ready"))
      (Platforms.posix Platforms.utf8_console Platforms.ascii_pipes)
      "tools/command_executor.py" "Command Executor Server" 3 Samples.world0
    = (Ok false, w') /\
    last (console w') =
      Some (error_line ("Failed to test Command Executor Server: 'ascii' codec can't decode "
                          +:+ "byte 0xe2 in position 0: ordinal not in range(128)")).
Proof.
  destruct (X15_undecodable_output (Samples.healthy (Samples.quits "✓ ready"))
              (Platforms.posix Platforms.utf8_console Platforms.ascii_pipes)
              "tools/command_executor.py" "Command Executor Server" 3 Samples.world0
              (Samples.quits "✓ ready") 0
              (Platforms.ascii_decode_error "✓ ready"))
    as (w' & H1 & H2 & _).
  - intros out text. reflexivity.
  - reflexivity.
  - reflexivity.
  - reflexivity.
  - reflexivity.
  - intros site _. reflexivity.
  - reflexivity.
  - reflexivity.
  - exists w'. split; [exact H1|]. rewrite H2. vm_compute. reflexivity.
Defined.

(** The process is created with the path as [pathlib] writes it, the
    messages show the path as it was given. *)
Lemma probe_request_normalised :
  spawned (snd (General.check_mcp_server (Samples.healthy Samples.resident)
                  (Platforms.posix Platforms.utf8_console Platforms.latin1_pipes)
                  "./tools/command_executor.py" "Command Executor Server" 3
                  Samples.world0)) =
    [["/usr/bin/python3"; "tools/command_executor.py"]] /\
  info_line "Testing: ./tools/command_executor.py" ∈
    console (snd (General.check_mcp_server (Samples.healthy Samples.resident)
                    (Platforms.posix Platforms.utf8_console Platforms.latin1_pipes)
                    "./tools/command_executor.py" "Command Executor Server" 3
                    Samples.world0)).
Proof. split; [vm_compute; reflexivity|]. vm_compute. set_solver. Qed.
